(** * gerbi.models: pages, contents and their derived caches

    A shallow embedding of [gerbi/models.py] (class [Page], class
    [Content]) together with the properties of the tree / content / cache
    triad.  Python objects are records, the database and Django's cache
    are an explicit [World] threaded through a small state-and-exception
    monad, and the tree index that [mptt] maintains is a forest of rose
    trees in document order (the order of [Meta.ordering = tree_id, lft]). *)

From Stdlib Require Import ZArith List String Ascii DecimalString DecimalZ Lia.
From stdpp Require Import base option list gmap strings.

Set Warnings "-register-all,-clear-no-such-hyp".
Local Open Scope string_scope.
Local Open Scope Z_scope.

(** ** Python values *)

(** [u"..." % d]: the decimal rendering used by the ["%d"] and ["%s"]
    conversions of an integer. *)
Definition str_of_int (i : Z) : string := NilEmpty.string_of_int (Z.to_int i).

(** Exceptions that the modelled code can raise. *)
Inductive Exn :=
| ValueError (msg : string)
| AssertionError (msg : string)
| TypeError
| IndexError
| AttributeError
| DoesNotExist.

Inductive Result (A : Type) :=
| Ok (a : A)
| Raise (e : Exn).
Arguments Ok {A} a.
Arguments Raise {A} e.

(** ["..." % self.id] with a [%d] conversion: a number is required. *)
Definition fmt_d (pre : string) (i : option Z) (post : string) : Result string :=
  match i with
  | Some n => Ok (pre +:+ str_of_int n +:+ post)
  | None => Raise TypeError
  end.

(** ["..." % self.id] with a [%s] conversion: [str(None)] is ["None"]. *)
Definition fmt_s (pre : string) (i : option Z) : string :=
  match i with
  | Some n => pre +:+ str_of_int n
  | None => pre +:+ "None"
  end.

(** Truth value of an optional integer ([None] and [0] are false). *)
Definition truthy_int (i : option Z) : bool :=
  match i with
  | Some n => negb (n =? 0)
  | None => false
  end.

(** Truth value of an optional string ([None] and [u''] are false). *)
Definition truthy_str (s : option string) : bool :=
  match s with
  | Some "" => false
  | Some _ => true
  | None => false
  end.

(** Truth value of an optional object without [__len__] (a datetime, a
    model instance): only [None] is false. *)
Definition truthy_obj {A} (o : option A) : bool :=
  match o with
  | Some _ => true
  | None => false
  end.

(** ** Settings ([gerbi.settings]) *)

Record Settings := mkSettings {
  GERBI_SHOW_START_DATE : bool;
  GERBI_SHOW_END_DATE : bool;
  GERBI_HIDE_ROOT_SLUG : bool;
  GERBI_HIDE_SITES : bool;
  GERBI_USE_SITE_ID : bool;
  SITE_ID : Z;
  GERBI_DEFAULT_LANGUAGE : string;
  GERBI_LANGUAGES : list (string * string);
  GERBI_DEFAULT_TEMPLATE : string
}.

(** ** Data model *)

(** Timestamps are points on an integer time line. *)
Definition datetime := Z.

(** [Page.cache]: language -> content type -> (body, creation date). *)
Abbreviation content_dict := (gmap string (gmap string (string * datetime))).
(** [Page._complete_slug]: language -> complete slug. *)
Abbreviation slug_dict := (gmap string string).

(** class Page: the columns the methods below read or write, then the
    per-instance caches that [__init__] sets to [None].  [pk] is the
    primary key ([self.id], [self.pk]); [parent] is the [parent_id]
    column, and [_parent_cache] says whether the row it names has been
    loaded on this instance (Django keeps the object a foreign key
    resolves to on the instance, once it has been asked for). *)
Record Page := mkPage {
  pk : option Z;
  parent : option Z;
  publication_date : option datetime;
  publication_end_date : option datetime;
  last_modification_date : option datetime;
  status : option Z;
  template : option string;
  freeze_date : option datetime;
  (* per instance cache *)
  cache : option content_dict;
  _languages : option (list string);
  _complete_slug : option slug_dict;
  _is_first_root : option bool;
  _parent_cache : bool
}.

Definition DRAFT : Z := 0.
Definition PUBLISHED : Z := 1.
Definition EXPIRED : Z := 2.
Definition HIDDEN : Z := 3.

Definition GERBI_URL_KEY (i : option Z) : Result string := fmt_d "page_" i "_url".
Definition GERBI_BROKEN_LINK_KEY (i : option Z) : string := fmt_s "page_broken_link_" i.
Definition GERBI_PAGE_KEY (i : option Z) : Result string := fmt_d "gerbi_page_" i "".
Definition GERBI_FIRST_ROOT_ID : string := "GERBI_FIRST_ROOT_ID".

Definition set_pk (v : option Z) (p : Page) : Page :=
  mkPage v (parent p) (publication_date p) (publication_end_date p)
    (last_modification_date p) (status p) (template p) (freeze_date p)
    (cache p) (_languages p) (_complete_slug p) (_is_first_root p)
    (_parent_cache p).
Definition set_publication_date (v : option datetime) (p : Page) : Page :=
  mkPage (pk p) (parent p) v (publication_end_date p)
    (last_modification_date p) (status p) (template p) (freeze_date p)
    (cache p) (_languages p) (_complete_slug p) (_is_first_root p)
    (_parent_cache p).
Definition set_last_modification_date (v : option datetime) (p : Page) : Page :=
  mkPage (pk p) (parent p) (publication_date p) (publication_end_date p)
    v (status p) (template p) (freeze_date p)
    (cache p) (_languages p) (_complete_slug p) (_is_first_root p)
    (_parent_cache p).
Definition set_status (v : option Z) (p : Page) : Page :=
  mkPage (pk p) (parent p) (publication_date p) (publication_end_date p)
    (last_modification_date p) v (template p) (freeze_date p)
    (cache p) (_languages p) (_complete_slug p) (_is_first_root p)
    (_parent_cache p).
Definition set_cache (v : option content_dict) (p : Page) : Page :=
  mkPage (pk p) (parent p) (publication_date p) (publication_end_date p)
    (last_modification_date p) (status p) (template p) (freeze_date p)
    v (_languages p) (_complete_slug p) (_is_first_root p)
    (_parent_cache p).
Definition set__languages (v : option (list string)) (p : Page) : Page :=
  mkPage (pk p) (parent p) (publication_date p) (publication_end_date p)
    (last_modification_date p) (status p) (template p) (freeze_date p)
    (cache p) v (_complete_slug p) (_is_first_root p)
    (_parent_cache p).
Definition set__complete_slug (v : option slug_dict) (p : Page) : Page :=
  mkPage (pk p) (parent p) (publication_date p) (publication_end_date p)
    (last_modification_date p) (status p) (template p) (freeze_date p)
    (cache p) (_languages p) v (_is_first_root p) (_parent_cache p).
Definition set__is_first_root (v : option bool) (p : Page) : Page :=
  mkPage (pk p) (parent p) (publication_date p) (publication_end_date p)
    (last_modification_date p) (status p) (template p) (freeze_date p)
    (cache p) (_languages p) (_complete_slug p) v (_parent_cache p).
Definition set__parent_cache (v : bool) (p : Page) : Page :=
  mkPage (pk p) (parent p) (publication_date p) (publication_end_date p)
    (last_modification_date p) (status p) (template p) (freeze_date p)
    (cache p) (_languages p) (_complete_slug p) (_is_first_root p) v.

(** class Content: one revision of one placeholder of one page;
    [content_pk] is the primary key ([self.id], unset until the revision
    is first saved) and [page] is the [Page] object the foreign key
    resolves to. *)
Record Content := mkContent {
  content_pk : option Z;
  language : string;
  body : string;
  type : string;
  page : Page;
  creation_date : datetime
}.

Definition set_content_pk (v : option Z) (c : Content) : Content :=
  mkContent v (language c) (body c) (type c) (page c) (creation_date c).

(** The Page table as the tree index sees it: a forest in document
    order.  The top-level trees are the root pages in [tree_id] order; the
    children of a node are in [lft] order. *)
Inductive tree := Node (row : Page) (kids : list tree).
Abbreviation forest := (list tree).

(** A position in the forest: the index of the root, then child indices. *)
Abbreviation path := (list nat).

(** ** The tree index

    [mptt.models.MPTTModel] is an external collaborator: the methods of
    [Page] only forward to it.  Its queries are stated here on the forest;
    where [mptt] filters on [tree_id], [lft] and [rght] the model walks
    the corresponding positions of the rose trees.  As in [mptt], root
    nodes are siblings of one another. *)
Module MPTT.

Definition row_of (t : tree) : Page := let 'Node r _ := t in r.
Definition kids_of (t : tree) : list tree := let 'Node _ ks := t in ks.

Fixpoint subtree (t : tree) (p : path) : option tree :=
  match p with
  | [] => Some t
  | k :: q => c ← kids_of t !! k; subtree c q
  end.

Definition node_at (f : forest) (p : path) : option tree :=
  match p with
  | [] => None
  | k :: q => t ← f !! k; subtree t q
  end.

(** The sibling list that holds position [p]: the roots for a root,
    the children of the parent otherwise. *)
Definition level_at (f : forest) (p : path) : list tree :=
  match removelast p with
  | [] => f
  | q => from_option kids_of [] (node_at f q)
  end.

(** Document order of one tree: the node, then its subtrees. *)
Fixpoint preorder (t : tree) : list Page :=
  match t with
  | Node r ks => r :: flat_map preorder ks
  end.

Definition find_first {A} (g : A -> option path) : nat -> list A -> option path :=
  fix scan (k : nat) (ts : list A) : option path :=
    match ts with
    | [] => None
    | c :: ts' =>
        match g c with
        | Some q => Some (k :: q)
        | None => scan (S k) ts'
        end
    end.

(** Position, below [t], of the first row in document order whose
    primary key is [i]. *)
Fixpoint find_pk (i : Z) (t : tree) : option path :=
  match t with
  | Node r ks =>
      if decide (pk r = Some i) then Some []
      else find_first (find_pk i) 0%nat ks
  end.

Definition locate (f : forest) (i : Z) : option path :=
  find_first (find_pk i) 0%nat f.

(** Where the row of [self] sits in the tree. *)
Definition position (f : forest) (self : Page) : option path :=
  i ← pk self; locate f i.

Definition node_of (f : forest) (self : Page) : option tree :=
  position f self ≫= node_at f.

(** [is_root_node]: the [parent_id] column is [None]. *)
Definition is_root_node (self : Page) : bool := negb (truthy_obj (parent self)).

Definition get_children (f : forest) (self : Page) : list Page :=
  from_option (fun t => row_of <$> kids_of t) [] (node_of f self).

Definition get_descendants (f : forest) (self : Page) : list Page :=
  from_option (fun t => flat_map preorder (kids_of t)) [] (node_of f self).

Definition get_next_sibling (f : forest) (self : Page) : option Page :=
  p ← position f self;
  k ← last p;
  row_of <$> level_at f p !! S k.

Definition get_previous_sibling (f : forest) (self : Page) : option Page :=
  p ← position f self;
  k ← last p;
  match k with
  | O => None
  | S k' => row_of <$> level_at f p !! k'
  end.

(** Positions of the ancestors of [p], root first. *)
Definition ancestor_paths (p : path) : list path :=
  (fun n => take n p) <$> seq 1 (length p - 1).

Definition get_ancestors (f : forest) (ascending : bool) (self : Page) : list Page :=
  let rows :=
    from_option (fun p => omap (fun q => row_of <$> node_at f q) (ancestor_paths p))
                [] (position f self) in
  if ascending then reverse rows else rows.

Definition get_root (f : forest) (self : Page) : option Page :=
  p ← position f self; row_of <$> node_at f (take 1 p).

(** Referential consistency of the table: every row has a primary key,
    no key occurs twice, the [parent_id] of a root is [None] and that
    of a child is the key of the node above it. *)
Fixpoint wf_tree (par : option Z) (t : tree) : bool :=
  match t with
  | Node r ks =>
      bool_decide (parent r = par) && bool_decide (is_Some (pk r))
      && forallb (wf_tree (pk r)) ks
  end.

Definition rows (f : forest) : list Page := flat_map preorder f.

Definition wf_forest (f : forest) : bool :=
  forallb (wf_tree None) f && bool_decide (NoDup (omap pk (rows f))).

End MPTT.

(** ** The world outside the objects: database tables and Django's cache *)

Inductive CacheVal :=
| VContent (d : content_dict)
| VSlug (d : slug_dict)
| VInt (i : Z)
| VBool (b : bool).

(** One call on [django.core.cache.cache]. *)
Inductive CacheOp :=
| CacheGet (k : string)
| CacheSet (k : string) (v : CacheVal)
| CacheDelete (k : string).

Record World := mkWorld {
  pages : forest;                       (* the Page table *)
  contents : list Content;              (* the Content table *)
  page_sites : list (Z * Z);            (* the Page.sites relation *)
  django_cache : gmap string CacheVal;  (* the shared cache *)
  cache_calls : list CacheOp;           (* calls made on it, oldest first *)
  ticks : nat                           (* readings taken from the clock *)
}.

Definition M (A : Type) : Type := World -> Result A * World.

#[export] Instance M_ret : MRet M := fun A a w => (Ok a, w).
#[export] Instance M_bind : MBind M := fun A B k m w =>
  match m w with
  | (Ok a, w') => k a w'
  | (Raise e, w') => (Raise e, w')
  end.

Definition raise {A} (e : Exn) : M A := fun w => (Raise e, w).
Definition lift {A} (r : Result A) : M A := fun w => (r, w).
Definition ask : M World := fun w => (Ok w, w).

(** [try: m except e: h]: [handler] says which exceptions are caught. *)
Definition try_except {A} (m : M A) (handler : Exn -> option (M A)) : M A := fun w =>
  match m w with
  | (Ok a, w') => (Ok a, w')
  | (Raise e, w') =>
      match handler e with
      | Some h => h w'
      | None => (Raise e, w')
      end
  end.

Definition cache_get (k : string) : M (option CacheVal) := fun w =>
  (Ok (django_cache w !! k),
   mkWorld (pages w) (contents w) (page_sites w) (django_cache w)
           (cache_calls w ++ [CacheGet k]) (ticks w)).

Definition cache_set (k : string) (v : CacheVal) : M unit := fun w =>
  (Ok tt,
   mkWorld (pages w) (contents w) (page_sites w) (<[k := v]> (django_cache w))
           (cache_calls w ++ [CacheSet k v]) (ticks w)).

Definition cache_delete (k : string) : M unit := fun w =>
  (Ok tt,
   mkWorld (pages w) (contents w) (page_sites w) (delete k (django_cache w))
           (cache_calls w ++ [CacheDelete k]) (ticks w)).

(** ** Django query sets, as far as the methods use them *)

Definition qs_count {A} (qs : list A) : Z := Z.of_nat (length qs).

Definition negative_indexing : Exn :=
  AssertionError "Negative indexing is not supported.".

(** [qs[k]]: [QuerySet.__getitem__] asserts that the index is not
    negative before it looks at the rows. *)
Definition qs_index {A} (qs : list A) (k : Z) : Result A :=
  if k <? 0 then Raise negative_indexing
  else match qs !! Z.to_nat k with
       | Some a => Ok a
       | None => Raise IndexError
       end.

(** [qs[start:stop]]: the same assertion covers both bounds of a slice. *)
Definition qs_slice {A} (qs : list A) (start stop : Z) : Result (list A) :=
  if (start <? 0) || (stop <? 0) then Raise negative_indexing
  else Ok (take (Z.to_nat stop - Z.to_nat start) (drop (Z.to_nat start) qs)).

Definition res_map {A B} (g : A -> B) (r : Result A) : Result B :=
  match r with
  | Ok a => Ok (g a)
  | Raise e => Raise e
  end.

(** A saved row holds the columns only: a loaded instance starts with
    the per-instance caches that [__init__] sets, and with no related
    row loaded. *)
Definition as_row (p : Page) : Page :=
  set_cache None (set__languages None (set__complete_slug None (set__is_first_root None
    (set__parent_cache false p)))).

Fixpoint replace_row (i : Z) (r : Page) (t : tree) : tree :=
  match t with
  | Node r0 ks =>
      Node (if decide (pk r0 = Some i) then r else r0) (map (replace_row i r) ks)
  end.

Fixpoint insert_under (i : Z) (n : tree) (t : tree) : tree :=
  match t with
  | Node r0 ks =>
      let ks' := map (insert_under i n) ks in
      Node r0 (if decide (pk r0 = Some i) then ks' ++ [n] else ks')
  end.

(** The key an [AutoField] hands out next. *)
Definition next_pk (f : forest) : Z :=
  1 + foldr Z.max 0 (omap pk (MPTT.rows f)).

Definition next_content_pk (cs : list Content) : Z :=
  1 + foldr Z.max 0 (omap content_pk cs).

Definition replace_content (i : Z) (c x : Content) : Content :=
  if decide (content_pk x = Some i) then c else x.

Section Gerbi.

Variable settings : Settings.
(** [clock n] is what the [n]-th call of [datetime.now()] returns. *)
Variable clock : nat -> datetime.

Definition datetime_now : M datetime := fun w =>
  (Ok (clock (ticks w)),
   mkWorld (pages w) (contents w) (page_sites w) (django_cache w)
           (cache_calls w) (S (ticks w))).

(** *** Managers ([gerbi.managers]) *)

(** Modelled from the spec: [PageManager.root] is not in the sources;
    the spec makes the first root "the canonical first-level page
    (determined by the Tree Index's root ordering)", so [root()] lists
    the root pages in tree order. *)
Definition objects_root (w : World) : list Page := MPTT.row_of <$> pages w.

(** [Page.objects.get(id=i)] *)
Definition objects_get (f : forest) (i : Z) : Result Page :=
  match MPTT.locate f i ≫= MPTT.node_at f with
  | Some t => Ok (MPTT.row_of t)
  | None => Raise DoesNotExist
  end.

(** The filter [language=lang, page=self] with
    [creation_date__lte=self.freeze_date] when the page is frozen. *)
Definition content_filter (self : Page) (lang : string) (c : Content) : bool :=
  match pk self, pk (page c) with
  | Some a, Some b => a =? b
  | _, _ => false
  end
  && String.eqb (language c) lang
  && match freeze_date self with
     | Some d => creation_date c <=? d
     | None => true
     end.

Definition newest (cs : list Content) : option Content :=
  foldl (fun best c =>
           match best with
           | Some b => if creation_date b <? creation_date c then Some c else best
           | None => Some c
           end) None cs.

(** Modelled from the spec: [ContentManager.get_content_object] is not
    in the sources; the spec's [latest(page, language, type,
    freeze_before)] "selects, among revisions matching (page, language,
    type) and with creation timestamp <= freeze_before when set, the one
    with maximal creation timestamp".  [None] stands for
    [Content.DoesNotExist]. *)
Definition get_content_object (w : World) (self : Page) (lang ctype : string)
  : option Content :=
  newest (filter (fun c => content_filter self lang c && String.eqb (type c) ctype)
                 (contents w)).

(** [if not language: language = settings.GERBI_DEFAULT_LANGUAGE] *)
Definition language_or_default (lang : option string) : string :=
  if truthy_str lang then default "" lang else GERBI_DEFAULT_LANGUAGE settings.

(** Modelled from the spec: [ContentManager.get_content] is not in the
    sources; the spec's [resolve(page, language, type, allow_fallback)]
    "returns the body of latest(...); if not found and allow_fallback is
    true, repeats the lookup across the remaining configured languages in
    their configured priority order, returning the first non-empty hit,
    else None".  A missing language means the default one. *)
Definition objects_get_content (w : World) (self : Page) (lang : option string)
    (ctype : string) (language_fallback : bool) : option string :=
  let lang := language_or_default lang in
  match get_content_object w self lang ctype with
  | Some c => Some (body c)
  | None =>
      if language_fallback then
        head (filter (fun b => negb (String.eqb b ""))
                (omap (fun l => body <$> get_content_object w self l ctype)
                      (filter (fun l => negb (String.eqb l lang))
                              (fst <$> GERBI_LANGUAGES settings))))
      else None
  end.

(** *** class Page *)

(** [super(Page, self).save()]: the row is written under its key, or
    inserted under a fresh key as the last child of its parent (as the
    last root without one).  A saved row keeps its place in the tree:
    re-parenting is [mptt]'s [move_to], on which nothing below depends. *)
Definition model_save (self : Page) : M Page := fun w =>
  let f := pages w in
  let stored (f' : forest) :=
    mkWorld f' (contents w) (page_sites w) (django_cache w) (cache_calls w) (ticks w) in
  match pk self ≫= MPTT.locate f with
  | Some _ =>
      (Ok self, stored (map (replace_row (default 0 (pk self)) (as_row self)) f))
  | None =>
      let self := if truthy_obj (pk self) then self else set_pk (Some (next_pk f)) self in
      let n := Node (as_row self) [] in
      match parent self ≫= MPTT.locate f with
      | Some _ => (Ok self, stored (map (insert_under (default 0 (parent self)) n) f))
      | None => (Ok self, stored (f ++ [n])%list)
      end
  end.

Definition sites_count (self : Page) : M Z := fun w =>
  (Ok (qs_count (filter (fun l => bool_decide (Some (fst l) = pk self)) (page_sites w))), w).

Definition sites_add (self : Page) (site : Z) : M unit := fun w =>
  (Ok tt,
   mkWorld (pages w) (contents w) (page_sites w ++ [(default 0 (pk self), site)])
           (django_cache w) (cache_calls w) (ticks w)).

Definition invalidate (self : Page) : M Page :=
  cache_delete GERBI_FIRST_ROOT_ID;;
  key ← lift (GERBI_PAGE_KEY (pk self));
  cache_delete key;;
  let self := set__languages None self in
  let self := set__complete_slug None self in
  let self := set_cache None self in
  key ← lift (GERBI_URL_KEY (pk self));
  cache_delete key;;
  mret self.

Definition save (self : Page) : M Page :=
  let self := if negb (truthy_int (status self))
              then set_status (Some DRAFT) self else self in
  (* Published gerbi should always have a publication date *)
  self ← (if bool_decide (publication_date self = None)
             && bool_decide (status self = Some PUBLISHED)
          then now ← datetime_now; mret (set_publication_date (Some now) self)
          else mret self);
  (* Drafts should not, unless they have been set to the future *)
  self ← (if bool_decide (status self = Some DRAFT) then
            if GERBI_SHOW_START_DATE settings then
              match publication_date self with
              | Some d =>
                  now ← datetime_now;
                  mret (if d <=? now then set_publication_date None self else self)
              | None => mret self
              end
            else mret (set_publication_date None self)
          else mret self);
  now ← datetime_now;
  let self := set_last_modification_date (Some now) self in
  (* let's assume there is no more broken links after a save *)
  cache_delete (GERBI_BROKEN_LINK_KEY (pk self));;
  self ← model_save self;
  self ← invalidate self;
  (* fix sites many-to-many link when the're hidden from the form *)
  (if GERBI_HIDE_SITES settings then
     if GERBI_USE_SITE_ID settings then
       n ← sites_count self;
       if n =? 0 then sites_add self (SITE_ID settings) else mret tt
     else raise AttributeError
   else mret tt);;
  mret self.

Definition _get_calculated_status (self : Page) : M (option Z) :=
  early ← (if GERBI_SHOW_START_DATE settings then
             match publication_date self with
             | Some d => now ← datetime_now; mret (bool_decide (d > now))
             | None => mret false
             end
           else mret false);
  if early : bool then mret (Some DRAFT)
  else
    late ← (if GERBI_SHOW_END_DATE settings then
              match publication_end_date self with
              | Some d => now ← datetime_now; mret (bool_decide (d < now))
              | None => mret false
              end
            else mret false);
    if late : bool then mret (Some EXPIRED)
    else mret (status self).

Definition _visible (self : Page) : M bool :=
  s ← _get_calculated_status self;
  mret (bool_decide (s = Some PUBLISHED) || bool_decide (s = Some HIDDEN)).

(** MPTT methods overridden to enable proxying: each forwards to
    [MPTTModel] and hands the result back. *)
Definition get_ancestors (f : forest) (self : Page) (ascending : bool) : list Page :=
  MPTT.get_ancestors f ascending self.
Definition get_children (f : forest) (self : Page) : list Page :=
  MPTT.get_children f self.
Definition get_descendants (f : forest) (self : Page) : list Page :=
  MPTT.get_descendants f self.
Definition get_next_sibling (f : forest) (self : Page) : option Page :=
  MPTT.get_next_sibling f self.
Definition get_previous_sibling (f : forest) (self : Page) : option Page :=
  MPTT.get_previous_sibling f self.
Definition get_root (f : forest) (self : Page) : option Page :=
  MPTT.get_root f self.

(** [self.parent]: the key of the parent row, once that row is on the
    instance.  Without a [parent_id] the attribute is [None] and nothing
    is loaded; else the row is fetched from the Page table the first
    time, [DoesNotExist] when the table has no such row, and kept.
    ([get_parent] and [get_prev_in_book] below fetch the row by its key
    themselves once the attribute is there, so that what they return is
    the same with and without a row on the instance.) *)
Definition self_parent (self : Page) : M (option Z * Page) :=
  match parent self with
  | None => mret (None, self)
  | Some i =>
      if _parent_cache self then mret (Some i, self)
      else
        w ← ask;
        _ ← lift (objects_get (pages w) i);
        mret (Some i, set__parent_cache true self)
  end.

Definition is_first_root (self : Page) : M (bool * Page) :=
  '(p, self) ← self_parent self;
  if truthy_obj p then mret (false, self)
  else
    match _is_first_root self with
    | Some b => mret (b, self)
    | None =>
        first_root_id ← cache_get GERBI_FIRST_ROOT_ID;
        match first_root_id with
        | Some v =>
            let b := match v, pk self with
                     | VInt i, Some j => i =? j
                     | _, _ => false
                     end in
            mret (b, set__is_first_root (Some b) self)
        | None =>
            w ← ask;
            first_root_id ← try_except
              (r ← lift (qs_index (objects_root w) 0); mret (pk r))
              (fun e => match e with IndexError => Some (mret None) | _ => None end);
            match first_root_id with
            | Some i => cache_set GERBI_FIRST_ROOT_ID (VInt i)
            | None => mret tt
            end;;
            let b := bool_decide (pk self = first_root_id) in
            mret (b, set__is_first_root (Some b) self)
        end
    end.

Definition get_content (self : Page) (lang : option string) (ctype : string)
    (language_fallback : bool) : M (option string) :=
  w ← ask; mret (objects_get_content w self lang ctype language_fallback).

Definition slug (self : Page) (lang : option string) (fallback : bool) : M (option string) :=
  get_content self lang "slug" fallback.

Definition title (self : Page) (lang : option string) (fallback : bool) : M (option string) :=
  get_content self lang "title" fallback.

(** [u'%s' % v] *)
Definition percent_s (v : option string) : string := default "None" v.

(** [v + u'/' + url]: [None] has no [+]. *)
Definition slash_join (v : option string) (url : string) : Result string :=
  match v with
  | Some s => Ok (s +:+ "/" +:+ url)
  | None => Raise TypeError
  end.

(** [for ancestor in ...: url = ancestor.slug(language) + u'/' + url] *)
Fixpoint prepend_slugs (lang : string) (ancestors : list Page) (url : string) : M string :=
  match ancestors with
  | [] => mret url
  | ancestor :: rest =>
      s ← slug ancestor (Some lang) true;
      url ← lift (slash_join s url);
      prepend_slugs lang rest url
  end.

Definition truthy_dict {V} (d : option (gmap string V)) : bool :=
  match d with
  | Some m => negb (bool_decide (dom m = ∅))
  | None => false
  end.

(** The rest of [get_complete_slug] once the per-instance and the
    shared cache have both missed. *)
Definition complete_slug_miss (self : Page) (lang : string) (hideroot : bool)
    (key : string) : M (string * Page) :=
  '(hidden, self) ← (if hideroot && GERBI_HIDE_ROOT_SLUG settings
                     then is_first_root self else mret (false, self));
  url ← (if hidden : bool then mret ""
         else s ← slug self (Some lang) true; mret (percent_s s));
  w ← ask;
  url ← prepend_slugs lang (get_ancestors (pages w) self true) url;
  let d := <[lang := url]> (default ∅ (_complete_slug self)) in
  let self := set__complete_slug (Some d) self in
  cache_set key (VSlug d);;
  mret (url, self).

(** Only a slug dictionary is ever stored under [GERBI_URL_KEY]; a
    value of another kind would fail the membership test. *)
Definition get_complete_slug (self : Page) (lang : option string) (hideroot : bool)
  : M (string * Page) :=
  let lang := language_or_default lang in
  match (if truthy_dict (_complete_slug self)
         then default ∅ (_complete_slug self) !! lang else None) with
  | Some url => mret (url, self)
  | None =>
      key ← lift (GERBI_URL_KEY (pk self));
      cached ← cache_get key;
      match cached with
      | None => complete_slug_miss (set__complete_slug (Some ∅) self) lang hideroot key
      | Some (VSlug d) =>
          let self := set__complete_slug (Some d) self in
          match d !! lang with
          | Some url => mret (url, self)
          | None => complete_slug_miss self lang hideroot key
          end
      | Some _ => raise TypeError
      end
  end.

Definition get_url (self : Page) (lang : option string) : M (string * Page) :=
  get_complete_slug self lang true.

(** [for p in ancestors: if p.template: template = p.template; break] *)
Fixpoint first_template (ancestors : list Page) : option string :=
  match ancestors with
  | [] => None
  | p :: rest => if truthy_str (template p) then template p else first_template rest
  end.

Definition get_template (f : forest) (self : Page) : string :=
  if truthy_str (template self) then default "" (template self)
  else
    let template := first_template (get_ancestors f self true) in
    let template := if negb (truthy_str template)
                    then Some (GERBI_DEFAULT_TEMPLATE settings) else template in
    default "" template.

Definition has_broken_link (self : Page) : M (option CacheVal) :=
  cache_get (GERBI_BROKEN_LINK_KEY (pk self)).

(** The content types a page has in one language:
    the [values('type')] of the filtered revisions, one per type. *)
Definition content_types (w : World) (self : Page) (lang : string) : list string :=
  remove_dups (type <$> filter (content_filter self lang) (contents w)).

(** One round of the loop over [needed_languages]. *)
Definition cache_language (w : World) (self : Page) (c : content_dict) (lang : string)
  : content_dict :=
  <[lang :=
      foldl (fun d ctype =>
               match get_content_object w self lang ctype with
               | Some content => <[ctype := (body content, creation_date content)]> d
               | None => d
               end) ∅ (content_types w self lang)]> c.

Definition build_cache (self : Page) (lang : option string) : M (content_dict * Page) :=
  if negb (truthy_int (pk self)) then raise (ValueError "Page have no id")
  else
    key ← lift (GERBI_PAGE_KEY (pk self));
    c ← (if truthy_dict (cache self) then mret (cache self)
         else
           v ← cache_get key;
           match v with
           | None => mret None
           | Some (VContent d) => mret (Some d)
           | Some _ => raise AttributeError
           end);
    let c := default ∅ c in
    let languages := if truthy_str lang then [default "" lang]
                     else fst <$> GERBI_LANGUAGES settings in
    let needed_languages :=
      filter (fun l => bool_decide (c !! l = None)) languages in
    w ← ask;
    let c := foldl (cache_language w self) c needed_languages in
    (if negb (length needed_languages =? 0)%nat then cache_set key (VContent c)
     else mret tt);;
    mret (c, set_cache (Some c) self).

(** [for par in anc: nxt = par.get_next_sibling(); if None != nxt: return nxt] *)
Fixpoint first_next_sibling (f : forest) (anc : list Page) : option Page :=
  match anc with
  | [] => None
  | par :: rest =>
      match get_next_sibling f par with
      | Some nxt => Some nxt
      | None => first_next_sibling f rest
      end
  end.

Definition get_next_in_book (f : forest) (self : Page) : Result (option Page) :=
  let chd := get_children f self in
  if 0 <? qs_count chd then res_map Some (qs_index chd 0)
  else if truthy_obj (get_next_sibling f self) then Ok (get_next_sibling f self)
  else
    let cnt := qs_count (get_ancestors f self true) in
    (* Not interested by the root don't want to 'switch' tree. *)
    res_map (first_next_sibling f) (qs_slice (get_ancestors f self true) 0 (cnt - 1)).

Definition get_prev_in_book (f : forest) (self : Page) : Result (option Page) :=
  if negb (MPTT.is_root_node self) then
    match get_previous_sibling f self with
    | Some sib =>
        let dsc := get_descendants f sib in
        let cnt := qs_count dsc in
        if 0 =? qs_count dsc then Ok (Some sib)
        else res_map Some (qs_index dsc (cnt - 1))
    | None =>
        match parent self with
        | Some i => res_map Some (objects_get f i)
        | None => Raise AttributeError
        end
    end
  else Ok None.

Definition get_parent (f : forest) (self : Page) : Result (option Page) :=
  match parent self with
  | Some i => res_map Some (objects_get f i)
  | None => Ok None
  end.

(** Truth value of an optional list ([None] and [[]] are false). *)
Definition truthy_list {A} (l : option (list A)) : bool :=
  match l with
  | Some (_ :: _) => true
  | _ => false
  end.

Definition get_languages (self : Page) : M (list string * Page) :=
  if truthy_list (_languages self) then mret (default [] (_languages self), self)
  else
    let self := set__languages (Some []) self in
    (* this a very expensive operation if there is many languages *)
    '(c, self) ← build_cache self None;
    let langs := filter (fun lang => truthy_dict (c !! lang))
                        (fst <$> GERBI_LANGUAGES settings) in
    mret (langs, set__languages (Some langs) self).

(** [Page.objects.exclude(id__in=ids)], in table order. *)
Definition objects_exclude (f : forest) (ids : list (option Z)) : list Page :=
  filter (fun r => negb (bool_decide (pk r ∈ ids))) (MPTT.rows f).

Definition valid_targets (f : forest) (self : Page) : list Page :=
  let exclude_list := pk self :: (pk <$> get_descendants f self) in
  objects_exclude f exclude_list.

(** [__unicode__]: the representation of the page, saved or not. *)
Definition __unicode__ (self : Page) : M string :=
  if truthy_int (pk self) then
    (* without ID a slug cannot be retrieved *)
    s ← slug self None true;
    if truthy_str s then mret (default "" s)
    else lift (fmt_d "Page " (pk self) "")
  else mret "Page without id".

(** *** class Content *)

(** [super(Content, self).save()]: the revision is written over the
    row that has its key, or inserted at the end of the table, under a
    fresh key when it has none. *)
Definition content_model_save (self : Content) : M Content := fun w =>
  let stored (cs : list Content) :=
    mkWorld (pages w) cs (page_sites w) (django_cache w) (cache_calls w) (ticks w) in
  match content_pk self with
  | Some i =>
      if bool_decide (Some i ∈ content_pk <$> contents w)
      then (Ok self, stored (replace_content i self <$> contents w))
      else (Ok self, stored (contents w ++ [self])%list)
  | None =>
      let self := set_content_pk (Some (next_content_pk (contents w))) self in
      (Ok self, stored (contents w ++ [self])%list)
  end.

Definition Content_save (self : Content) : M Content :=
  p ← invalidate (page self);
  let self := mkContent (content_pk self) (language self) (body self) (type self) p
                        (creation_date self) in
  content_model_save self.

End Gerbi.

(** ** The scenario of the specification

    A root [R] with slug "home", its child [A] with slug "about", and the
    grandchild [B] with slug "team". *)
Module Scenario.

Definition new_page (i : Z) (par : option Z) : Page :=
  mkPage (Some i) par None None None (Some PUBLISHED) None None None None None None false.

Definition R : Page := new_page 1 None.
Definition A : Page := new_page 2 (Some 1).
Definition B : Page := new_page 3 (Some 2).
(** A second root page, after [R] in tree order. *)
Definition S : Page := new_page 7 None.

Definition with_template (s : string) (p : Page) : Page :=
  mkPage (pk p) (parent p) None None None (status p) (Some s) None None None None None
         false.

Definition site : forest := [Node R [Node A [Node B []]]].
(** The same site with a template chosen for the root only. *)
Definition themed : forest :=
  [Node (with_template "home.html" R) [Node A [Node B []]]].
(** A page whose parent key names no row of [site]. *)
Definition orphan : Page := new_page 9 (Some 99).
Definition two_roots : forest := [Node R []; Node S []].
Definition lone_root : forest := [Node R []].

(** A new revision of the slug of [p], not saved yet. *)
Definition slug_of (p : Page) (s : string) : Content :=
  mkContent None "en" s "slug" p 10.

Definition conf (hide_root_slug : bool) : Settings :=
  mkSettings true true hide_root_slug true true 1 "en"
             [("en", "English"); ("fr", "French")] "index.html".

(** The revision [c] as it is stored under the key [i]. *)
Definition stored_as (i : Z) (c : Content) : Content := set_content_pk (Some i) c.

Definition world : World :=
  mkWorld site
          [stored_as 1 (slug_of R "home"); stored_as 2 (slug_of A "about");
           stored_as 3 (slug_of B "team")] [] ∅ [] 0.

(** The same site after a link checker flagged page [R]. *)
Definition flagged : World :=
  mkWorld site (contents world) []
          {[ GERBI_BROKEN_LINK_KEY (Some 1) := VBool true ]} [] 0.

(** [R] after a [get_complete_slug(hideroot=True)] under root hiding. *)
Definition visited : Page := set__complete_slug (Some {[ "en" := "" ]}) R.

(** The site with the root-hidden path of [R] in the shared cache. *)
Definition cached : World :=
  mkWorld site (contents world) [] {[ "page_1_url" := VSlug {[ "en" := "" ]} ]} [] 0.

(** [cached] after one read of that entry. *)
Definition cached_read : World :=
  mkWorld site (contents world) [] (django_cache cached) [CacheGet "page_1_url"] 0.

(** [R] frozen at time 20, and the site after a title was written for
    it at time 30. *)
Definition frozen : Page :=
  mkPage (Some 1) None None None None (Some PUBLISHED) None (Some 20) None None None None
         false.
Definition revised : World :=
  mkWorld site (contents world ++ [mkContent (Some 4) "en" "News" "title" R 30])%list
          [] ∅ [] 0.

Definition clock (n : nat) : datetime := 100 + Z.of_nat n.

(** A page published at time 50 whose publication ended at time 60. *)
Definition ended : Page :=
  mkPage (Some 4) None (Some 50) (Some 60) None (Some PUBLISHED) None None None None None None
         false.

(** A page published at time 50, to be withdrawn at time 500. *)
Definition running : Page :=
  mkPage (Some 5) None (Some 50) (Some 500) None (Some HIDDEN) None None None None None None
         false.

End Scenario.

(** ** Names used by the statements *)

(** The cache keys of the page with primary key [i]. *)
Definition content_key (i : Z) : string := "gerbi_page_" +:+ str_of_int i +:+ "".
Definition url_key (i : Z) : string := "page_" +:+ str_of_int i +:+ "_url".
Definition broken_link_key (i : Z) : string := "page_broken_link_" +:+ str_of_int i.

(** Every key under which the cache holds data derived from page [i]. *)
Definition page_keys (i : Z) : list string :=
  [content_key i; url_key i; broken_link_key i].

(** The per-instance caches that [invalidate] resets. *)
Definition forgotten (p : Page) : Page :=
  set_cache None (set__complete_slug None (set__languages None p)).

(** [self.parent] can be evaluated in the world [w]: the page has no
    parent, or the parent row is on the instance already, or the Page
    table has it. *)
Definition parent_loads (self : Page) (w : World) : bool :=
  match parent self with
  | None => true
  | Some i =>
      _parent_cache self ||
      match objects_get (pages w) i with Ok _ => true | Raise _ => false end
  end.

(** What [is_first_root] answers for [self] in the world [w]: the page has
    no parent and its key is the one remembered on the instance, else the
    one held by the cache, else that of the first root of the forest. *)
Definition first_root_answer (self : Page) (w : World) : bool :=
  negb (truthy_obj (parent self)) &&
  match _is_first_root self with
  | Some b => b
  | None =>
      match django_cache w !! GERBI_FIRST_ROOT_ID with
      | Some (VInt i) => bool_decide (pk self = Some i)
      | Some _ => false
      | None => bool_decide (pk self = head (pages w) ≫= (fun t => pk (MPTT.row_of t)))
      end
  end.

(** The description of the traversal: the first child if there is one,
    else the next sibling if there is one, else the next sibling of the
    nearest ancestor that has one, the root of the tree excluded, else
    nothing. *)
Definition next_in_book (f : forest) (self : Page) : option Page :=
  match get_children f self with
  | child :: _ => Some child
  | [] =>
      match get_next_sibling f self with
      | Some sibling => Some sibling
      | None => first_next_sibling f (removelast (get_ancestors f self true))
      end
  end.


(** * Properties *)

(** Unfolds the monad so that a computation reduces on a given world. *)
Ltac run :=
  unfold mbind, mret, M_bind, M_ret, lift, raise, ask, try_except in *;
  cbn [fst snd] in *.

(** ** Publication state *)

(** C6: under the "show start date" policy a page whose publication date
    is set and still in the future has calculated status Draft, whatever
    its stored status. *)
Theorem C6_calculated_status_future (settings : Settings) (clock : nat -> datetime)
    (self : Page) (w : World) (d : datetime) :
  GERBI_SHOW_START_DATE settings = true ->
  publication_date self = Some d ->
  d > clock (ticks w) ->
  fst (_get_calculated_status settings clock self w) = Ok (Some DRAFT).
Proof.
  intros Hpol Hdate Hfut.
  unfold _get_calculated_status. rewrite Hpol, Hdate.
  run. unfold datetime_now at 1. cbn.
  rewrite bool_decide_true by done. reflexivity.
Qed.

Lemma C6_calculated_status_future_witness :
  fst (_get_calculated_status (Scenario.conf true) Scenario.clock
         (set_publication_date (Some 500) (set_status (Some HIDDEN) Scenario.R))
         Scenario.world) = Ok (Some DRAFT).
Proof.
  apply (C6_calculated_status_future _ _ _ _ 500); [reflexivity | reflexivity | ].
  vm_compute. reflexivity.
Defined.

Lemma invalidate_ok (self : Page) (i : Z) (w : World) :
  pk self = Some i ->
  invalidate self w =
    (Ok (forgotten self),
     mkWorld (pages w) (contents w) (page_sites w)
       (delete (url_key i) (delete (content_key i)
          (delete GERBI_FIRST_ROOT_ID (django_cache w))))
       (cache_calls w ++ [CacheDelete GERBI_FIRST_ROOT_ID]
          ++ [CacheDelete (content_key i)] ++ [CacheDelete (url_key i)])
       (ticks w)).
Proof.
  intros Hpk. unfold invalidate. run. cbn. rewrite Hpk. cbn.
  unfold forgotten, content_key, url_key. rewrite <- !app_assoc. reflexivity.
Qed.

Lemma model_save_ok (self : Page) (w : World) :
  exists self' f',
    model_save self w =
      (Ok self', mkWorld f' (contents w) (page_sites w) (django_cache w)
                         (cache_calls w) (ticks w)) /\
    is_Some (pk self') /\
    (is_Some (pk self) -> self' = self) /\
    forgotten (set_pk None self') = forgotten (set_pk None self).
Proof.
  unfold model_save.
  destruct (pk self ≫= MPTT.locate (pages w)) eqn:Hloc.
  - eexists _, _. split; [reflexivity|].
    destruct (pk self) eqn:Hpk; [|discriminate]. eauto.
  - destruct (pk self) eqn:Hpk; cbn [truthy_obj].
    + destruct (parent self ≫= MPTT.locate (pages w));
        (eexists _, _; split; [reflexivity|]; rewrite Hpk; eauto).
    + destruct (parent (set_pk (Some (next_pk (pages w))) self) ≫= MPTT.locate (pages w));
        (eexists _, _; split; [reflexivity|]; cbn; split; [eauto|]; split; [intros []; discriminate | reflexivity]).
Qed.

(** Runs the part of [save] that follows the stamping of the
    modification date: the broken-link flag, the row, the caches, the
    sites. *)
Ltac save_tail Hsites :=
  unfold cache_delete;
  cbn [pages contents page_sites django_cache cache_calls ticks];
  match goal with
  | |- context [model_save ?x ?v] =>
      let s := fresh "s" in let f := fresh "f" in
      let Heq := fresh "Heq" in let Hpk := fresh "Hpk" in
      let Hid := fresh "Hid" in let Hcols := fresh "Hcols" in
      let i := fresh "i" in
      destruct (model_save_ok x v) as (s & f & Heq & [i Hpk] & Hid & Hcols);
      rewrite Heq; clear Heq; rewrite (invalidate_ok s i) by exact Hpk;
      cbn [pages contents page_sites django_cache cache_calls ticks];
      destruct (GERBI_HIDE_SITES _) eqn:?;
      [ rewrite Hsites by reflexivity; unfold sites_count, sites_add;
        match goal with |- context [Z.eqb ?a 0] => destruct (Z.eqb a 0) end
      | ];
      cbn [pages contents page_sites django_cache cache_calls ticks pk
           set_last_modification_date set_publication_date];
      rewrite <- ?app_assoc;
      (exists s, i; eexists _, _, _; split; [reflexivity|]);
      pose proof (f_equal status Hcols) as Hstatus;
      pose proof (f_equal publication_date Hcols) as Hpub;
      pose proof (f_equal last_modification_date Hcols) as Hmod;
      cbn in Hstatus, Hpub, Hmod, Hid |- *; clear Hcols
  end.

Lemma save_ok (settings : Settings) (clock : nat -> datetime) (self : Page) (w : World) :
  (GERBI_HIDE_SITES settings = true -> GERBI_USE_SITE_ID settings = true) ->
  exists s i f sites n,
    save settings clock self w =
      (Ok (forgotten s),
       mkWorld f (contents w) sites
         (delete (url_key i) (delete (content_key i) (delete GERBI_FIRST_ROOT_ID
            (delete (GERBI_BROKEN_LINK_KEY (pk self)) (django_cache w)))))
         (cache_calls w ++ [CacheDelete (GERBI_BROKEN_LINK_KEY (pk self))]
            ++ [CacheDelete GERBI_FIRST_ROOT_ID]
            ++ [CacheDelete (content_key i)] ++ [CacheDelete (url_key i)])
         (Datatypes.S n)) /\
    pk s = Some i /\
    (is_Some (pk self) -> pk s = pk self) /\
    status s = (if truthy_int (status self) then status self else Some DRAFT) /\
    (status self = Some PUBLISHED -> publication_date self = None ->
       publication_date s = Some (clock (ticks w))) /\
    (truthy_int (status self) = false ->
       (GERBI_SHOW_START_DATE settings = true ->
          forall d, publication_date self = Some d -> d <= clock (ticks w) ->
                    publication_date s = None) /\
       (GERBI_SHOW_START_DATE settings = false -> publication_date s = None)) /\
    (ticks w <= n)%nat /\
    last_modification_date s = Some (clock n).
Proof.
  intros Hsites. unfold save.
  set (self1 := if negb (truthy_int (status self)) then _ else _).
  assert (Hs1 : status self1 = if truthy_int (status self) then status self else Some DRAFT).
  { subst self1. destruct (truthy_int (status self)); reflexivity. }
  assert (Hp1 : publication_date self1 = publication_date self).
  { subst self1. destruct (truthy_int (status self)); reflexivity. }
  assert (Hk1 : pk self1 = pk self).
  { subst self1. destruct (truthy_int (status self)); reflexivity. }
  clearbody self1. run.
  destruct (bool_decide (publication_date self1 = None)
            && bool_decide (status self1 = Some PUBLISHED)) eqn:Hpub0.
  - (* published, no date: stamped *)
    apply andb_true_iff in Hpub0 as [Hd%bool_decide_eq_true Hst%bool_decide_eq_true].
    unfold datetime_now at 1. cbn [fst snd status set_publication_date].
    rewrite Hst. rewrite bool_decide_false by discriminate.
    unfold datetime_now at 1. rewrite <- Hk1.
    save_tail Hsites.
    all: split; [exact Hpk|].
    all: split; [intros Hsome; rewrite (Hid Hsome); reflexivity|].
    all: split; [congruence|].
    all: split; [intros _ _; exact Hpub|].
    all: split; [intros Hf; rewrite Hf in Hs1; cbn in Hs1; rewrite Hs1 in Hst; discriminate|].
    all: split; [lia | exact Hmod].
  - assert (Hnp : status self = Some PUBLISHED -> publication_date self = None -> False).
    { intros Hst Hd. rewrite Hst in Hs1. cbn in Hs1.
      rewrite Hs1, Hp1, Hd, !bool_decide_true in Hpub0 by done. discriminate. }
    clear Hpub0.
    destruct (bool_decide (status self1 = Some DRAFT)) eqn:Hdraft.
    + destruct (GERBI_SHOW_START_DATE settings) eqn:Hshow.
      * destruct (publication_date self1) as [d0|] eqn:Hd0.
        -- unfold datetime_now at 1. cbn [fst snd ticks].
           unfold datetime_now at 1. rewrite <- Hk1.
           destruct (d0 <=? clock (ticks w)) eqn:Hle.
           ++ save_tail Hsites.
              all: split; [exact Hpk|].
              all: split; [intros Hsome; rewrite (Hid Hsome); reflexivity|].
              all: split; [congruence|].
              all: split; [intros; exfalso; auto|].
              all: split; [intros _; split; [intros _ d _ _; exact Hpub | discriminate]|].
              all: split; [lia | exact Hmod].
           ++ save_tail Hsites.
              all: split; [exact Hpk|].
              all: split; [intros Hsome; rewrite (Hid Hsome); reflexivity|].
              all: split; [congruence|].
              all: split; [intros; exfalso; auto|].
              all: split; [intros _; split; [|discriminate];
                           intros _ d Hd Hdle; apply Z.leb_gt in Hle;
                           rewrite <- Hp1 in Hd; injection Hd as ->; lia|].
              all: split; [lia | exact Hmod].
        -- unfold datetime_now at 1. rewrite <- Hk1.
           save_tail Hsites.
           all: split; [exact Hpk|].
           all: split; [intros Hsome; rewrite (Hid Hsome); reflexivity|].
           all: split; [congruence|].
           all: split; [intros; exfalso; auto|].
           all: split; [intros _; split; [|discriminate]; intros _ d Hd _; congruence|].
           all: split; [lia | exact Hmod].
      * unfold datetime_now at 1. rewrite <- Hk1.
        save_tail Hsites.
        all: split; [exact Hpk|].
        all: split; [intros Hsome; rewrite (Hid Hsome); reflexivity|].
        all: split; [congruence|].
        all: split; [intros; exfalso; auto|].
        all: split; [intros _; split; [discriminate|]; intros _; exact Hpub|].
        all: split; [lia | exact Hmod].
    + apply bool_decide_eq_false in Hdraft.
      unfold datetime_now at 1. rewrite <- Hk1.
      save_tail Hsites.
      all: split; [exact Hpk|].
      all: split; [intros Hsome; rewrite (Hid Hsome); reflexivity|].
      all: split; [congruence|].
      all: split; [intros; exfalso; auto|].
      all: split; [intros Hf; rewrite Hf in Hs1; cbn in Hs1; contradiction|].
      all: split; [lia | exact Hmod].
Qed.

(** C5: saving normalises the page.  An unset status becomes Draft; a
    Published page without a publication date is stamped with the current
    time; a Draft page loses a publication date that is not in the future
    under the "show start date" policy, and any publication date without
    it; the last-modification date is stamped on every save. *)
Theorem C5_save_normalization (settings : Settings) (clock : nat -> datetime)
    (self : Page) (w : World) :
  (GERBI_HIDE_SITES settings = true -> GERBI_USE_SITE_ID settings = true) ->
  exists self' w',
    save settings clock self w = (Ok self', w') /\
    status self' = (if truthy_int (status self) then status self else Some DRAFT) /\
    (status self = Some PUBLISHED -> publication_date self = None ->
       publication_date self' = Some (clock (ticks w))) /\
    (truthy_int (status self) = false ->
       (GERBI_SHOW_START_DATE settings = true ->
          forall d, publication_date self = Some d -> d <= clock (ticks w) ->
                    publication_date self' = None) /\
       (GERBI_SHOW_START_DATE settings = false -> publication_date self' = None)) /\
    (exists n, (ticks w <= n)%nat /\ ticks w' = Datatypes.S n /\
               last_modification_date self' = Some (clock n)).
Proof.
  intros Hsites.
  destruct (save_ok settings clock self w Hsites)
    as (s & i & f & sites & n & Heq & _ & _ & Hst & Hpub & Hdraft & Hn & Hmod).
  eexists _, _. split; [exact Heq|].
  cbn [ticks]. change (status (forgotten s)) with (status s).
  change (publication_date (forgotten s)) with (publication_date s).
  change (last_modification_date (forgotten s)) with (last_modification_date s).
  repeat split; try assumption; try (apply Hdraft; assumption).
  exists n. auto.
Qed.

Lemma C5_save_normalization_witness :
  exists self' w',
    save (Scenario.conf true) Scenario.clock
         (set_publication_date (Some 50) (set_status None Scenario.A)) Scenario.world
      = (Ok self', w') /\
    status self' = Some DRAFT /\
    (None = Some PUBLISHED -> Some 50 = None ->
       publication_date self' = Some (Scenario.clock 0)) /\
    (false = false ->
       (true = true ->
          forall d, Some 50 = Some d -> d <= Scenario.clock 0 ->
                    publication_date self' = None) /\
       (true = false -> publication_date self' = None)) /\
    (exists n, (0 <= n)%nat /\ ticks w' = Datatypes.S n /\
               last_modification_date self' = Some (Scenario.clock n)).
Proof.
  apply (C5_save_normalization (Scenario.conf true) Scenario.clock
           (set_publication_date (Some 50) (set_status None Scenario.A)) Scenario.world).
  intros _. reflexivity.
Defined.

(** ** Cache keys *)

Lemma str_of_int_inj (i j : Z) : str_of_int i = str_of_int j -> i = j.
Proof.
  unfold str_of_int. intros H.
  apply (f_equal NilEmpty.int_of_string) in H.
  rewrite !NilEmpty.isi in H. injection H as H.
  exact (DecimalZ.to_int_inj _ _ H).
Qed.

(** A rendered integer starts with a digit or a sign. *)
Lemma str_of_int_head (i : Z) (c : ascii) (r : string) :
  str_of_int i = String c r -> c <> "b"%char.
Proof.
  unfold str_of_int, NilEmpty.string_of_int.
  destruct (Z.to_int i) as [u|u]; [destruct u|]; cbn; intros [= <- _]; discriminate.
Qed.

Lemma length_append (x s : string) :
  String.length (x +:+ s) = (String.length x + String.length s)%nat.
Proof. induction x as [|a x IH]; simpl; [reflexivity | f_equal; exact IH]. Qed.

Lemma append_inj_r (x y s : string) : x +:+ s = y +:+ s -> x = y.
Proof.
  revert y. induction x as [|a x IH]; intros [|b y] H.
  - reflexivity.
  - apply (f_equal String.length) in H.
    rewrite !length_append in H. simpl in H. lia.
  - apply (f_equal String.length) in H.
    rewrite !length_append in H. simpl in H. lia.
  - injection H as -> H. f_equal. auto.
Qed.

Lemma content_key_inj (i j : Z) : content_key i = content_key j -> i = j.
Proof.
  unfold content_key. intros H. cbn in H. simplify_eq.
  eauto using str_of_int_inj, append_inj_r.
Qed.

Lemma url_key_inj (i j : Z) : url_key i = url_key j -> i = j.
Proof.
  unfold url_key. intros H. cbn in H. simplify_eq.
  eauto using str_of_int_inj, append_inj_r.
Qed.

Lemma broken_link_key_inj (i j : Z) : broken_link_key i = broken_link_key j -> i = j.
Proof.
  unfold broken_link_key. intros H. cbn in H. simplify_eq.
  eauto using str_of_int_inj.
Qed.

Lemma url_key_not_broken_link (i j : Z) : url_key i <> broken_link_key j.
Proof.
  unfold url_key, broken_link_key. intros H. cbn in H. simplify_eq.
  destruct (str_of_int i) as [|c r] eqn:Hs; cbn in H; [discriminate|].
  injection H as -> _. exact (str_of_int_head _ _ _ Hs eq_refl).
Qed.

(** The keys of one page are not keys of another, nor the first-root key. *)
Lemma page_keys_disjoint (i j : Z) (k : string) :
  j <> i -> k ∈ page_keys j -> k ∉ GERBI_FIRST_ROOT_ID :: page_keys i.
Proof.
  intros Hne Hj Hi. unfold page_keys in *.
  set_unfold.
  destruct Hj as [->|[->|[->|[]]]]; destruct Hi as [Hi|[Hi|[Hi|[Hi|[]]]]];
    try (apply content_key_inj in Hi; contradiction);
    try (apply url_key_inj in Hi; contradiction);
    try (apply broken_link_key_inj in Hi; contradiction);
    try (apply url_key_not_broken_link in Hi; contradiction);
    try (symmetry in Hi; apply url_key_not_broken_link in Hi; contradiction);
    try (unfold content_key, url_key, broken_link_key, GERBI_FIRST_ROOT_ID in Hi;
         cbn in Hi; discriminate).
Qed.

Lemma lookup_deletes (ks : list string) (m : gmap string CacheVal) (k : string) :
  foldr delete m ks !! k = if bool_decide (k ∈ ks) then None else m !! k.
Proof.
  induction ks as [|k0 ks IH]; cbn [foldr].
  - rewrite bool_decide_false by set_solver. reflexivity.
  - destruct (decide (k = k0)) as [->|Hne].
    + rewrite lookup_delete_eq, bool_decide_true by set_solver. reflexivity.
    + rewrite lookup_delete_ne by congruence. rewrite IH.
      apply (f_equal (fun b : bool => if b then None else m !! k)).
      apply bool_decide_ext. set_solver.
Qed.

(** What the write of a revision does to the Content table: a revision
    that has the key of a stored row takes the place of that row, and the
    table keeps its length and its other rows; any other revision becomes
    the last row, under a fresh key when it had none. *)
Lemma content_model_save_ok (c : Content) (w : World) :
  exists c' cs,
    content_model_save c w =
      (Ok c', mkWorld (pages w) cs (page_sites w) (django_cache w)
                      (cache_calls w) (ticks w)) /\
    set_content_pk None c' = set_content_pk None c /\
    (forall i, content_pk c = Some i -> c' = c) /\
    (forall i, content_pk c = Some i -> Some i ∈ content_pk <$> contents w ->
       cs = replace_content i c <$> contents w) /\
    ((forall i, content_pk c = Some i -> Some i ∉ content_pk <$> contents w) ->
       cs = (contents w ++ [c'])%list) /\
    (content_pk c = None -> content_pk c' = Some (next_content_pk (contents w))).
Proof.
  unfold content_model_save. destruct (content_pk c) as [i|] eqn:Hi.
  - case_bool_decide as Hin.
    + eexists _, _. split; [reflexivity|]. split; [reflexivity|].
      split; [reflexivity|]. split; [intros ? [= <-] _; reflexivity|].
      split; [intros H; destruct (H i eq_refl Hin) | discriminate].
    + eexists _, _. split; [reflexivity|]. split; [reflexivity|].
      split; [reflexivity|]. split; [intros ? [= <-] H; contradiction|].
      split; [reflexivity | discriminate].
  - eexists _, _. split; [reflexivity|]. split; [cbn; rewrite <- Hi; destruct c; reflexivity|].
    split; [discriminate|]. split; [discriminate|].
    split; reflexivity.
Qed.

Lemma Content_save_ok (self : Content) (i : Z) (w : World) :
  pk (page self) = Some i ->
  exists self' w',
    Content_save self w = (Ok self', w') /\
    page self' = forgotten (page self) /\
    django_cache w' =
      foldr delete (django_cache w) [url_key i; content_key i; GERBI_FIRST_ROOT_ID] /\
    cache_calls w' =
      (cache_calls w ++ [CacheDelete GERBI_FIRST_ROOT_ID; CacheDelete (content_key i);
                         CacheDelete (url_key i)])%list.
Proof.
  intros Hpk. unfold Content_save. run.
  rewrite (invalidate_ok _ i) by exact Hpk.
  match goal with |- context [content_model_save ?c ?v] =>
    destruct (content_model_save_ok c v) as (c' & cs & Heq & Hcols & _) end.
  rewrite Heq. eexists _, _. split; [reflexivity|].
  apply (f_equal page) in Hcols. cbn in Hcols |- *. auto.
Qed.

(** ** Invalidation *)

Lemma str_of_int_not_None (j : Z) : str_of_int j <> "None".
Proof.
  unfold str_of_int. intros H.
  apply (f_equal NilEmpty.int_of_string) in H.
  rewrite NilEmpty.isi in H. discriminate H.
Qed.

(** The key that [save] formats for a page without an id is the key of
    no page, nor the first-root key. *)
Lemma broken_link_key_None (j : Z) (k : string) :
  k ∈ GERBI_FIRST_ROOT_ID :: page_keys j -> k <> GERBI_BROKEN_LINK_KEY None.
Proof.
  unfold page_keys. rewrite !elem_of_cons, elem_of_nil.
  intros [->|[->|[->|[->|[]]]]] H.
  - discriminate H.
  - unfold content_key, GERBI_BROKEN_LINK_KEY in H. cbn in H. discriminate.
  - unfold url_key, GERBI_BROKEN_LINK_KEY in H. cbn in H. simplify_eq.
    destruct (str_of_int j) as [|c r] eqn:Hs; cbn in H; [discriminate|].
    injection H as -> _. exact (str_of_int_head _ _ _ Hs eq_refl).
  - unfold broken_link_key, GERBI_BROKEN_LINK_KEY in H. cbn in H. simplify_eq.
    eapply str_of_int_not_None. eassumption.
Qed.

(** C2, as the code has it.  A save of a page that has an id deletes the
    page's content cache, its URL-path cache, its broken-link flag and
    the first-root key, and nothing else.  The first save of a page
    without an id deletes the content cache and the URL-path cache of the
    id the page is given, the first-root key and the key formatted from
    the missing id ("page_broken_link_None"), and nothing else: a flag
    under the new id is left as it is.  A save of a content revision of a
    page that has an id deletes the content cache, the URL-path cache and
    the first-root key, leaves the broken-link flag as it is, and deletes
    nothing else.  None of them touches a key of another page. *)
Theorem C2_invalidation (settings : Settings) (clock : nat -> datetime)
    (self : Page) (revision : Content) (w : World) :
  (GERBI_HIDE_SITES settings = true -> GERBI_USE_SITE_ID settings = true) ->
  (exists self' w' i,
     save settings clock self w = (Ok self', w') /\
     pk self' = Some i /\
     (is_Some (pk self) -> pk self = Some i /\
                           GERBI_BROKEN_LINK_KEY (pk self) = broken_link_key i) /\
     (forall k, django_cache w' !! k =
                if bool_decide (k ∈ [GERBI_FIRST_ROOT_ID; content_key i; url_key i;
                                     GERBI_BROKEN_LINK_KEY (pk self)])
                then None else django_cache w !! k) /\
     (pk self = None ->
        django_cache w' !! broken_link_key i = django_cache w !! broken_link_key i) /\
     (forall j k, j <> i -> k ∈ page_keys j ->
                  django_cache w' !! k = django_cache w !! k) /\
     cache self' = None /\ _complete_slug self' = None /\ _languages self' = None)
  /\
  (forall i, pk (page revision) = Some i ->
   exists revision' w',
     Content_save revision w = (Ok revision', w') /\
     (forall k, django_cache w' !! k =
                if bool_decide (k ∈ [GERBI_FIRST_ROOT_ID; content_key i; url_key i])
                then None else django_cache w !! k) /\
     django_cache w' !! broken_link_key i = django_cache w !! broken_link_key i /\
     (forall j k, j <> i -> k ∈ page_keys j ->
                  django_cache w' !! k = django_cache w !! k) /\
     cache (page revision') = None /\ _complete_slug (page revision') = None /\
     _languages (page revision') = None).
Proof.
  intros Hsites. split.
  - destruct (save_ok settings clock self w Hsites)
      as (s & i & f & sites & n & Heq & Hs & Hkeep & _).
    eexists _, _, i. split; [exact Heq|]. cbn [django_cache].
    change (pk (forgotten s)) with (pk s).
    assert (Hall : forall k,
      delete (url_key i) (delete (content_key i) (delete GERBI_FIRST_ROOT_ID
        (delete (GERBI_BROKEN_LINK_KEY (pk self)) (django_cache w)))) !! k =
      if bool_decide (k ∈ [GERBI_FIRST_ROOT_ID; content_key i; url_key i;
                           GERBI_BROKEN_LINK_KEY (pk self)])
      then None else django_cache w !! k).
    { intros k.
      etransitivity;
        [exact (lookup_deletes
                  [url_key i; content_key i; GERBI_FIRST_ROOT_ID;
                   GERBI_BROKEN_LINK_KEY (pk self)]
                  (django_cache w) k)|].
      apply (f_equal (fun b : bool => if b then None else django_cache w !! k)).
      apply bool_decide_ext. set_solver. }
    assert (Hsame : is_Some (pk self) ->
              pk self = Some i /\ GERBI_BROKEN_LINK_KEY (pk self) = broken_link_key i).
    { intros Hsome. rewrite <- (Hkeep Hsome), Hs. split; reflexivity. }
    split; [exact Hs|]. split; [exact Hsame|]. split; [exact Hall|].
    split; [|split; [|auto]].
    + intros Hnone. rewrite Hall, Hnone, bool_decide_false; [reflexivity|].
      rewrite !elem_of_cons, elem_of_nil. intros [H|[H|[H|[H|[]]]]].
      * unfold broken_link_key, GERBI_FIRST_ROOT_ID in H. cbn in H. discriminate.
      * unfold broken_link_key, content_key in H. cbn in H. discriminate.
      * symmetry in H. exact (url_key_not_broken_link _ _ H).
      * apply (broken_link_key_None i (broken_link_key i)); [|exact H].
        unfold page_keys. set_solver.
    + intros j k Hne Hk. rewrite Hall, bool_decide_false; [reflexivity|].
      rewrite !elem_of_cons, elem_of_nil. intros Hin.
      destruct (pk self) as [i0|] eqn:Hpk.
      * destruct (Hsame ltac:(eauto)) as [_ Hb]. rewrite Hb in Hin.
        apply (page_keys_disjoint i j k Hne Hk). unfold page_keys.
        rewrite !elem_of_cons, elem_of_nil. tauto.
      * destruct Hin as [H|[H|[H|[H|[]]]]].
        4: { apply (broken_link_key_None j k); [|exact H]. set_solver. }
        all: apply (page_keys_disjoint i j k Hne Hk); unfold page_keys;
          rewrite !elem_of_cons, elem_of_nil; tauto.
  - intros i Hrev.
    destruct (Content_save_ok revision i w Hrev) as (r' & w' & Heq & Hpage & Hcache & _).
    exists r', w'. split; [exact Heq|]. rewrite Hcache, Hpage.
    assert (Hall : forall k,
      foldr delete (django_cache w) [url_key i; content_key i; GERBI_FIRST_ROOT_ID] !! k =
      if bool_decide (k ∈ [GERBI_FIRST_ROOT_ID; content_key i; url_key i])
      then None else django_cache w !! k).
    { intros k. rewrite lookup_deletes.
      apply (f_equal (fun b : bool => if b then None else django_cache w !! k)).
      apply bool_decide_ext. set_solver. }
    split; [exact Hall|].
    assert (Hother : forall j k, j <> i -> k ∈ page_keys j ->
      foldr delete (django_cache w) [url_key i; content_key i; GERBI_FIRST_ROOT_ID] !! k =
      django_cache w !! k).
    { intros j k Hne Hk. rewrite Hall, bool_decide_false; [reflexivity|].
      intros Hin. apply (page_keys_disjoint i j k Hne Hk).
      unfold page_keys. set_solver. }
    split; [|split; [exact Hother|auto]].
    rewrite Hall, bool_decide_false; [reflexivity|].
    intros Hin. set_unfold.
    destruct Hin as [Hin|[Hin|[Hin|[]]]].
    + unfold broken_link_key, GERBI_FIRST_ROOT_ID in Hin. cbn in Hin. discriminate.
    + unfold broken_link_key, content_key in Hin. cbn in Hin. discriminate.
    + symmetry in Hin. exact (url_key_not_broken_link _ _ Hin).
Qed.

Lemma C2_invalidation_witness :
  exists self' w' i,
    save (Scenario.conf true) Scenario.clock Scenario.R Scenario.flagged = (Ok self', w') /\
    pk self' = Some i /\ django_cache w' !! broken_link_key 1 = None.
Proof.
  destruct (C2_invalidation (Scenario.conf true) Scenario.clock Scenario.R
              (Scenario.slug_of Scenario.R "start") Scenario.flagged)
    as [(self' & w' & i & Heq & Hpk & Hsame & Hall & _) _].
  - intros _. reflexivity.
  - exists self', w', i. split; [exact Heq|]. split; [exact Hpk|].
    destruct (Hsame ltac:(eexists; reflexivity)) as [[= <-] _].
    rewrite Hall. reflexivity.
Defined.

(** C2 as stated fails: after a content revision of page [R] is saved,
    the broken-link flag of [R] is still set. *)
Lemma C2_counterexample :
  let revision := Scenario.slug_of Scenario.R "start" in
  (exists revision', fst (Content_save revision Scenario.flagged) = Ok revision') /\
  fst (has_broken_link Scenario.R (snd (Content_save revision Scenario.flagged)))
    = Ok (Some (VBool true)).
Proof.
  split; [eexists|]; vm_compute; reflexivity.
Qed.

(** ** The content cache *)

(** C7, as the code has it: building the content cache fails with
    [ValueError] exactly when the page's key is unset or [0] (the test is
    Python truth), and it fails before the cache is read or written (the
    world, with its record of cache calls, is unchanged); for a page with
    a key other than [0] this error is never raised. *)
Theorem C7_build_cache_requires_id (settings : Settings) (self : Page)
    (lang : option string) (w : World) :
  (truthy_int (pk self) = false ->
     build_cache settings self lang w = (Raise (ValueError "Page have no id"), w)) /\
  (truthy_int (pk self) = true ->
     forall msg, fst (build_cache settings self lang w) <> Raise (ValueError msg)).
Proof.
  split.
  - intros Hpk. unfold build_cache. rewrite Hpk. reflexivity.
  - intros Hpk msg. unfold build_cache. rewrite Hpk. cbn [negb].
    destruct (pk self) as [i|]; [|discriminate Hpk].
    run. cbn [GERBI_PAGE_KEY fmt_d].
    destruct (truthy_dict (cache self)).
    + match goal with |- context [if ?b then _ else _] => destruct b end;
        cbn; discriminate.
    + unfold cache_get at 1. cbn [fst snd django_cache].
      destruct (django_cache w !! _) as [[]|]; cbn [fst snd]; try discriminate;
        match goal with |- context [if ?b then _ else _] => destruct b end;
        cbn; discriminate.
Qed.

Lemma C7_build_cache_requires_id_witness :
  fst (build_cache (Scenario.conf true) Scenario.B None Scenario.world)
    <> Raise (ValueError "Page have no id").
Proof.
  apply (proj2 (C7_build_cache_requires_id (Scenario.conf true) Scenario.B None
                  Scenario.world)); reflexivity.
Defined.

(** C7 as stated fails: a page whose identity is the key [0] gets the
    error of a page that has none. *)
Lemma C7_counterexample :
  pk (set_pk (Some 0) Scenario.B) = Some 0 /\
  build_cache (Scenario.conf true) (set_pk (Some 0) Scenario.B) None Scenario.world
  = (Raise (ValueError "Page have no id"), Scenario.world).
Proof. split; reflexivity. Qed.

(** ** The first root *)

Lemma wf_forest_root_parent (f : forest) (k : nat) (t : tree) :
  MPTT.wf_forest f = true -> f !! k = Some t -> parent (MPTT.row_of t) = None.
Proof.
  unfold MPTT.wf_forest. intros [Hall _]%andb_true_iff Hk.
  rewrite forallb_forall in Hall.
  assert (Ht : MPTT.wf_tree None t = true).
  { apply Hall. apply list_elem_of_In. eapply list_elem_of_lookup_2. exact Hk. }
  destruct t as [r ks]. cbn in Ht.
  apply andb_true_iff in Ht as [[Hp _]%andb_true_iff _].
  apply bool_decide_eq_true in Hp. exact Hp.
Qed.

(** Evaluating [self.parent]. *)
Lemma self_parent_none (self : Page) (w : World) :
  parent self = None -> self_parent self w = (Ok (None, self), w).
Proof. intros H. unfold self_parent. rewrite H. reflexivity. Qed.

Lemma self_parent_loads (self : Page) (w : World) (p : Z) :
  parent self = Some p -> parent_loads self w = true ->
  self_parent self w
  = (Ok (Some p, if _parent_cache self then self else set__parent_cache true self), w).
Proof.
  unfold self_parent, parent_loads. intros ->.
  destruct (_parent_cache self); [reflexivity|]. cbn [orb]. run.
  destruct (objects_get (pages w) p); [reflexivity|discriminate].
Qed.

Lemma objects_get_raises (f : forest) (i : Z) (e : Exn) :
  objects_get f i = Raise e -> e = DoesNotExist.
Proof.
  unfold objects_get. destruct (MPTT.locate f i ≫= MPTT.node_at f); congruence.
Qed.

Lemma self_parent_dangling (self : Page) (w : World) :
  parent_loads self w = false -> self_parent self w = (Raise DoesNotExist, w).
Proof.
  unfold self_parent, parent_loads. destruct (parent self) as [p|]; [|discriminate].
  destruct (_parent_cache self); [discriminate|]. cbn [orb]. run.
  destruct (objects_get (pages w) p) as [r|e] eqn:Hget; [discriminate|].
  intros _. rewrite (objects_get_raises _ _ _ Hget). reflexivity.
Qed.

(** C10, as the code has it: for a page with a parent, [is_first_root]
    evaluates [self.parent] first.  When the parent row can be loaded
    (it is in the Page table, or on the instance already) the answer is
    [False]; when the parent key names no row the call fails with
    [DoesNotExist].  Either way the world is unchanged: no call on the
    cache is made.  Hence only a page without a parent is ever reported
    as first root, and the only value [is_first_root] ever records under
    the first-root key is the key of the first root node of the forest. *)
Theorem C10_is_first_root_parent (self : Page) (w : World) :
  (forall p, parent self = Some p -> parent_loads self w = true ->
     is_first_root self w
     = (Ok (false, if _parent_cache self then self else set__parent_cache true self), w)) /\
  (forall p, parent self = Some p -> parent_loads self w = false ->
     is_first_root self w = (Raise DoesNotExist, w)) /\
  (forall self' w', is_first_root self w = (Ok (true, self'), w') -> parent self = None) /\
  (forall r w' k v,
     is_first_root self w = (r, w') ->
     CacheSet k v ∈ cache_calls w' -> CacheSet k v ∉ cache_calls w ->
     parent self = None /\ k = GERBI_FIRST_ROOT_ID /\
     exists t i, pages w !! 0%nat = Some t /\ pk (MPTT.row_of t) = Some i /\ v = VInt i /\
                 (MPTT.wf_forest (pages w) = true -> parent (MPTT.row_of t) = None)).
Proof.
  assert (Hpar : forall p r w', parent self = Some p ->
                   is_first_root self w = (r, w') -> w' = w /\ forall s, r <> Ok (true, s)).
  { intros p r w' Hp. unfold is_first_root. run.
    destruct (parent_loads self w) eqn:Hl.
    - rewrite (self_parent_loads self w p Hp Hl). cbn [truthy_obj].
      intros [= <- <-]. split; [reflexivity|]. intros s. discriminate.
    - rewrite (self_parent_dangling self w Hl).
      intros [= <- <-]. split; [reflexivity|]. intros s. discriminate. }
  split; [|split; [|split]].
  - intros p Hp Hl. unfold is_first_root. run.
    rewrite (self_parent_loads self w p Hp Hl). reflexivity.
  - intros p Hp Hl. unfold is_first_root. run.
    rewrite (self_parent_dangling self w Hl). reflexivity.
  - intros self' w' H. destruct (parent self) as [p|] eqn:Hp; [|reflexivity].
    destruct (Hpar p _ _ eq_refl H) as [_ Hne]. exfalso. exact (Hne self' eq_refl).
  - intros r w' k v H Hin Hnot.
    destruct (parent self) as [p|] eqn:Hp.
    { destruct (Hpar p _ _ eq_refl H) as [-> _]. contradiction. }
    unfold is_first_root in H. run. rewrite (self_parent_none self w Hp) in H.
    cbn [truthy_obj] in H.
    split; [reflexivity|].
    destruct (_is_first_root self).
    { run. injection H as _ <-. contradiction. }
    run. unfold cache_get at 1 in H. cbn [fst snd django_cache] in H.
    destruct (django_cache w !! GERBI_FIRST_ROOT_ID).
    { injection H as _ <-. cbn in Hin. set_unfold. destruct Hin as [?|[?|[]]]; [contradiction|discriminate]. }
    unfold objects_root, qs_index in H. cbn [pages Z.ltb Z.compare] in H.
    change (Z.to_nat 0) with 0%nat in H.
    destruct (pages w) as [|t f] eqn:Hf; cbn in H.
    { injection H as _ <-. cbn in Hin. set_unfold. destruct Hin as [?|[?|[]]]; [contradiction|discriminate]. }
    destruct (pk (MPTT.row_of t)) as [i|] eqn:Hi; cbn in H.
    + injection H as _ <-. cbn in Hin. set_unfold.
      destruct Hin as [[?|[?|[]]]|[Hin|[]]]; [contradiction|discriminate|].
      simplify_eq. split; [reflexivity|].
      exists t, i. repeat split; try assumption.
      intros Hwf. eapply (wf_forest_root_parent (t :: f) 0); [exact Hwf | reflexivity].
    + injection H as _ <-. cbn in Hin. set_unfold. destruct Hin as [?|[?|[]]]; [contradiction|discriminate].
Qed.

Lemma C10_is_first_root_parent_witness :
  is_first_root Scenario.B Scenario.world
  = (Ok (false, set__parent_cache true Scenario.B), Scenario.world).
Proof.
  apply (proj1 (C10_is_first_root_parent Scenario.B Scenario.world) 2); reflexivity.
Defined.

(** C10 as stated fails: the page [orphan] has a non-null parent key,
    and [is_first_root] does not return [False] for it: the key names no
    row, and loading the parent fails. *)
Lemma C10_counterexample :
  parent Scenario.orphan = Some 99 /\
  is_first_root Scenario.orphan Scenario.world = (Raise DoesNotExist, Scenario.world).
Proof. split; reflexivity. Qed.

(** ** Templates *)

Lemma truthy_str_set (s : string) : s <> "" -> truthy_str (Some s) = true.
Proof. destruct s; [congruence | reflexivity]. Qed.

Lemma first_template_skip (near far : list Page) :
  Forall (fun p => truthy_str (template p) = false) near ->
  first_template (near ++ far) = first_template far.
Proof.
  induction 1 as [|p near Hp _ IH]; [reflexivity|].
  cbn. rewrite Hp. exact IH.
Qed.

(** C8: the resolved template is the page's own when it is set; else
    the template of the nearest ancestor that has one; else the default
    template. *)
Theorem C8_get_template (settings : Settings) (f : forest) (self : Page) :
  (forall s, template self = Some s -> s <> "" -> get_template settings f self = s) /\
  (truthy_str (template self) = false ->
   forall near a far s,
     get_ancestors f self true = (near ++ a :: far)%list ->
     Forall (fun p => truthy_str (template p) = false) near ->
     template a = Some s -> s <> "" ->
     get_template settings f self = s) /\
  (truthy_str (template self) = false ->
   Forall (fun p => truthy_str (template p) = false) (get_ancestors f self true) ->
   get_template settings f self = GERBI_DEFAULT_TEMPLATE settings).
Proof.
  split; [|split].
  - intros s Hs Hne. unfold get_template.
    rewrite Hs, (truthy_str_set s Hne). reflexivity.
  - intros Hown near a far s Hanc Hnear Ha Hne. unfold get_template.
    rewrite Hown, Hanc, (first_template_skip near (a :: far) Hnear).
    cbn [first_template]. rewrite Ha, (truthy_str_set s Hne). cbv beta iota zeta.
    rewrite (truthy_str_set s Hne). reflexivity.
  - intros Hown Hall. unfold get_template. rewrite Hown.
    rewrite <- (app_nil_r (get_ancestors f self true)).
    rewrite (first_template_skip _ [] Hall). reflexivity.
Qed.

Lemma C8_get_template_witness :
  get_template (Scenario.conf true) Scenario.themed Scenario.B = "home.html".
Proof.
  apply (proj1 (proj2 (C8_get_template (Scenario.conf true) Scenario.themed Scenario.B))
           eq_refl [Scenario.A] (Scenario.with_template "home.html" Scenario.R) []
           "home.html");
    [reflexivity | repeat constructor | reflexivity | discriminate].
Defined.

(** ** Complete slugs *)

Lemma concat_snoc2 (sep x y : string) (l : list string) :
  String.concat sep (l ++ [x; y]) = String.concat sep (l ++ [x +:+ sep +:+ y]).
Proof.
  induction l as [|a l IH]; [reflexivity|].
  change ((a :: l) ++ [x; y])%list with (a :: (l ++ [x; y]))%list.
  change ((a :: l) ++ [x +:+ sep +:+ y])%list with (a :: (l ++ [x +:+ sep +:+ y]))%list.
  destruct l as [|b l]; [reflexivity|].
  cbn [app String.concat] in *. rewrite IH. reflexivity.
Qed.

Lemma objects_get_content_contents (settings : Settings) (w1 w2 : World)
    (self : Page) (lang : option string) (ctype : string) (fallback : bool) :
  contents w1 = contents w2 ->
  objects_get_content settings w1 self lang ctype fallback
  = objects_get_content settings w2 self lang ctype fallback.
Proof.
  intros H. unfold objects_get_content, get_content_object. rewrite H. reflexivity.
Qed.

Lemma prepend_slugs_ok (settings : Settings) (lang : string) (w : World)
    (ancestors : list Page) (slugs : list string) (url : string) :
  Forall2 (fun a s => objects_get_content settings w a (Some lang) "slug" true = Some s)
          ancestors slugs ->
  prepend_slugs settings lang ancestors url w
  = (Ok (String.concat "/" (rev slugs ++ [url])), w).
Proof.
  intros H. revert url. induction H as [|a s ancestors slugs Ha _ IH]; intros url.
  - reflexivity.
  - cbn [prepend_slugs]. unfold slug, get_content. run. rewrite Ha.
    cbn [slash_join]. rewrite IH. cbn [rev]. rewrite <- app_assoc.
    cbn [app]. rewrite concat_snoc2. reflexivity.
Qed.

Lemma is_first_root_answer (self : Page) (w : World) :
  parent_loads self w = true ->
  exists self' w',
    is_first_root self w = (Ok (first_root_answer self w, self'), w') /\
    pages w' = pages w /\ contents w' = contents w /\
    pk self' = pk self /\ _complete_slug self' = _complete_slug self.
Proof.
  intros Hl. unfold is_first_root, first_root_answer. run.
  destruct (parent self) as [p|] eqn:Hp; cbn [truthy_obj negb andb].
  { rewrite (self_parent_loads self w p Hp Hl). cbn [truthy_obj].
    eexists _, _. split; [reflexivity|]. destruct (_parent_cache self); auto. }
  rewrite (self_parent_none self w Hp). cbn [truthy_obj].
  destruct (_is_first_root self).
  { eexists _, _. split; [reflexivity|]. auto. }
  run. unfold cache_get at 1. cbn [fst snd django_cache].
  destruct (django_cache w !! GERBI_FIRST_ROOT_ID) as [v|].
  { assert (Hb : match v, pk self with
                 | VInt i, Some j => i =? j
                 | _, _ => false
                 end
                 = match v with
                   | VInt i => bool_decide (pk self = Some i)
                   | _ => false
                   end).
    { destruct v as [?|?|i|?]; destruct (pk self) as [j|]; try reflexivity.
      case_bool_decide; [simplify_eq; apply Z.eqb_refl|].
      apply Z.eqb_neq. congruence. }
    rewrite Hb. eexists _, _; split; [reflexivity|cbn; auto]. }
  unfold objects_root, qs_index. cbn [pages Z.ltb Z.compare].
  change (Z.to_nat 0) with 0%nat.
  destruct (pages w) as [|t f]; cbn.
  { eexists _, _. split; [reflexivity|]. auto. }
  destruct (pk (MPTT.row_of t)); cbn.
  all: eexists _, _; (split; [reflexivity|]); auto.
Qed.

Lemma is_first_root_dangling (self : Page) (w : World) :
  parent_loads self w = false -> is_first_root self w = (Raise DoesNotExist, w).
Proof.
  intros Hl. unfold is_first_root. run.
  rewrite (self_parent_dangling self w Hl). reflexivity.
Qed.

(** [is_first_root] writes nothing on the instance but its answer and
    the parent row it had to load. *)
Lemma is_first_root_columns (self self' : Page) (w w' : World) (b : bool) :
  is_first_root self w = (Ok (b, self'), w') ->
  set__parent_cache false (set__is_first_root None self')
  = set__parent_cache false (set__is_first_root None self).
Proof.
  unfold is_first_root. run.
  destruct (parent_loads self w) eqn:Hl;
    [|rewrite (self_parent_dangling self w Hl); discriminate].
  destruct (parent self) as [p|] eqn:Hp.
  { rewrite (self_parent_loads self w p Hp Hl). cbn [truthy_obj].
    intros [= _ <- _]. destruct (_parent_cache self); reflexivity. }
  rewrite (self_parent_none self w Hp). cbn [truthy_obj].
  destruct (_is_first_root self).
  { run. intros [= _ <- _]. reflexivity. }
  run. unfold cache_get at 1. cbn [fst snd django_cache].
  destruct (django_cache w !! GERBI_FIRST_ROOT_ID).
  { intros [= _ <- _]. reflexivity. }
  unfold objects_root, qs_index. cbn [pages Z.ltb Z.compare].
  change (Z.to_nat 0) with 0%nat.
  destruct (pages w) as [|t f]; cbn.
  { intros [= _ <- _]. reflexivity. }
  destruct (pk (MPTT.row_of t)); cbn; intros [= _ <- _]; reflexivity.
Qed.

Lemma objects_get_content_page (settings : Settings) (w : World) (p1 p2 : Page)
    (lang : option string) (ctype : string) (fallback : bool) :
  pk p1 = pk p2 -> freeze_date p1 = freeze_date p2 ->
  objects_get_content settings w p1 lang ctype fallback
  = objects_get_content settings w p2 lang ctype fallback.
Proof.
  intros Hpk Hfd. unfold objects_get_content, get_content_object, content_filter.
  rewrite Hpk, Hfd. reflexivity.
Qed.

Lemma get_ancestors_pk (f : forest) (p1 p2 : Page) (ascending : bool) :
  pk p1 = pk p2 -> get_ancestors f p1 ascending = get_ancestors f p2 ascending.
Proof.
  intros H. unfold get_ancestors, MPTT.get_ancestors, MPTT.position. rewrite H. reflexivity.
Qed.

(** What [get_complete_slug] computes when neither cache holds the
    language. *)
Lemma complete_slug_miss_ok (settings : Settings) (self : Page) (lang : string)
    (hideroot : bool) (key : string) (w : World) (slugs : list string) :
  (hideroot && GERBI_HIDE_ROOT_SLUG settings = true -> parent_loads self w = true) ->
  Forall2 (fun a s => objects_get_content settings w a (Some lang) "slug" true = Some s)
          (get_ancestors (pages w) self true) slugs ->
  let own := percent_s (objects_get_content settings w self (Some lang) "slug" true) in
  let hidden := hideroot && GERBI_HIDE_ROOT_SLUG settings && first_root_answer self w in
  let url := String.concat "/" (rev slugs ++ [if hidden then "" else own]) in
  exists self' w',
    complete_slug_miss settings self lang hideroot key w = (Ok (url, self'), w') /\
    _complete_slug self' = Some (<[lang := url]> (default ∅ (_complete_slug self))).
Proof.
  intros Hloads Hslugs own hidden url. unfold complete_slug_miss.
  set (first := first_root_answer self w) in *.
  assert (Hfirst : exists b self1 w1,
    (if hideroot && GERBI_HIDE_ROOT_SLUG settings then is_first_root self
     else mret (false, self)) w = (Ok (b, self1), w1) /\
    hideroot && GERBI_HIDE_ROOT_SLUG settings && b = hidden /\
    (hideroot && GERBI_HIDE_ROOT_SLUG settings = false -> b = false) /\
    pages w1 = pages w /\ contents w1 = contents w /\
    set__parent_cache false (set__is_first_root None self1)
    = set__parent_cache false (set__is_first_root None self)).
  { subst hidden. destruct (hideroot && GERBI_HIDE_ROOT_SLUG settings).
    - destruct (is_first_root_answer self w (Hloads eq_refl))
        as (s1 & w1 & Heq & Hp & Hc & _).
      exists first, s1, w1.
      repeat split; try assumption; [discriminate|].
      eapply is_first_root_columns. exact Heq.
    - exists false, self, w. repeat split. }
  destruct Hfirst as (b & self1 & w1 & Heq1 & Hb & Hb0 & Hp1 & Hc1 & Hcols).
  pose proof (f_equal pk Hcols) as Hpk. pose proof (f_equal freeze_date Hcols) as Hfd.
  pose proof (f_equal _complete_slug Hcols) as Hmemo. cbn in Hpk, Hfd, Hmemo.
  assert (Hurl : (if b then "" else
                   percent_s (objects_get_content settings w1 self1 (Some lang) "slug" true))
                 = (if hidden then "" else own)).
  { subst own. rewrite (objects_get_content_contents settings w1 w) by exact Hc1.
    rewrite (objects_get_content_page settings w self1 self) by assumption.
    subst hidden.
    destruct (hideroot && GERBI_HIDE_ROOT_SLUG settings) eqn:Hh; cbn in Hb |- *.
    - rewrite Hb. reflexivity.
    - rewrite (Hb0 eq_refl). reflexivity. }
  run. rewrite Heq1.
  assert (Hmid : (if b then mret ""
            else slug settings self1 (Some lang) true ≫= λ s, mret (percent_s s)) w1
          = (Ok (if hidden then "" else own), w1)).
  { rewrite <- Hurl. destruct b; reflexivity. }
  run. rewrite Hmid.
  rewrite Hp1, (get_ancestors_pk (pages w) self1 self true Hpk).
  rewrite (prepend_slugs_ok settings lang w1 _ slugs).
  - rewrite Hmemo. eexists _, _. split; reflexivity.
  - eapply Forall2_impl; [exact Hslugs|]. intros a s <-.
    apply objects_get_content_contents. exact Hc1.
Qed.

Lemma truthy_dict_lookup {V} (d : gmap string V) (k : string) (v : V) :
  d !! k = Some v -> truthy_dict (Some d) = true.
Proof.
  intros H. unfold truthy_dict. rewrite bool_decide_false; [reflexivity|].
  intros Hdom. apply (not_elem_of_empty (C := gset string) k).
  rewrite <- Hdom. apply elem_of_dom. eauto.
Qed.

Lemma memo_lookup_miss (m : option slug_dict) (lang : string) :
  (forall d, m = Some d -> d !! lang = None) ->
  (if truthy_dict m then default ∅ m !! lang else None) = None.
Proof.
  intros H. destruct (truthy_dict m); [|reflexivity].
  destruct m as [d|]; [exact (H d eq_refl) | reflexivity].
Qed.

(** C1, as the code has it: on a cache miss (the instance does not
    remember the language, and the shared cache holds nothing for the
    page or a dictionary without the language) the complete slug is the
    slugs of the ancestors, root first, and then the page's own slug,
    joined with "/"; the own slug is replaced by the empty string when
    root hiding is asked for and enabled and the page itself is the first
    root.  Where root hiding applies the parent of the page, if it has
    one, is loaded first and has to exist.  (For the grandchild [B] of
    the scenario this is "home/about/team" under either policy.) *)
Theorem C1_complete_slug (settings : Settings) (self : Page) (lang : option string)
    (hideroot : bool) (w : World) (i : Z) (slugs : list string) :
  let l := language_or_default settings lang in
  (forall d, _complete_slug self = Some d -> d !! l = None) ->
  pk self = Some i ->
  (django_cache w !! url_key i = None \/
   exists d, django_cache w !! url_key i = Some (VSlug d) /\ d !! l = None) ->
  (hideroot && GERBI_HIDE_ROOT_SLUG settings = true -> parent_loads self w = true) ->
  Forall2 (fun a s => objects_get_content settings w a (Some l) "slug" true = Some s)
          (get_ancestors (pages w) self true) slugs ->
  let own := percent_s (objects_get_content settings w self (Some l) "slug" true) in
  let hidden := hideroot && GERBI_HIDE_ROOT_SLUG settings && first_root_answer self w in
  exists self' w',
    get_complete_slug settings self lang hideroot w
    = (Ok (String.concat "/" (rev slugs ++ [if hidden then "" else own]), self'), w').
Proof.
  intros l Hmemo Hpk Hcache Hloads Hslugs own hidden.
  unfold get_complete_slug. fold l. rewrite (memo_lookup_miss _ l Hmemo).
  rewrite Hpk. run. cbn [GERBI_URL_KEY fmt_d]. fold (url_key i).
  unfold cache_get at 1. cbn [fst snd django_cache].
  set (w1 := mkWorld _ _ _ _ _ _).
  destruct Hcache as [Hcache|(d & Hcache & Hd)]; rewrite Hcache; cbv beta iota zeta.
  - set (self1 := set__complete_slug (Some ∅) self).
    destruct (complete_slug_miss_ok settings self1 l hideroot (url_key i) w1 slugs)
      as (self' & w' & Heq & _).
    + exact Hloads.
    + eapply Forall2_impl; [exact Hslugs|]. intros a s <-.
      apply objects_get_content_contents. reflexivity.
    + exists self', w'. exact Heq.
  - rewrite Hd. set (self1 := set__complete_slug (Some d) self).
    destruct (complete_slug_miss_ok settings self1 l hideroot (url_key i) w1 slugs)
      as (self' & w' & Heq & _).
    + exact Hloads.
    + eapply Forall2_impl; [exact Hslugs|]. intros a s <-.
      apply objects_get_content_contents. reflexivity.
    + exists self', w'. exact Heq.
Qed.

Lemma C1_complete_slug_witness :
  exists self' w',
    get_complete_slug (Scenario.conf true) Scenario.B None true Scenario.world
    = (Ok ("home/about/team", self'), w').
Proof.
  apply (C1_complete_slug (Scenario.conf true) Scenario.B None true Scenario.world 3
           ["about"; "home"]).
  - intros d Hd. discriminate Hd.
  - reflexivity.
  - left. reflexivity.
  - intros _. reflexivity.
  - repeat constructor.
Defined.

(** C1 as stated fails: with root-slug hiding enabled the complete slug
    of [B] is not "about/team". *)
Lemma C1_counterexample :
  res_map fst (fst (get_complete_slug (Scenario.conf true) Scenario.B None true
                      Scenario.world))
  <> Ok "about/team".
Proof. vm_compute. discriminate. Qed.

Example scenario_slug_B_plain :
  res_map fst (fst (get_complete_slug (Scenario.conf false) Scenario.B None true
                      Scenario.world)) = Ok "home/about/team".
Proof. vm_compute. reflexivity. Qed.

Example scenario_slug_R_hidden :
  res_map fst (fst (get_complete_slug (Scenario.conf true) Scenario.R None true
                      Scenario.world)) = Ok "".
Proof. vm_compute. reflexivity. Qed.

Example scenario_slug_R_plain :
  res_map fst (fst (get_complete_slug (Scenario.conf false) Scenario.R None true
                      Scenario.world)) = Ok "home".
Proof. vm_compute. reflexivity. Qed.

Lemma scenario_slug_R_run :
  exists self' w',
    get_complete_slug (Scenario.conf true) Scenario.R None true Scenario.world
    = (Ok ("", self'), w').
Proof.
  destruct (get_complete_slug (Scenario.conf true) Scenario.R None true Scenario.world)
    as [[[u s]|e] w'] eqn:Hrun.
  - exists s, w'. f_equal. f_equal. f_equal.
    apply (f_equal (fun r => res_map fst (fst r))) in Hrun.
    vm_compute in Hrun. congruence.
  - apply (f_equal (fun r => res_map fst (fst r))) in Hrun.
    vm_compute in Hrun. discriminate.
Qed.

(** Case analysis on the first computation of a run that succeeded. *)
Ltac step_ok :=
  lazymatch goal with
  | |- (match ?m with _ => _ end) = _ -> _ =>
      let a := fresh "a" in
      destruct m as [[a|?] ?]; [|discriminate]
  end.

(** A successful [get_complete_slug] leaves the answer on the instance. *)
Lemma get_complete_slug_memo (settings : Settings) (self self' : Page)
    (lang : option string) (hideroot : bool) (w w' : World) (url : string) :
  get_complete_slug settings self lang hideroot w = (Ok (url, self'), w') ->
  exists d, _complete_slug self' = Some d /\
            d !! language_or_default settings lang = Some url.
Proof.
  unfold get_complete_slug. set (l := language_or_default settings lang).
  destruct (if truthy_dict (_complete_slug self) then _ else _) as [u|] eqn:Hmemo.
  { run. intros [= <- <- _].
    destruct (truthy_dict (_complete_slug self)); [|discriminate].
    destruct (_complete_slug self) as [d|]; [eauto | cbn in Hmemo].
    rewrite lookup_empty in Hmemo. discriminate. }
  run. destruct (GERBI_URL_KEY (pk self)) as [key|e]; [|discriminate].
  unfold cache_get at 1. cbn [fst snd django_cache].
  set (w1 := mkWorld _ _ _ _ _ _).
  assert (Hmiss : forall s,
    complete_slug_miss settings s l hideroot key w1 = (Ok (url, self'), w') ->
    exists d, _complete_slug self' = Some d /\ d !! l = Some url).
  { intros s. unfold complete_slug_miss. run.
    step_ok. destruct a as [b s1]. step_ok. step_ok.
    unfold cache_set. cbn. intros [= <- <- _]. cbn.
    eexists. split; [reflexivity|]. apply lookup_insert_eq. }
  destruct (django_cache w !! key) as [[d|d|?|?]|]; try discriminate.
  - destruct (d !! l) as [u|] eqn:Hd.
    + intros [= <- <- _]. eauto.
    + apply Hmiss.
  - apply Hmiss.
Qed.

(** ** Memoisation of the complete slug *)

(** C9: once the language is in the per-instance cache, or in the shared
    cache, [get_complete_slug] returns what is stored there whatever
    [hideroot] says; so a call that follows a successful call returns the
    same path for either [hideroot], and after a [hideroot=True] call on
    the first root a [hideroot=False] call returns the root-hidden path
    although it would compute "home" on a miss. *)
Theorem C9_complete_slug_memoized (settings : Settings) (self : Page)
    (lang : option string) (w : World) :
  let l := language_or_default settings lang in
  (forall d url hideroot,
     _complete_slug self = Some d -> d !! l = Some url ->
     get_complete_slug settings self lang hideroot w = (Ok (url, self), w)) /\
  (forall i d url hideroot,
     (forall m, _complete_slug self = Some m -> m !! l = None) ->
     pk self = Some i ->
     django_cache w !! url_key i = Some (VSlug d) -> d !! l = Some url ->
     exists w',
       get_complete_slug settings self lang hideroot w
       = (Ok (url, set__complete_slug (Some d) self), w')) /\
  (forall h1 h2 url self' w',
     get_complete_slug settings self lang h1 w = (Ok (url, self'), w') ->
     get_complete_slug settings self' lang h2 w' = (Ok (url, self'), w')) /\
  (exists self' w',
     get_complete_slug (Scenario.conf true) Scenario.R None true Scenario.world
       = (Ok ("", self'), w') /\
     get_complete_slug (Scenario.conf true) self' None false w' = (Ok ("", self'), w') /\
     res_map fst (fst (get_complete_slug (Scenario.conf true) Scenario.R None false
                         Scenario.world)) = Ok "home").
Proof.
  intros l.
  assert (Hhit : forall (s : Page) (v : World) d url hideroot,
     _complete_slug s = Some d -> d !! l = Some url ->
     get_complete_slug settings s lang hideroot v = (Ok (url, s), v)).
  { intros s v d url hideroot Hd Hl. unfold get_complete_slug. fold l.
    rewrite Hd, (truthy_dict_lookup d l url Hl).
    change (default ∅ (Some d)) with d. rewrite Hl. reflexivity. }
  split; [apply Hhit|]. split; [|split].
  - intros i d url hideroot Hmemo Hpk Hcache Hl.
    unfold get_complete_slug. fold l. rewrite (memo_lookup_miss _ l Hmemo).
    rewrite Hpk. run. cbn [GERBI_URL_KEY fmt_d]. fold (url_key i).
    unfold cache_get at 1. cbn [fst snd django_cache]. rewrite Hcache.
    cbv beta iota zeta. fold l. rewrite Hl. eexists. reflexivity.
  - intros h1 h2 url self' w' Hrun.
    destruct (get_complete_slug_memo _ _ _ _ _ _ _ _ Hrun) as (d & Hd & Hl).
    eapply Hhit; eassumption.
  - destruct (scenario_slug_R_run) as (self' & w' & Hrun).
    exists self', w'. split; [exact Hrun|]. split; [|vm_compute; reflexivity].
    destruct (get_complete_slug_memo _ _ _ _ _ _ _ _ Hrun) as (d & Hd & Hl).
    unfold get_complete_slug.
    change (language_or_default (Scenario.conf true) None) with "en" in *.
    rewrite Hd, (truthy_dict_lookup d "en" "" Hl).
    change (default ∅ (Some d)) with d. rewrite Hl. reflexivity.
Qed.

Lemma C9_complete_slug_memoized_witness :
  get_complete_slug (Scenario.conf true) Scenario.visited None false Scenario.world
  = (Ok ("", Scenario.visited), Scenario.world).
Proof.
  apply (proj1 (C9_complete_slug_memoized (Scenario.conf true) Scenario.visited None
                  Scenario.world) {[ "en" := "" ]} "" false).
  - reflexivity.
  - reflexivity.
Defined.

(** ** Book traversal *)

Lemma take_removelast {A} (l : list A) : take (length l - 1) l = removelast l.
Proof.
  induction l as [|a l IH]; [reflexivity|].
  destruct l as [|b l]; [reflexivity|].
  cbn [length removelast] in *. rewrite <- IH.
  replace (Datatypes.S (Datatypes.S (length l)) - 1)%nat
    with (Datatypes.S (Datatypes.S (length l) - 1))%nat by lia.
  reflexivity.
Qed.

(** [get_next_in_book] follows the description of the traversal on every
    page but one kind: a page with no child, no next sibling and no
    ancestor, where the slice [[0:cnt-1]] has a negative bound. *)
Lemma get_next_in_book_characterised (f : forest) (self : Page) :
  get_next_in_book f self =
    match get_children f self, get_next_sibling f self, get_ancestors f self true with
    | [], None, [] => Raise negative_indexing
    | _, _, _ => Ok (next_in_book f self)
    end.
Proof.
  unfold get_next_in_book, next_in_book, qs_count, qs_index, qs_slice.
  destruct (get_children f self) as [|c chd]; [|reflexivity].
  cbn [length Z.of_nat Z.ltb Z.compare].
  destruct (get_next_sibling f self) as [s|]; [reflexivity|].
  cbn [truthy_obj].
  destruct (get_ancestors f self true) as [|a anc] eqn:Hanc; [reflexivity|].
  replace (Z.of_nat (length (a :: anc)) - 1 <? 0) with false
    by (symmetry; apply Z.ltb_ge; cbn [length]; lia).
  cbn [Z.ltb Z.compare orb res_map]. f_equal. f_equal.
  rewrite <- take_removelast. cbn [drop Z.to_nat]. f_equal. lia.
Qed.

Local Open Scope list_scope.

(** ** The tree index on a consistent table *)

Lemma tree_induction (P : tree -> Prop) :
  (forall r ks, Forall P ks -> P (Node r ks)) -> forall t, P t.
Proof.
  intros step. fix IH 1. intros [r ks]. apply step.
  induction ks as [|c ks IHks]; constructor; [apply IH | exact IHks].
Qed.

Lemma rows_cons (t : tree) (f : forest) :
  MPTT.rows (t :: f) = (MPTT.preorder t ++ MPTT.rows f)%list.
Proof. reflexivity. Qed.

Lemma preorder_node (r : Page) (ks : list tree) :
  MPTT.preorder (Node r ks) = r :: MPTT.rows ks.
Proof. reflexivity. Qed.

Lemma subtree_cons (r : Page) (ks : list tree) (k : nat) (q : path) (c : tree) :
  ks !! k = Some c -> MPTT.subtree (Node r ks) (k :: q) = MPTT.subtree c q.
Proof. intros H. cbn [MPTT.subtree MPTT.kids_of]. rewrite H. reflexivity. Qed.

Lemma node_at_cons (f : forest) (k : nat) (q : path) (c : tree) :
  f !! k = Some c -> MPTT.node_at f (k :: q) = MPTT.subtree c q.
Proof. intros H. cbn [MPTT.node_at]. rewrite H. reflexivity. Qed.

Lemma subtree_cons_inv (r : Page) (ks : list tree) (k : nat) (q : path) (t : tree) :
  MPTT.subtree (Node r ks) (k :: q) = Some t ->
  exists c, ks !! k = Some c /\ MPTT.subtree c q = Some t.
Proof.
  cbn [MPTT.subtree MPTT.kids_of]. destruct (ks !! k) as [c|]; [|discriminate].
  intros H. exists c. auto.
Qed.

Lemma node_at_cons_inv (f : forest) (k : nat) (q : path) (t : tree) :
  MPTT.node_at f (k :: q) = Some t ->
  exists c, f !! k = Some c /\ MPTT.subtree c q = Some t.
Proof.
  cbn [MPTT.node_at]. destruct (f !! k) as [c|]; [|discriminate].
  intros H. exists c. auto.
Qed.

(** Every row of a tree sits at some position below its root. *)
Lemma preorder_subtree (t : tree) (x : Page) :
  x ∈ MPTT.preorder t <->
  exists q t', MPTT.subtree t q = Some t' /\ x = MPTT.row_of t'.
Proof.
  revert x. induction t as [r ks IH] using tree_induction. intros x.
  rewrite preorder_node, elem_of_cons. split.
  - intros [->|Hin].
    + exists [], (Node r ks). split; reflexivity.
    + unfold MPTT.rows in Hin. apply list_elem_of_In, in_flat_map in Hin.
      destruct Hin as (c & Hc & Hx). apply list_elem_of_In in Hc, Hx.
      apply list_elem_of_lookup in Hc as [k Hk].
      rewrite Forall_forall in IH.
      destruct (proj1 (IH c (list_elem_of_lookup_2 _ _ _ Hk) x) Hx) as (q & t' & Hq & ->).
      exists (k :: q), t'. split; [|reflexivity]. rewrite (subtree_cons _ _ _ _ _ Hk). exact Hq.
  - intros (q & t' & Hq & ->). destruct q as [|k q].
    + injection Hq as <-. left. reflexivity.
    + right. apply subtree_cons_inv in Hq as (c & Hk & Hq).
      unfold MPTT.rows. apply list_elem_of_In, in_flat_map.
      exists c. split; [apply list_elem_of_In; eapply list_elem_of_lookup_2; exact Hk|].
      apply list_elem_of_In. rewrite Forall_forall in IH.
      apply (IH c (list_elem_of_lookup_2 _ _ _ Hk)). eauto.
Qed.

Lemma rows_node_at (f : forest) (x : Page) :
  x ∈ MPTT.rows f <->
  exists p t, MPTT.node_at f p = Some t /\ x = MPTT.row_of t.
Proof.
  unfold MPTT.rows. rewrite list_elem_of_In, in_flat_map. split.
  - intros (c & Hc & Hx). apply list_elem_of_In in Hc, Hx.
    apply list_elem_of_lookup in Hc as [k Hk].
    apply preorder_subtree in Hx as (q & t & Hq & ->).
    exists (k :: q), t. split; [|reflexivity]. rewrite (node_at_cons _ _ _ _ Hk). exact Hq.
  - intros ([|k q] & t & Hp & ->); [discriminate|].
    apply node_at_cons_inv in Hp as (c & Hk & Hp).
    exists c. split; [apply list_elem_of_In; eapply list_elem_of_lookup_2; exact Hk|].
    apply list_elem_of_In, preorder_subtree. eauto.
Qed.

(** *** Looking a key up *)

Lemma find_first_shift {A} (g : A -> option path) (k : nat) (ts : list A) :
  MPTT.find_first g k ts =
  (fun p => match p with [] => [] | j :: q => (k + j)%nat :: q end)
    <$> MPTT.find_first g 0 ts.
Proof.
  revert k. induction ts as [|c ts IH]; intros k; [reflexivity|].
  cbn. destruct (g c) as [q|].
  - cbn. do 2 f_equal. lia.
  - rewrite (IH (Datatypes.S k)), (IH 1%nat).
    destruct (MPTT.find_first g 0 ts) as [[|j q]|]; cbn; try reflexivity.
    do 2 f_equal. lia.
Qed.

Lemma find_first_cons {A} (g : A -> option path) (c : A) (ts : list A) :
  MPTT.find_first g 0 (c :: ts) =
  match g c with
  | Some q => Some (0%nat :: q)
  | None => (fun p => match p with [] => [] | j :: q => Datatypes.S j :: q end)
              <$> MPTT.find_first g 0 ts
  end.
Proof. cbn. destruct (g c); [reflexivity|]. apply (find_first_shift g 1). Qed.

Lemma find_first_sound {A} (g : A -> option path) (ts : list A) (p : path) :
  MPTT.find_first g 0 ts = Some p ->
  exists k q c, p = k :: q /\ ts !! k = Some c /\ g c = Some q.
Proof.
  revert p. induction ts as [|c ts IH]; intros p; [discriminate|].
  rewrite find_first_cons. destruct (g c) as [q|] eqn:Hg.
  - intros [= <-]. exists 0%nat, q, c. auto.
  - destruct (MPTT.find_first g 0 ts) as [p'|]; [|discriminate].
    destruct (IH p' eq_refl) as (k & q & c' & -> & Hk & Hq).
    intros [= <-]. exists (Datatypes.S k), q, c'. auto.
Qed.

Lemma find_pk_node (i : Z) (r : Page) (ks : list tree) :
  MPTT.find_pk i (Node r ks) =
  if decide (pk r = Some i) then Some [] else MPTT.find_first (MPTT.find_pk i) 0 ks.
Proof. reflexivity. Qed.

Lemma find_pk_sound (i : Z) (t : tree) (q : path) :
  MPTT.find_pk i t = Some q ->
  exists t', MPTT.subtree t q = Some t' /\ pk (MPTT.row_of t') = Some i.
Proof.
  revert q. induction t as [r ks IH] using tree_induction. intros q.
  rewrite find_pk_node. destruct (decide (pk r = Some i)) as [Hr|Hr].
  - intros [= <-]. exists (Node r ks). auto.
  - intros Hfind. apply find_first_sound in Hfind as (k & q' & c & -> & Hk & Hq).
    rewrite Forall_forall in IH.
    destruct (IH c (list_elem_of_lookup_2 _ _ _ Hk) q' Hq) as (t' & Ht' & Hpk).
    exists t'. split; [|exact Hpk]. rewrite (subtree_cons _ _ _ _ _ Hk). exact Ht'.
Qed.

Lemma locate_sound (f : forest) (i : Z) (p : path) :
  MPTT.locate f i = Some p ->
  exists t, MPTT.node_at f p = Some t /\ pk (MPTT.row_of t) = Some i.
Proof.
  unfold MPTT.locate. intros Hfind.
  apply find_first_sound in Hfind as (k & q & c & -> & Hk & Hq).
  apply find_pk_sound in Hq as (t' & Ht' & Hpk).
  exists t'. split; [|exact Hpk]. rewrite (node_at_cons _ _ _ _ Hk). exact Ht'.
Qed.

Lemma find_pk_absent (i : Z) (t : tree) :
  i ∉ omap pk (MPTT.preorder t) -> MPTT.find_pk i t = None.
Proof.
  intros Hnot. destruct (MPTT.find_pk i t) as [q|] eqn:Hfind; [|reflexivity].
  exfalso. apply Hnot. apply find_pk_sound in Hfind as (t' & Ht' & Hpk).
  apply list_elem_of_omap. exists (MPTT.row_of t'). split; [|exact Hpk].
  apply preorder_subtree. eauto.
Qed.

Lemma find_first_complete (i : Z) (ts : list tree) (k : nat) (c : tree) (q : path) :
  NoDup (omap pk (MPTT.rows ts)) ->
  ts !! k = Some c -> MPTT.find_pk i c = Some q ->
  MPTT.find_first (MPTT.find_pk i) 0 ts = Some (k :: q).
Proof.
  revert k. induction ts as [|c0 ts IH]; intros k Hnd Hk Hq; [discriminate|].
  rewrite find_first_cons. rewrite rows_cons, omap_app in Hnd.
  apply NoDup_app in Hnd as (_ & Hdisj & Hnd).
  destruct k as [|k]; cbn in Hk.
  - injection Hk as ->. rewrite Hq. reflexivity.
  - rewrite find_pk_absent.
    + rewrite (IH k Hnd Hk Hq). reflexivity.
    + intros Hin. apply (Hdisj i Hin).
      apply find_pk_sound in Hq as (t' & Ht' & Hpk).
      apply list_elem_of_omap. exists (MPTT.row_of t'). split; [|exact Hpk].
      apply rows_node_at. exists (k :: q), t'. split; [|reflexivity].
      rewrite (node_at_cons _ _ _ _ Hk). exact Ht'.
Qed.

Lemma find_pk_complete (i : Z) (t t' : tree) (q : path) :
  NoDup (omap pk (MPTT.preorder t)) ->
  MPTT.subtree t q = Some t' -> pk (MPTT.row_of t') = Some i ->
  MPTT.find_pk i t = Some q.
Proof.
  revert q. induction t as [r ks IH] using tree_induction. intros q Hnd Hq Hpk.
  rewrite find_pk_node. destruct q as [|k q].
  - injection Hq as <-. cbn in Hpk. rewrite decide_True by exact Hpk. reflexivity.
  - apply subtree_cons_inv in Hq as (c & Hk & Hq).
    rewrite preorder_node in Hnd.
    assert (Hin : i ∈ omap pk (MPTT.rows ks)).
    { apply list_elem_of_omap. exists (MPTT.row_of t'). split; [|exact Hpk].
      apply rows_node_at. exists (k :: q), t'. split; [|reflexivity].
      rewrite (node_at_cons _ _ _ _ Hk). exact Hq. }
    assert (Hks : NoDup (omap pk (MPTT.rows ks)) /\ pk r <> Some i).
    { cbn [omap list_omap] in Hnd. fold (omap pk (MPTT.rows ks)) in Hnd.
      destruct (pk r) as [j|]; [|split; [exact Hnd | discriminate]].
      apply NoDup_cons in Hnd as [Hj Hnd]. split; [exact Hnd|].
      intros [= ->]. contradiction. }
    destruct Hks as [Hks Hr]. rewrite decide_False by exact Hr.
    apply (find_first_complete i ks k c q Hks Hk).
    rewrite Forall_forall in IH.
    apply (IH c (list_elem_of_lookup_2 _ _ _ Hk) q); [|exact Hq|exact Hpk].
    clear -Hks Hk. revert k Hk. induction ks as [|c0 ks IHks]; intros k Hk; [discriminate|].
    rewrite rows_cons, omap_app in Hks. apply NoDup_app in Hks as (H0 & _ & H1).
    destruct k as [|k]; cbn in Hk; [injection Hk as <-; exact H0 | eauto].
Qed.

Lemma locate_complete (f : forest) (i : Z) (p : path) (t : tree) :
  NoDup (omap pk (MPTT.rows f)) ->
  MPTT.node_at f p = Some t -> pk (MPTT.row_of t) = Some i ->
  MPTT.locate f i = Some p.
Proof.
  intros Hnd Hp Hpk. destruct p as [|k q]; [discriminate|].
  apply node_at_cons_inv in Hp as (c & Hk & Hp).
  apply (find_first_complete i f k c q Hnd Hk).
  apply (find_pk_complete i c t q); [|exact Hp|exact Hpk].
  clear -Hnd Hk. revert k Hk. induction f as [|c0 f IHf]; intros k Hk; [discriminate|].
  rewrite rows_cons, omap_app in Hnd. apply NoDup_app in Hnd as (H0 & _ & H1).
  destruct k as [|k]; cbn in Hk; [injection Hk as <-; exact H0 | eauto].
Qed.

(** *** Positions *)

Lemma subtree_snoc (t : tree) (q : path) (k : nat) :
  MPTT.subtree t (q ++ [k]) = MPTT.subtree t q ≫= fun t' => MPTT.kids_of t' !! k.
Proof.
  revert t. induction q as [|j q IH]; intros t.
  - cbn. destruct (MPTT.kids_of t !! k); reflexivity.
  - cbn [app MPTT.subtree]. destruct (MPTT.kids_of t !! j) as [c|]; [|reflexivity].
    cbn. apply IH.
Qed.

Lemma node_at_snoc (f : forest) (p : path) (k : nat) :
  p <> [] ->
  MPTT.node_at f (p ++ [k]) = MPTT.node_at f p ≫= fun t => MPTT.kids_of t !! k.
Proof.
  destruct p as [|j q]; [congruence|]. intros _.
  cbn [app MPTT.node_at]. destruct (f !! j) as [c|]; [|reflexivity].
  cbn. apply subtree_snoc.
Qed.

Lemma level_at_snoc (f : forest) (p : path) (k : nat) :
  MPTT.level_at f (p ++ [k]) =
  match p with
  | [] => f
  | _ => from_option MPTT.kids_of [] (MPTT.node_at f p)
  end.
Proof. unfold MPTT.level_at. rewrite removelast_last. destruct p; reflexivity. Qed.

(** The node at a position is found in the sibling list of that position. *)
Lemma node_at_level (f : forest) (p : path) (k : nat) :
  MPTT.node_at f (p ++ [k]) = MPTT.level_at f (p ++ [k]) !! k.
Proof.
  rewrite level_at_snoc. destruct p as [|j q].
  - cbn [app MPTT.node_at]. destruct (f !! k); reflexivity.
  - rewrite node_at_snoc by discriminate.
    destruct (MPTT.node_at f (j :: q)); reflexivity.
Qed.

Lemma node_at_prefix (f : forest) (p q : path) (t : tree) :
  MPTT.node_at f (p ++ q) = Some t -> p <> [] ->
  exists a, MPTT.node_at f p = Some a /\ MPTT.subtree a q = Some t.
Proof.
  revert t. induction q as [|k q IH] using rev_ind; intros t Ht Hp.
  - rewrite app_nil_r in Ht. eauto.
  - rewrite app_assoc, node_at_snoc in Ht by (destruct p; [congruence|discriminate]).
    destruct (MPTT.node_at f (p ++ q)) as [u|] eqn:Hu; [|discriminate].
    destruct (IH u eq_refl Hp) as (a & Ha & Hq). exists a. split; [exact Ha|].
    rewrite subtree_snoc, Hq. exact Ht.
Qed.

Lemma node_at_app (f : forest) (p q : path) (a t : tree) :
  MPTT.node_at f p = Some a -> MPTT.subtree a q = Some t ->
  MPTT.node_at f (p ++ q) = Some t.
Proof.
  intros Ha. revert t. induction q as [|k q IH] using rev_ind; intros t Ht.
  - rewrite app_nil_r. cbn in Ht. congruence.
  - assert (p <> []) by (destruct p; [discriminate|congruence]).
    rewrite subtree_snoc in Ht.
    destruct (MPTT.subtree a q) as [u|] eqn:Hu; [|discriminate].
    rewrite app_assoc, node_at_snoc, (IH u eq_refl) by (destruct p; [congruence|discriminate]).
    exact Ht.
Qed.

(** *** Consistency *)

Lemma wf_forest_keys (f : forest) :
  MPTT.wf_forest f = true -> NoDup (omap pk (MPTT.rows f)).
Proof.
  unfold MPTT.wf_forest. intros [_ H]%andb_true_iff.
  apply bool_decide_eq_true in H. exact H.
Qed.

Lemma wf_tree_inv (par : option Z) (t : tree) :
  MPTT.wf_tree par t = true ->
  parent (MPTT.row_of t) = par /\ is_Some (pk (MPTT.row_of t)) /\
  forall k c, MPTT.kids_of t !! k = Some c -> MPTT.wf_tree (pk (MPTT.row_of t)) c = true.
Proof.
  destruct t as [r ks]. cbn [MPTT.wf_tree MPTT.row_of MPTT.kids_of].
  intros [[Hp Hk]%andb_true_iff Hks]%andb_true_iff.
  apply bool_decide_eq_true in Hp, Hk. repeat split; try assumption.
  intros k c Hc. rewrite forallb_forall in Hks. apply Hks.
  apply list_elem_of_In. eapply list_elem_of_lookup_2. exact Hc.
Qed.

Lemma wf_subtree (par : option Z) (t t' : tree) (q : path) :
  MPTT.wf_tree par t = true -> MPTT.subtree t q = Some t' ->
  exists par', MPTT.wf_tree par' t' = true.
Proof.
  revert par t. induction q as [|k q IH]; intros par t Hwf Hq.
  - injection Hq as <-. eauto.
  - destruct t as [r ks]. apply subtree_cons_inv in Hq as (c & Hk & Hq).
    destruct (wf_tree_inv _ _ Hwf) as (_ & _ & Hkids).
    eapply IH; [|exact Hq]. apply (Hkids k). exact Hk.
Qed.

Lemma wf_node_at (f : forest) (p : path) (t : tree) :
  MPTT.wf_forest f = true -> MPTT.node_at f p = Some t ->
  exists par, MPTT.wf_tree par t = true.
Proof.
  intros Hwf Hp. destruct p as [|k q]; [discriminate|].
  apply node_at_cons_inv in Hp as (c & Hk & Hq).
  apply (wf_subtree None c t q); [|exact Hq].
  unfold MPTT.wf_forest in Hwf. apply andb_true_iff in Hwf as [Hall _].
  rewrite forallb_forall in Hall. apply Hall.
  apply list_elem_of_In. eapply list_elem_of_lookup_2. exact Hk.
Qed.

Lemma wf_node_key (f : forest) (p : path) (t : tree) :
  MPTT.wf_forest f = true -> MPTT.node_at f p = Some t ->
  is_Some (pk (MPTT.row_of t)).
Proof.
  intros Hwf Hp. destruct (wf_node_at f p t Hwf Hp) as [par Ht].
  apply (wf_tree_inv _ _ Ht).
Qed.

(** The [parent_id] of a child is the key of the node above it. *)
Lemma wf_child_parent (f : forest) (p : path) (k : nat) (c : tree) :
  MPTT.wf_forest f = true -> p <> [] -> MPTT.node_at f (p ++ [k]) = Some c ->
  exists t i, MPTT.node_at f p = Some t /\ pk (MPTT.row_of t) = Some i /\
              parent (MPTT.row_of c) = Some i.
Proof.
  intros Hwf Hne Hc. rewrite node_at_snoc in Hc by exact Hne.
  destruct (MPTT.node_at f p) as [t|] eqn:Ht; [|discriminate]. cbn in Hc.
  destruct (wf_node_at f p t Hwf Ht) as [par Hwt].
  destruct (wf_tree_inv _ _ Hwt) as (_ & [i Hi] & Hkids).
  exists t, i. repeat split; [exact Hi|].
  destruct (wf_tree_inv _ _ (Hkids k c Hc)) as (Hp & _). congruence.
Qed.

(** A stored row is found again at its own position. *)
Lemma position_row (f : forest) (p : path) (t : tree) :
  MPTT.wf_forest f = true -> MPTT.node_at f p = Some t ->
  MPTT.position f (MPTT.row_of t) = Some p.
Proof.
  intros Hwf Hp. destruct (wf_node_key f p t Hwf Hp) as [i Hi].
  unfold MPTT.position. rewrite Hi. cbn.
  exact (locate_complete f i p t (wf_forest_keys f Hwf) Hp Hi).
Qed.

Lemma node_of_row (f : forest) (p : path) (t : tree) :
  MPTT.wf_forest f = true -> MPTT.node_at f p = Some t ->
  MPTT.node_of f (MPTT.row_of t) = Some t.
Proof.
  intros Hwf Hp. unfold MPTT.node_of. rewrite (position_row f p t Hwf Hp). exact Hp.
Qed.

Lemma position_sound (f : forest) (self : Page) (p : path) :
  MPTT.position f self = Some p ->
  exists t, MPTT.node_at f p = Some t /\ pk (MPTT.row_of t) = pk self /\ p <> [].
Proof.
  unfold MPTT.position. destruct (pk self) as [i|]; [|discriminate]. cbn.
  intros Hloc. destruct (locate_sound f i p Hloc) as (t & Ht & Hi).
  exists t. repeat split; [exact Ht|exact Hi|]. intros ->. discriminate.
Qed.

(** *** The queries at a known position *)

Lemma position_snoc (f : forest) (self : Page) (p : path) :
  MPTT.position f self = Some p -> exists init k, p = init ++ [k].
Proof.
  intros Hp. destruct (position_sound f self p Hp) as (_ & _ & _ & Hne).
  destruct (exists_last Hne) as (init & k & ->). eauto.
Qed.

Lemma get_children_at (f : forest) (self : Page) (p : path) (t : tree) :
  MPTT.position f self = Some p -> MPTT.node_at f p = Some t ->
  get_children f self = MPTT.row_of <$> MPTT.kids_of t.
Proof.
  intros Hp Ht. unfold get_children, MPTT.get_children, MPTT.node_of.
  rewrite Hp. cbn. rewrite Ht. reflexivity.
Qed.

Lemma get_descendants_at (f : forest) (self : Page) (p : path) (t : tree) :
  MPTT.position f self = Some p -> MPTT.node_at f p = Some t ->
  get_descendants f self = MPTT.rows (MPTT.kids_of t).
Proof.
  intros Hp Ht. unfold get_descendants, MPTT.get_descendants, MPTT.node_of.
  rewrite Hp. cbn. rewrite Ht. reflexivity.
Qed.

Lemma level_at_sibling (f : forest) (init : path) (k j : nat) :
  MPTT.level_at f (init ++ [k]) !! j = MPTT.node_at f (init ++ [j]).
Proof. rewrite node_at_level, !level_at_snoc. reflexivity. Qed.

Lemma get_next_sibling_at (f : forest) (self : Page) (init : path) (k : nat) :
  MPTT.position f self = Some (init ++ [k]) ->
  get_next_sibling f self = MPTT.row_of <$> MPTT.node_at f (init ++ [Datatypes.S k]).
Proof.
  intros Hp. unfold get_next_sibling, MPTT.get_next_sibling.
  rewrite Hp. cbn [mbind option_bind]. rewrite last_snoc. cbn [mbind option_bind].
  rewrite level_at_sibling. reflexivity.
Qed.

Lemma get_previous_sibling_at (f : forest) (self : Page) (init : path) (k : nat) :
  MPTT.position f self = Some (init ++ [k]) ->
  get_previous_sibling f self =
  match k with
  | O => None
  | Datatypes.S k' => MPTT.row_of <$> MPTT.node_at f (init ++ [k'])
  end.
Proof.
  intros Hp. unfold get_previous_sibling, MPTT.get_previous_sibling.
  rewrite Hp. cbn [mbind option_bind]. rewrite last_snoc. cbn [mbind option_bind].
  destruct k as [|k']; [reflexivity|]. rewrite level_at_sibling. reflexivity.
Qed.

Lemma ancestor_paths_snoc (init : path) (k : nat) :
  init <> [] ->
  MPTT.ancestor_paths (init ++ [k]) = MPTT.ancestor_paths init ++ [init].
Proof.
  intros Hne. unfold MPTT.ancestor_paths.
  rewrite length_app. cbn [length].
  replace (length init + 1 - 1)%nat with (Datatypes.S (length init - 1))
    by (destruct init; [congruence | cbn; lia]).
  rewrite seq_S, fmap_app. cbn [fmap list_fmap].
  replace (1 + (length init - 1))%nat with (length init)
    by (destruct init; [congruence | cbn; lia]).
  rewrite take_app_length. f_equal.
  apply list_eq. intros j. rewrite !list_lookup_fmap.
  destruct (seq 1 (length init - 1) !! j) as [n|] eqn:Hn; [|reflexivity]. cbn.
  apply lookup_seq in Hn as [-> Hj]. rewrite take_app_le by lia. reflexivity.
Qed.

Lemma get_ancestors_root (f : forest) (self : Page) (k : nat) :
  MPTT.position f self = Some [k] -> get_ancestors f self true = [].
Proof.
  intros Hp. unfold get_ancestors, MPTT.get_ancestors. rewrite Hp. reflexivity.
Qed.

(** Ascending, the ancestors start with the parent. *)
Lemma get_ancestors_snoc (f : forest) (self : Page) (init : path) (k : nat) (a : tree) :
  MPTT.wf_forest f = true ->
  MPTT.position f self = Some (init ++ [k]) -> MPTT.node_at f init = Some a ->
  get_ancestors f self true = MPTT.row_of a :: get_ancestors f (MPTT.row_of a) true.
Proof.
  intros Hwf Hp Ha. unfold get_ancestors, MPTT.get_ancestors.
  rewrite Hp, (position_row f init a Hwf Ha). cbn [from_option].
  assert (init <> []) by (intros ->; discriminate).
  rewrite ancestor_paths_snoc, omap_app, reverse_app by assumption.
  cbn [omap list_omap]. rewrite Ha. reflexivity.
Qed.

(** *** Document order *)

Lemma rows_app (l1 l2 : forest) : MPTT.rows (l1 ++ l2) = MPTT.rows l1 ++ MPTT.rows l2.
Proof. unfold MPTT.rows. apply flat_map_app. Qed.

Lemma preorder_last (t : tree) : is_Some (last (MPTT.preorder t)).
Proof. destruct t as [r ks]. apply last_is_Some. discriminate. Qed.

(** The last row of a tree is the last row of its last subtree. *)
Lemma last_kid (kids : list tree) (k : nat) (t : tree) :
  kids !! k = Some t -> kids !! Datatypes.S k = None ->
  last (MPTT.rows kids) = last (MPTT.preorder t).
Proof.
  intros Hk Hend.
  assert (Hlen : length kids = Datatypes.S k).
  { apply lookup_lt_Some in Hk. apply lookup_ge_None in Hend. lia. }
  rewrite <- (take_ge kids (Datatypes.S k)) by lia.
  rewrite (take_S_r kids k t Hk), rows_app, last_app.
  change (MPTT.rows [t]) with (MPTT.preorder t ++ []). rewrite app_nil_r.
  destruct (preorder_last t) as [x ->]. reflexivity.
Qed.

Lemma last_preorder (t : tree) :
  last (MPTT.preorder t) =
  match last (MPTT.rows (MPTT.kids_of t)) with
  | Some x => Some x
  | None => Some (MPTT.row_of t)
  end.
Proof. destruct t as [r ks]. rewrite preorder_node. apply last_cons. Qed.

Lemma qs_index_last {A} (l : list A) (x : A) :
  last l = Some x -> qs_index l (qs_count l - 1) = Ok x.
Proof.
  intros Hl. unfold qs_index, qs_count.
  assert (length l <> 0%nat) by (destruct l; [discriminate | cbn; lia]).
  replace (Z.of_nat (length l) - 1 <? 0) with false by (symmetry; apply Z.ltb_ge; lia).
  replace (Z.to_nat (Z.of_nat (length l) - 1)) with (pred (length l)) by lia.
  rewrite <- last_lookup, Hl. reflexivity.
Qed.

(** *** One step back *)

Lemma get_prev_in_book_root (f : forest) (k : nat) (t : tree) :
  MPTT.wf_forest f = true -> MPTT.node_at f [k] = Some t ->
  get_prev_in_book f (MPTT.row_of t) = Ok None.
Proof.
  intros Hwf Ht. unfold get_prev_in_book, MPTT.is_root_node.
  apply node_at_cons_inv in Ht as (c & Hk & [= <-]).
  rewrite (wf_forest_root_parent f k c Hwf Hk). reflexivity.
Qed.

Lemma get_prev_in_book_first_child (f : forest) (p : path) (c t : tree) :
  MPTT.wf_forest f = true -> p <> [] ->
  MPTT.node_at f (p ++ [0%nat]) = Some c -> MPTT.node_at f p = Some t ->
  get_prev_in_book f (MPTT.row_of c) = Ok (Some (MPTT.row_of t)).
Proof.
  intros Hwf Hne Hc Ht.
  destruct (wf_child_parent f p 0 c Hwf Hne Hc) as (t' & i & Ht' & Hi & Hpar).
  assert (t' = t) as -> by congruence.
  unfold get_prev_in_book, MPTT.is_root_node. rewrite Hpar. cbn [truthy_obj negb].
  rewrite (get_previous_sibling_at f _ p 0 (position_row f _ c Hwf Hc)).
  unfold objects_get.
  rewrite (locate_complete f i p t (wf_forest_keys f Hwf) Ht Hi). cbn. rewrite Ht.
  reflexivity.
Qed.

Lemma get_prev_in_book_sibling (f : forest) (init : path) (j : nat) (s a : tree) (x : Page) :
  MPTT.wf_forest f = true -> init <> [] ->
  MPTT.node_at f (init ++ [Datatypes.S j]) = Some s ->
  MPTT.node_at f (init ++ [j]) = Some a ->
  last (MPTT.preorder a) = Some x ->
  get_prev_in_book f (MPTT.row_of s) = Ok (Some x).
Proof.
  intros Hwf Hne Hs Ha Hx.
  destruct (wf_child_parent f init (Datatypes.S j) s Hwf Hne Hs) as (_ & i & _ & _ & Hpar).
  unfold get_prev_in_book, MPTT.is_root_node. rewrite Hpar. cbn [truthy_obj negb].
  rewrite (get_previous_sibling_at f _ init (Datatypes.S j) (position_row f _ s Hwf Hs)).
  rewrite Ha. cbn [fmap option_fmap option_map].
  rewrite (get_descendants_at f _ _ a (position_row f _ a Hwf Ha) Ha).
  rewrite last_preorder in Hx.
  destruct (last (MPTT.rows (MPTT.kids_of a))) as [y|] eqn:Hlast.
  - injection Hx as ->.
    assert (Hlen : qs_count (MPTT.rows (MPTT.kids_of a)) <> 0).
    { unfold qs_count. destruct (MPTT.rows (MPTT.kids_of a)); [discriminate | cbn; lia]. }
    rewrite (proj2 (Z.eqb_neq 0 _)) by lia.
    rewrite (qs_index_last _ x Hlast). reflexivity.
  - apply last_None in Hlast. rewrite Hlast. injection Hx as <-. reflexivity.
Qed.

(** *** There and back *)

(** Climbing from a node that ends its subtree: the next sibling of the
    nearest ancestor that has one is preceded, in book order, by the last
    row of that subtree. *)
Lemma climb_back (f : forest) (q r x : Page) :
  MPTT.wf_forest f = true ->
  forall (p : path) (t : tree),
    MPTT.node_at f p = Some t ->
    last (MPTT.preorder t) = Some x ->
    get_next_sibling f (MPTT.row_of t) = None ->
    first_next_sibling f (removelast (get_ancestors f (MPTT.row_of t) true)) = Some q ->
    get_prev_in_book f q = Ok (Some r) ->
    r = x.
Proof.
  intros Hwf p. induction p as [|k init IH] using rev_ind;
    intros t Ht Hx Hnext Hclimb Hprev; [discriminate|].
  pose proof (position_row f _ t Hwf Ht) as Hpos.
  destruct init as [|k0 init0] using rev_ind.
  { rewrite (get_ancestors_root f _ k Hpos) in Hclimb. discriminate. }
  clear IHinit0. set (init := init0 ++ [k0]) in *.
  assert (Hne : init <> []) by (subst init; destruct init0; discriminate).
  assert (Ha : exists a, MPTT.node_at f init = Some a).
  { rewrite node_at_snoc in Ht by exact Hne.
    destruct (MPTT.node_at f init) as [a|]; [eauto|discriminate]. }
  destruct Ha as [a Ha].
  rewrite (get_ancestors_snoc f _ init k a Hwf Hpos Ha) in Hclimb.
  pose proof (position_row f _ a Hwf Ha) as Hposa.
  assert (Hkid : MPTT.kids_of a !! k = Some t)
    by (rewrite node_at_snoc, Ha in Ht by exact Hne; exact Ht).
  assert (Hend : MPTT.kids_of a !! Datatypes.S k = None).
  { rewrite (get_next_sibling_at f _ init k Hpos) in Hnext.
    rewrite node_at_snoc, Ha in Hnext by exact Hne. cbn in Hnext.
    destruct (MPTT.kids_of a !! Datatypes.S k); [discriminate|reflexivity]. }
  assert (Hxa : last (MPTT.preorder a) = Some x).
  { rewrite last_preorder, (last_kid _ k t Hkid Hend), Hx. reflexivity. }
  destruct init0 as [|j0 init1] using rev_ind.
  { subst init. rewrite (get_ancestors_root f _ k0 Hposa) in Hclimb. discriminate. }
  clear IHinit1. set (up := init1 ++ [j0]) in *.
  assert (Hup : up <> []) by (subst up; destruct init1; discriminate).
  assert (Hb : exists b, MPTT.node_at f up = Some b).
  { subst init. rewrite node_at_snoc in Ha by exact Hup.
    destruct (MPTT.node_at f up) as [b|]; [eauto|discriminate]. }
  destruct Hb as [b Hb].
  assert (Hrest : get_ancestors f (MPTT.row_of a) true <> []).
  { subst init. rewrite (get_ancestors_snoc f _ up k0 b Hwf Hposa Hb). discriminate. }
  destruct (get_ancestors f (MPTT.row_of a) true) as [|b0 rest] eqn:Hanc; [congruence|].
  cbn [removelast first_next_sibling] in Hclimb.
  destruct (get_next_sibling f (MPTT.row_of a)) as [s|] eqn:Hs.
  - injection Hclimb as <-.
    subst init. rewrite (get_next_sibling_at f _ up k0 Hposa) in Hs.
    destruct (MPTT.node_at f (up ++ [Datatypes.S k0])) as [sn|] eqn:Hsn; [|discriminate].
    injection Hs as <-.
    rewrite (get_prev_in_book_sibling f up k0 sn a x Hwf Hup Hsn Ha Hxa) in Hprev.
    congruence.
  - apply (IH a Ha Hxa Hs); [|exact Hprev]. rewrite Hanc. exact Hclimb.
Qed.

Lemma get_next_in_book_pk (f : forest) (a b : Page) :
  pk a = pk b -> get_next_in_book f a = get_next_in_book f b.
Proof.
  intros H.
  unfold get_next_in_book, get_children, get_next_sibling, get_ancestors,
    MPTT.get_children, MPTT.get_next_sibling, MPTT.get_ancestors, MPTT.node_of,
    MPTT.position.
  rewrite H. reflexivity.
Qed.

(** The round trip of C3: wherever [get_next_in_book] leads, and
    [get_prev_in_book] leads somewhere from there, it leads back. *)
Lemma get_prev_in_book_next (f : forest) (p : path) (t : tree) (q r : Page) :
  MPTT.wf_forest f = true ->
  MPTT.node_at f p = Some t ->
  get_next_in_book f (MPTT.row_of t) = Ok (Some q) ->
  get_prev_in_book f q = Ok (Some r) ->
  r = MPTT.row_of t.
Proof.
  intros Hwf Ht Hnext Hprev.
  pose proof (position_row f _ t Hwf Ht) as Hpos.
  destruct (position_snoc f _ p Hpos) as (init & k & ->).
  assert (Hp : init ++ [k] <> []) by (destruct init; discriminate).
  rewrite get_next_in_book_characterised in Hnext.
  assert (Hspec : next_in_book f (MPTT.row_of t) = Some q).
  { destruct (get_children f (MPTT.row_of t)), (get_next_sibling f (MPTT.row_of t)),
      (get_ancestors f (MPTT.row_of t) true); congruence. }
  clear Hnext. unfold next_in_book in Hspec.
  rewrite (get_children_at f _ _ t Hpos Ht) in Hspec.
  destruct (MPTT.kids_of t) as [|c cs] eqn:Hkids.
  - cbn [fmap list_fmap] in Hspec.
    destruct (get_next_sibling f (MPTT.row_of t)) as [s|] eqn:Hs.
    + injection Hspec as ->.
      rewrite (get_next_sibling_at f _ init k Hpos) in Hs.
      destruct (MPTT.node_at f (init ++ [Datatypes.S k])) as [sn|] eqn:Hsn; [|discriminate].
      injection Hs as <-.
      destruct init as [|k0 init0].
      * rewrite (get_prev_in_book_root f _ sn Hwf Hsn) in Hprev. discriminate.
      * assert (Hx : last (MPTT.preorder t) = Some (MPTT.row_of t))
          by (rewrite last_preorder, Hkids; reflexivity).
        rewrite (get_prev_in_book_sibling f (k0 :: init0) k sn t _ Hwf
                   ltac:(discriminate) Hsn Ht Hx) in Hprev.
        congruence.
    + apply (climb_back f q r (MPTT.row_of t) Hwf (init ++ [k]) t Ht); try assumption.
      rewrite last_preorder, Hkids. reflexivity.
  - cbn [fmap list_fmap] in Hspec. injection Hspec as <-.
    assert (Hc : MPTT.node_at f ((init ++ [k]) ++ [0%nat]) = Some c).
    { rewrite node_at_snoc, Ht by exact Hp. cbn. rewrite Hkids. reflexivity. }
    rewrite (get_prev_in_book_first_child f _ c t Hwf Hp Hc Ht) in Hprev. congruence.
Qed.

(** *** Staying in the tree *)

Lemma take_1_app (p l : path) : p <> [] -> take 1 (p ++ l) = take 1 p.
Proof. destruct p; [congruence | reflexivity]. Qed.

Lemma get_root_at (f : forest) (p : path) (t : tree) :
  MPTT.wf_forest f = true -> MPTT.node_at f p = Some t ->
  get_root f (MPTT.row_of t) = MPTT.row_of <$> MPTT.node_at f (take 1 p).
Proof.
  intros Hwf Ht. unfold get_root, MPTT.get_root.
  rewrite (position_row f p t Hwf Ht). reflexivity.
Qed.

(** Rows whose positions start with the same root index have the same
    root. *)
Lemma same_root (f : forest) (p p' : path) (t t' : tree) :
  MPTT.wf_forest f = true ->
  MPTT.node_at f p = Some t -> MPTT.node_at f p' = Some t' ->
  take 1 p' = take 1 p ->
  get_root f (MPTT.row_of t') = get_root f (MPTT.row_of t).
Proof.
  intros Hwf Ht Ht' Hp.
  rewrite (get_root_at f p t Hwf Ht), (get_root_at f p' t' Hwf Ht'), Hp. reflexivity.
Qed.

Lemma climb_same_tree (f : forest) (q : Page) :
  MPTT.wf_forest f = true ->
  forall (p : path) (t : tree),
    MPTT.node_at f p = Some t ->
    first_next_sibling f (removelast (get_ancestors f (MPTT.row_of t) true)) = Some q ->
    exists p' t', MPTT.node_at f p' = Some t' /\ q = MPTT.row_of t' /\ take 1 p' = take 1 p.
Proof.
  intros Hwf p. induction p as [|k init IH] using rev_ind; intros t Ht Hclimb; [discriminate|].
  pose proof (position_row f _ t Hwf Ht) as Hpos.
  destruct init as [|k0 init0] using rev_ind.
  { rewrite (get_ancestors_root f _ k Hpos) in Hclimb. discriminate. }
  clear IHinit0. set (init := init0 ++ [k0]) in *.
  assert (Hne : init <> []) by (subst init; destruct init0; discriminate).
  assert (Ha : exists a, MPTT.node_at f init = Some a).
  { rewrite node_at_snoc in Ht by exact Hne.
    destruct (MPTT.node_at f init) as [a|]; [eauto|discriminate]. }
  destruct Ha as [a Ha].
  rewrite (get_ancestors_snoc f _ init k a Hwf Hpos Ha) in Hclimb.
  pose proof (position_row f _ a Hwf Ha) as Hposa.
  destruct init0 as [|j0 init1] using rev_ind.
  { subst init. rewrite (get_ancestors_root f _ k0 Hposa) in Hclimb. discriminate. }
  clear IHinit1. set (up := init1 ++ [j0]) in *.
  assert (Hup : up <> []) by (subst up; destruct init1; discriminate).
  assert (Hb : exists b, MPTT.node_at f up = Some b).
  { subst init. rewrite node_at_snoc in Ha by exact Hup.
    destruct (MPTT.node_at f up) as [b|]; [eauto|discriminate]. }
  destruct Hb as [b Hb].
  assert (Hrest : get_ancestors f (MPTT.row_of a) true <> []).
  { subst init. rewrite (get_ancestors_snoc f _ up k0 b Hwf Hposa Hb). discriminate. }
  destruct (get_ancestors f (MPTT.row_of a) true) as [|b0 rest] eqn:Hanc; [congruence|].
  cbn [removelast first_next_sibling] in Hclimb.
  destruct (get_next_sibling f (MPTT.row_of a)) as [s|] eqn:Hs.
  - injection Hclimb as <-.
    subst init. rewrite (get_next_sibling_at f _ up k0 Hposa) in Hs.
    destruct (MPTT.node_at f (up ++ [Datatypes.S k0])) as [sn|] eqn:Hsn; [|discriminate].
    injection Hs as <-. exists (up ++ [Datatypes.S k0]), sn.
    repeat split; [exact Hsn|]. rewrite <- !app_assoc, !take_1_app by exact Hup. reflexivity.
  - destruct (IH a Ha) as (p' & t' & Hp' & -> & Htake).
    { rewrite Hanc. exact Hclimb. }
    exists p', t'. repeat split; [exact Hp'|].
    rewrite Htake. symmetry. apply take_1_app. exact Hne.
Qed.

(** X26: from a page that is not a root, [get_next_in_book] stays in the tree
    of that page. *)
Lemma get_next_in_book_same_tree (f : forest) (p : path) (t : tree) (q : Page) :
  MPTT.wf_forest f = true ->
  MPTT.node_at f p = Some t ->
  (1 < length p)%nat ->
  get_next_in_book f (MPTT.row_of t) = Ok (Some q) ->
  get_root f q = get_root f (MPTT.row_of t).
Proof.
  intros Hwf Ht Hlen Hnext.
  pose proof (position_row f _ t Hwf Ht) as Hpos.
  destruct (position_snoc f _ p Hpos) as (init & k & ->).
  assert (Hne : init <> []) by (intros ->; cbn in Hlen; lia).
  assert (Hp : init ++ [k] <> []) by (destruct init; discriminate).
  rewrite get_next_in_book_characterised in Hnext.
  assert (Hspec : next_in_book f (MPTT.row_of t) = Some q).
  { destruct (get_children f (MPTT.row_of t)), (get_next_sibling f (MPTT.row_of t)),
      (get_ancestors f (MPTT.row_of t) true); congruence. }
  clear Hnext. unfold next_in_book in Hspec.
  rewrite (get_children_at f _ _ t Hpos Ht) in Hspec.
  destruct (MPTT.kids_of t) as [|c cs] eqn:Hkids; cbn [fmap list_fmap] in Hspec.
  - destruct (get_next_sibling f (MPTT.row_of t)) as [s|] eqn:Hs.
    + injection Hspec as ->.
      rewrite (get_next_sibling_at f _ init k Hpos) in Hs.
      destruct (MPTT.node_at f (init ++ [Datatypes.S k])) as [sn|] eqn:Hsn; [|discriminate].
      injection Hs as <-.
      apply (same_root f _ _ t sn Hwf Ht Hsn). rewrite !take_1_app by exact Hne. reflexivity.
    + destruct (climb_same_tree f q Hwf _ t Ht Hspec) as (p' & t' & Hp' & -> & Htake).
      exact (same_root f _ _ t t' Hwf Ht Hp' Htake).
  - injection Hspec as <-.
    assert (Hc : MPTT.node_at f ((init ++ [k]) ++ [0%nat]) = Some c).
    { rewrite node_at_snoc, Ht by exact Hp. cbn. rewrite Hkids. reflexivity. }
    apply (same_root f _ _ t c Hwf Ht Hc). apply take_1_app. exact Hp.
Qed.

(** X27: [get_prev_in_book] stays in the tree of the page it starts from. *)
Lemma get_prev_in_book_same_tree (f : forest) (p : path) (t : tree) (r : Page) :
  MPTT.wf_forest f = true ->
  MPTT.node_at f p = Some t ->
  get_prev_in_book f (MPTT.row_of t) = Ok (Some r) ->
  get_root f r = get_root f (MPTT.row_of t).
Proof.
  intros Hwf Ht Hprev.
  pose proof (position_row f _ t Hwf Ht) as Hpos.
  destruct (position_snoc f _ p Hpos) as (init & k & ->).
  destruct init as [|k0 init0].
  { rewrite (get_prev_in_book_root f k t Hwf Ht) in Hprev. discriminate. }
  set (init := k0 :: init0) in *.
  assert (Hne : init <> []) by discriminate.
  destruct k as [|k].
  - assert (Ha : exists a, MPTT.node_at f init = Some a).
    { rewrite node_at_snoc in Ht by exact Hne.
      destruct (MPTT.node_at f init) as [a|]; [eauto|discriminate]. }
    destruct Ha as [a Ha].
    rewrite (get_prev_in_book_first_child f init t a Hwf Hne Ht Ha) in Hprev.
    injection Hprev as <-.
    apply (same_root f _ _ t a Hwf Ht Ha). symmetry. apply take_1_app. exact Hne.
  - assert (Ha : exists a, MPTT.node_at f (init ++ [k]) = Some a).
    { rewrite <- level_at_sibling with (k := Datatypes.S k).
      rewrite <- level_at_sibling with (k := Datatypes.S k) (j := Datatypes.S k) in Ht.
      apply lookup_lt_Some in Ht.
      destruct (lookup_lt_is_Some_2 (MPTT.level_at f (init ++ [Datatypes.S k])) k) as [a Ha];
        [lia | eauto]. }
    destruct Ha as [a Ha]. destruct (preorder_last a) as [x Hx].
    rewrite (get_prev_in_book_sibling f init k t a x Hwf Hne Ht Ha Hx) in Hprev.
    injection Hprev as <-.
    assert (Hin : x ∈ MPTT.preorder a)
      by (apply last_Some in Hx as [l ->]; set_solver).
    apply preorder_subtree in Hin as (q & t' & Hq & ->).
    apply (same_root f _ _ t t' Hwf Ht (node_at_app f _ q a t' Ha Hq)).
    rewrite <- !app_assoc, !take_1_app by exact Hne. reflexivity.
Qed.

(** *** Where the traversal departs from its description *)

(** C4, where the code departs from it: for a root page without
    children and without a following root, [get_next_in_book] does not
    return [None]; the slice of the (empty) ancestors raises. *)
Theorem C4_next_in_book_lone_root :
  get_next_in_book Scenario.lone_root Scenario.R = Raise negative_indexing /\
  next_in_book Scenario.lone_root Scenario.R = None.
Proof. split; vm_compute; reflexivity. Qed.

(** C3, where the code departs from it: for a root page without
    children, [get_next_in_book] returns the next root, a page outside
    the tree of the page it started from. *)
Theorem C3_next_in_book_leaves_tree :
  get_next_in_book Scenario.two_roots Scenario.R = Ok (Some Scenario.S) /\
  get_root Scenario.two_roots Scenario.R = Some Scenario.R /\
  get_root Scenario.two_roots Scenario.S = Some Scenario.S /\
  Scenario.S ∉ Scenario.R :: get_descendants Scenario.two_roots Scenario.R.
Proof.
  repeat split; try (vm_compute; reflexivity).
  change (get_descendants Scenario.two_roots Scenario.R) with (@nil Page).
  intros Hin. set_unfold. destruct Hin as [Hin|[]]. discriminate Hin.
Qed.

(** * More of [Page]: what the methods keep, and where they fail *)

(** ** Publication dates after a save *)

(** As [save_tail], keeping the end date in view as well. *)
Ltac save_tail_dates Hsites :=
  unfold cache_delete;
  cbn [pages contents page_sites django_cache cache_calls ticks];
  match goal with
  | |- context [model_save ?x ?v] =>
      let s := fresh "s" in let f := fresh "f" in
      let Heq := fresh "Heq" in let Hpk := fresh "Hpk" in
      let Hid := fresh "Hid" in let Hcols := fresh "Hcols" in
      let i := fresh "i" in
      destruct (model_save_ok x v) as (s & f & Heq & [i Hpk] & Hid & Hcols);
      rewrite Heq; clear Heq; rewrite (invalidate_ok s i) by exact Hpk;
      cbn [pages contents page_sites django_cache cache_calls ticks];
      destruct (GERBI_HIDE_SITES _) eqn:?;
      [ rewrite Hsites by reflexivity; unfold sites_count, sites_add;
        match goal with |- context [Z.eqb ?a 0] => destruct (Z.eqb a 0) end
      | ];
      (exists s; eexists _; split; [reflexivity|]);
      pose proof (f_equal status Hcols) as Hstatus;
      pose proof (f_equal publication_date Hcols) as Hpub;
      pose proof (f_equal publication_end_date Hcols) as Hend;
      cbn in Hstatus, Hpub, Hend |- *; clear Hcols Hid
  end.

Lemma save_dates (settings : Settings) (clock : nat -> datetime) (self : Page) (w : World) :
  (GERBI_HIDE_SITES settings = true -> GERBI_USE_SITE_ID settings = true) ->
  exists s w',
    save settings clock self w = (Ok (forgotten s), w') /\
    status s = (if truthy_int (status self) then status self else Some DRAFT) /\
    publication_end_date s = publication_end_date self /\
    (status s = Some PUBLISHED ->
       publication_date s =
       match publication_date self with
       | Some d => Some d
       | None => Some (clock (ticks w))
       end) /\
    (status s = Some DRAFT ->
       publication_date s = None \/
       (GERBI_SHOW_START_DATE settings = true /\
        exists d, publication_date s = Some d /\ clock (ticks w) < d)) /\
    (status s <> Some DRAFT -> status s <> Some PUBLISHED ->
       publication_date s = publication_date self).
Proof.
  intros Hsites. unfold save.
  set (self1 := if negb (truthy_int (status self)) then _ else _).
  assert (Hs1 : status self1 = if truthy_int (status self) then status self else Some DRAFT).
  { subst self1. destruct (truthy_int (status self)); reflexivity. }
  assert (Hp1 : publication_date self1 = publication_date self).
  { subst self1. destruct (truthy_int (status self)); reflexivity. }
  assert (He1 : publication_end_date self1 = publication_end_date self).
  { subst self1. destruct (truthy_int (status self)); reflexivity. }
  clearbody self1. run.
  destruct (bool_decide (publication_date self1 = None)
            && bool_decide (status self1 = Some PUBLISHED)) eqn:Hpub0.
  - apply andb_true_iff in Hpub0 as [Hd%bool_decide_eq_true Hst%bool_decide_eq_true].
    unfold datetime_now at 1. cbn [fst snd status set_publication_date].
    rewrite Hst. rewrite bool_decide_false by discriminate.
    unfold datetime_now at 1.
    save_tail_dates Hsites.
    all: rewrite Hstatus, Hpub, Hend, <- Hs1, <- Hp1, Hd, Hst.
    all: repeat split; try congruence; try discriminate.
  - apply andb_false_iff in Hpub0.
    destruct (bool_decide (status self1 = Some DRAFT)) eqn:Hdraft.
    + apply bool_decide_eq_true in Hdraft.
      destruct (GERBI_SHOW_START_DATE settings) eqn:Hshow.
      * destruct (publication_date self1) as [d0|] eqn:Hd0.
        -- unfold datetime_now at 1. cbn [fst snd ticks].
           unfold datetime_now at 1.
           destruct (d0 <=? clock (ticks w)) eqn:Hle.
           ++ save_tail_dates Hsites.
              all: rewrite Hstatus, Hpub, Hend, <- Hs1, Hdraft.
              all: repeat split; try congruence; try discriminate; auto.
           ++ apply Z.leb_gt in Hle. save_tail_dates Hsites.
              all: rewrite Hstatus, Hpub, Hend, <- Hs1, Hdraft.
              all: repeat split; try congruence; try discriminate; eauto.
        -- unfold datetime_now at 1.
           save_tail_dates Hsites.
           all: rewrite Hstatus, Hpub, Hend, <- Hs1, Hdraft.
           all: repeat split; try congruence; try discriminate; auto.
      * unfold datetime_now at 1.
        save_tail_dates Hsites.
        all: rewrite Hstatus, Hpub, Hend, <- Hs1, Hdraft.
        all: repeat split; try congruence; try discriminate; auto.
    + apply bool_decide_eq_false in Hdraft.
      unfold datetime_now at 1.
      save_tail_dates Hsites.
      all: rewrite Hstatus, Hpub, Hend, <- Hs1, <- Hp1.
      all: repeat split; try congruence.
      all: intros Hst; destruct Hpub0 as [H0%bool_decide_eq_false|H0%bool_decide_eq_false];
        [|contradiction].
      all: destruct (publication_date self1); [reflexivity | congruence].
Qed.

(** X1: what a save guarantees about the publication date.  A Published
    page always has one; a Draft has none unless it lies in the future
    under the "show start date" policy; the end date is never touched. *)
Theorem save_publication_date_invariant (settings : Settings) (clock : nat -> datetime)
    (self : Page) (w : World) :
  (GERBI_HIDE_SITES settings = true -> GERBI_USE_SITE_ID settings = true) ->
  exists self' w',
    save settings clock self w = (Ok self', w') /\
    (status self' = Some PUBLISHED -> is_Some (publication_date self')) /\
    (status self' = Some DRAFT ->
       publication_date self' = None \/
       (GERBI_SHOW_START_DATE settings = true /\
        exists d, publication_date self' = Some d /\ clock (ticks w) < d)) /\
    publication_end_date self' = publication_end_date self.
Proof.
  intros Hsites.
  destruct (save_dates settings clock self w Hsites)
    as (s & w' & Heq & _ & Hend & Hpub & Hdraft & _).
  exists (forgotten s), w'. split; [exact Heq|].
  change (status (forgotten s)) with (status s).
  change (publication_date (forgotten s)) with (publication_date s).
  change (publication_end_date (forgotten s)) with (publication_end_date s).
  repeat split; try assumption.
  intros Hst. rewrite (Hpub Hst). destruct (publication_date self); eauto.
Qed.

Lemma save_publication_date_invariant_witness :
  exists self' w',
    save (Scenario.conf true) Scenario.clock
         (set_publication_date (Some 50) (set_status (Some DRAFT) Scenario.A)) Scenario.world
      = (Ok self', w') /\
    (status self' = Some PUBLISHED -> is_Some (publication_date self')) /\
    (status self' = Some DRAFT ->
       publication_date self' = None \/
       (GERBI_SHOW_START_DATE (Scenario.conf true) = true /\
        exists d, publication_date self' = Some d /\ Scenario.clock 0 < d)) /\
    publication_end_date self' = None.
Proof.
  apply (save_publication_date_invariant (Scenario.conf true) Scenario.clock
           (set_publication_date (Some 50) (set_status (Some DRAFT) Scenario.A))
           Scenario.world).
  intros _. reflexivity.
Defined.

(** ** The calculated status *)

(** The calculated status is Draft, Expired or the stored status, and
    computing it only reads the clock. *)
Lemma calculated_status_range (settings : Settings) (clock : nat -> datetime)
    (self : Page) (w : World) :
  exists v w',
    _get_calculated_status settings clock self w = (Ok v, w') /\
    (v = Some DRAFT \/ v = Some EXPIRED \/ v = status self) /\
    (v = Some DRAFT -> status self <> Some DRAFT ->
       GERBI_SHOW_START_DATE settings = true /\
       exists d, publication_date self = Some d /\ d > clock (ticks w)).
Proof.
  unfold _get_calculated_status. run.
  destruct (GERBI_SHOW_START_DATE settings) eqn:Hstart;
    [destruct (publication_date self) as [d|] eqn:Hd|].
  1: unfold datetime_now at 1; cbn [fst snd]; case_bool_decide.
  1: { eexists _, _. split; [reflexivity|]. split; [auto|]. eauto. }
  all: destruct (GERBI_SHOW_END_DATE settings);
    [destruct (publication_end_date self) as [e|]|].
  all: try (unfold datetime_now at 1; cbn [fst snd]; case_bool_decide).
  all: eexists _, _; (split; [reflexivity|]); split; auto.
  all: intros Hv Hst; try discriminate Hv; congruence.
Qed.

(** X2: a page whose end date has passed is Expired under the "show end
    date" policy, unless its publication date is still in the future.
    The end date is compared with the clock reading that follows the one
    taken for the publication date. *)
Theorem calculated_status_expired (settings : Settings) (clock : nat -> datetime)
    (self : Page) (w : World) (e : datetime) :
  GERBI_SHOW_END_DATE settings = true ->
  publication_end_date self = Some e ->
  (GERBI_SHOW_START_DATE settings = true ->
   forall d, publication_date self = Some d -> d <= clock (ticks w)) ->
  e < clock (if GERBI_SHOW_START_DATE settings && truthy_obj (publication_date self)
             then Datatypes.S (ticks w) else ticks w) ->
  fst (_get_calculated_status settings clock self w) = Ok (Some EXPIRED).
Proof.
  intros Hpol He Hstart Hlate. unfold _get_calculated_status. rewrite Hpol, He. run.
  destruct (GERBI_SHOW_START_DATE settings);
    [destruct (publication_date self) as [d|]|]; cbn [andb truthy_obj] in Hlate.
  - unfold datetime_now at 1. cbn [fst snd].
    rewrite bool_decide_false by (specialize (Hstart eq_refl d eq_refl); lia).
    unfold datetime_now at 1. cbn [fst snd ticks].
    rewrite bool_decide_true by lia. reflexivity.
  - unfold datetime_now at 1. cbn [fst snd ticks].
    rewrite bool_decide_true by lia. reflexivity.
  - unfold datetime_now at 1. cbn [fst snd ticks].
    rewrite bool_decide_true by lia. reflexivity.
Qed.

Lemma calculated_status_expired_witness :
  fst (_get_calculated_status (Scenario.conf true) Scenario.clock Scenario.ended
         Scenario.world) = Ok (Some EXPIRED).
Proof.
  apply (calculated_status_expired (Scenario.conf true) Scenario.clock Scenario.ended
           Scenario.world 60); [reflexivity | reflexivity | | vm_compute; reflexivity].
  intros _ d [= <-]. vm_compute. discriminate.
Defined.

(** X3: with no publication date in the future and no end date in the
    past, the calculated status is the stored one. *)
Theorem calculated_status_stored (settings : Settings) (clock : nat -> datetime)
    (self : Page) (w : World) :
  (GERBI_SHOW_START_DATE settings = true ->
   forall d, publication_date self = Some d -> d <= clock (ticks w)) ->
  (GERBI_SHOW_END_DATE settings = true ->
   forall e, publication_end_date self = Some e ->
     clock (if GERBI_SHOW_START_DATE settings && truthy_obj (publication_date self)
            then Datatypes.S (ticks w) else ticks w) <= e) ->
  fst (_get_calculated_status settings clock self w) = Ok (status self).
Proof.
  intros Hstart Hend. unfold _get_calculated_status. run.
  destruct (GERBI_SHOW_START_DATE settings);
    [destruct (publication_date self) as [d|]|]; cbn [andb truthy_obj] in Hend.
  1: unfold datetime_now at 1; cbn [fst snd];
     rewrite bool_decide_false by (specialize (Hstart eq_refl d eq_refl); lia).
  all: destruct (GERBI_SHOW_END_DATE settings);
    [destruct (publication_end_date self) as [e|]|]; try reflexivity.
  all: unfold datetime_now at 1; cbn [fst snd ticks].
  all: rewrite bool_decide_false by (specialize (Hend eq_refl e eq_refl); lia).
  all: reflexivity.
Qed.

Lemma calculated_status_stored_witness :
  fst (_get_calculated_status (Scenario.conf true) Scenario.clock Scenario.running
         Scenario.world) = Ok (Some HIDDEN).
Proof.
  apply (calculated_status_stored (Scenario.conf true) Scenario.clock Scenario.running
           Scenario.world).
  - intros _ d [= <-]. vm_compute. discriminate.
  - intros _ e [= <-]. vm_compute. discriminate.
Defined.

(** ** Visibility after a save *)

Lemma visible_of_status (settings : Settings) (clock : nat -> datetime)
    (self : Page) (w : World) (v : option Z) :
  fst (_get_calculated_status settings clock self w) = Ok v ->
  fst (_visible settings clock self w)
  = Ok (bool_decide (v = Some PUBLISHED) || bool_decide (v = Some HIDDEN)).
Proof.
  unfold _visible. run.
  destruct (_get_calculated_status settings clock self w) as [[v'|e] w'];
    cbn; intros [= ->]; reflexivity.
Qed.

(** X4: a page saved without a status, or as a Draft, is saved as a
    Draft and is not visible afterwards, at whatever time one looks. *)
Theorem saved_draft_not_visible (settings : Settings) (clock : nat -> datetime)
    (self : Page) (w : World) :
  (GERBI_HIDE_SITES settings = true -> GERBI_USE_SITE_ID settings = true) ->
  truthy_int (status self) = false ->
  exists self' w',
    save settings clock self w = (Ok self', w') /\
    status self' = Some DRAFT /\
    forall later, fst (_visible settings clock self' later) = Ok false.
Proof.
  intros Hsites Hfalsy.
  destruct (save_dates settings clock self w Hsites) as (s & w' & Heq & Hst & _).
  rewrite Hfalsy in Hst.
  exists (forgotten s), w'. split; [exact Heq|]. split; [exact Hst|]. intros later.
  destruct (calculated_status_range settings clock (forgotten s) later)
    as (v & w2 & Hv & Hrange & _).
  rewrite (visible_of_status settings clock _ later v) by (rewrite Hv; reflexivity).
  change (status (forgotten s)) with (status s) in Hrange. rewrite Hst in Hrange.
  destruct Hrange as [->|[->| ->]]; reflexivity.
Qed.

Lemma saved_draft_not_visible_witness :
  exists self' w',
    save (Scenario.conf true) Scenario.clock (set_status None Scenario.A) Scenario.world
      = (Ok self', w') /\
    status self' = Some DRAFT /\
    forall later, fst (_visible (Scenario.conf true) Scenario.clock self' later) = Ok false.
Proof.
  apply (saved_draft_not_visible (Scenario.conf true) Scenario.clock
           (set_status None Scenario.A) Scenario.world); [intros _|]; reflexivity.
Defined.

(** Without an end date only the publication date can change the
    status. *)
Lemma calculated_status_no_end (settings : Settings) (clock : nat -> datetime)
    (self : Page) (w : World) :
  publication_end_date self = None ->
  (GERBI_SHOW_START_DATE settings = true ->
   forall d, publication_date self = Some d -> d <= clock (ticks w)) ->
  fst (_get_calculated_status settings clock self w) = Ok (status self).
Proof.
  intros Hend Hstart. unfold _get_calculated_status. rewrite Hend. run.
  destruct (GERBI_SHOW_START_DATE settings);
    [destruct (publication_date self) as [d|]|]; cbn [andb truthy_obj].
  1: unfold datetime_now at 1; cbn [fst snd];
     rewrite bool_decide_false by (specialize (Hstart eq_refl d eq_refl); lia).
  all: destruct (GERBI_SHOW_END_DATE settings); reflexivity.
Qed.

(** X5: a page saved as Published, without dates, gets the time of the
    save as its publication date and is visible from then on, provided
    the clock never runs backwards. *)
Theorem saved_published_visible (settings : Settings) (clock : nat -> datetime)
    (self : Page) (w : World) :
  (forall m n, (m <= n)%nat -> clock m <= clock n) ->
  (GERBI_HIDE_SITES settings = true -> GERBI_USE_SITE_ID settings = true) ->
  status self = Some PUBLISHED ->
  publication_date self = None ->
  publication_end_date self = None ->
  exists self' w',
    save settings clock self w = (Ok self', w') /\
    status self' = Some PUBLISHED /\
    publication_date self' = Some (clock (ticks w)) /\
    forall later, (ticks w <= ticks later)%nat ->
                  fst (_visible settings clock self' later) = Ok true.
Proof.
  intros Hmono Hsites Hst Hpub Hend.
  destruct (save_dates settings clock self w Hsites)
    as (s & w' & Heq & Hst' & Hend' & Hpub' & _).
  rewrite Hst in Hst'. cbn in Hst'. rewrite Hpub in Hpub'. specialize (Hpub' Hst').
  exists (forgotten s), w'. split; [exact Heq|].
  split; [exact Hst'|]. split; [exact Hpub'|]. intros later Hlater.
  rewrite (visible_of_status settings clock _ later (Some PUBLISHED)); [reflexivity|].
  change (Some PUBLISHED) with (Some PUBLISHED : option Z).
  rewrite <- Hst'. change (status s) with (status (forgotten s)).
  apply calculated_status_no_end.
  - change (publication_end_date (forgotten s)) with (publication_end_date s).
    rewrite Hend', Hend. reflexivity.
  - intros _ d. change (publication_date (forgotten s)) with (publication_date s).
    rewrite Hpub'. intros [= <-]. apply Hmono. exact Hlater.
Qed.

Lemma saved_published_visible_witness :
  exists self' w',
    save (Scenario.conf true) Scenario.clock Scenario.A Scenario.world = (Ok self', w') /\
    status self' = Some PUBLISHED /\
    publication_date self' = Some (Scenario.clock 0) /\
    forall later, (0 <= ticks later)%nat ->
                  fst (_visible (Scenario.conf true) Scenario.clock self' later) = Ok true.
Proof.
  apply (saved_published_visible (Scenario.conf true) Scenario.clock Scenario.A
           Scenario.world).
  - intros m n Hmn. unfold Scenario.clock. lia.
  - intros _. reflexivity.
  - reflexivity.
  - reflexivity.
  - reflexivity.
Defined.

(** ** Invalidation of a page that has no key *)

(** X6: [invalidate] on a page without a key fails on the first key it
    has to format; by then the first-root key has been deleted, and
    nothing else was done. *)
Theorem invalidate_unsaved (self : Page) (w : World) :
  pk self = None ->
  fst (invalidate self w) = Raise TypeError /\
  django_cache (snd (invalidate self w)) = delete GERBI_FIRST_ROOT_ID (django_cache w) /\
  cache_calls (snd (invalidate self w)) = cache_calls w ++ [CacheDelete GERBI_FIRST_ROOT_ID].
Proof. intros Hpk. unfold invalidate. run. rewrite Hpk. cbn. auto. Qed.

Lemma invalidate_unsaved_witness :
  fst (invalidate (set_pk None Scenario.A) Scenario.flagged) = Raise TypeError /\
  django_cache (snd (invalidate (set_pk None Scenario.A) Scenario.flagged))
    = delete GERBI_FIRST_ROOT_ID (django_cache Scenario.flagged) /\
  cache_calls (snd (invalidate (set_pk None Scenario.A) Scenario.flagged))
    = cache_calls Scenario.flagged ++ [CacheDelete GERBI_FIRST_ROOT_ID].
Proof. apply (invalidate_unsaved (set_pk None Scenario.A) Scenario.flagged). reflexivity. Defined.

(** X7: saving a revision of a page without a key fails in the
    invalidation, before the revision is written: the Content table is
    unchanged. *)
Theorem Content_save_unsaved_page (self : Content) (w : World) :
  pk (page self) = None ->
  fst (Content_save self w) = Raise TypeError /\
  contents (snd (Content_save self w)) = contents w /\
  pages (snd (Content_save self w)) = pages w.
Proof. intros Hpk. unfold Content_save, invalidate. run. rewrite Hpk. cbn. auto. Qed.

Lemma Content_save_unsaved_page_witness :
  let revision := Scenario.slug_of (set_pk None Scenario.A) "about" in
  fst (Content_save revision Scenario.world) = Raise TypeError /\
  contents (snd (Content_save revision Scenario.world)) = contents Scenario.world /\
  pages (snd (Content_save revision Scenario.world)) = pages Scenario.world.
Proof.
  apply (Content_save_unsaved_page (Scenario.slug_of (set_pk None Scenario.A) "about")
           Scenario.world).
  reflexivity.
Defined.

(** The key handed out to a new revision is the key of no stored row. *)
Lemma next_content_pk_fresh (cs : list Content) :
  Some (next_content_pk cs) ∉ content_pk <$> cs.
Proof.
  assert (H : forall x k, x ∈ cs -> content_pk x = Some k -> k < next_content_pk cs).
  { unfold next_content_pk. induction cs as [|c cs IH]; intros x k Hx Hk.
    - apply elem_of_nil in Hx. destruct Hx.
    - cbn [omap list_omap]. apply elem_of_cons in Hx as [->|Hx].
      + rewrite Hk. cbn [foldr]. lia.
      + specialize (IH x k Hx Hk).
        destruct (content_pk c); cbn [foldr]; lia. }
  intros Hin. apply list_elem_of_fmap in Hin as (x & Hk & Hx).
  specialize (H x _ Hx (eq_sym Hk)). lia.
Qed.

(** X8: what saving a revision of a saved page does to the Content
    table.  A revision that has no key becomes the last row, under a key
    no stored row has.  A revision that has the key of a stored row
    takes the place of that row: the table keeps its length and its other
    rows.  (A revision whose key the table does not have becomes the last
    row under that key.)  The saved revision has the language, body,
    type and creation date it had, and the Page table is left alone. *)
Theorem Content_save_row (self : Content) (w : World) (i : Z) :
  pk (page self) = Some i ->
  exists self' w',
    Content_save self w = (Ok self', w') /\
    pages w' = pages w /\
    language self' = language self /\ body self' = body self /\
    type self' = type self /\ creation_date self' = creation_date self /\
    pk (page self') = Some i /\
    (content_pk self = None ->
       contents w' = contents w ++ [self'] /\
       is_Some (content_pk self') /\
       content_pk self' ∉ content_pk <$> contents w) /\
    (forall j, content_pk self = Some j ->
       content_pk self' = Some j /\
       (Some j ∈ content_pk <$> contents w ->
          contents w' = replace_content j self' <$> contents w /\
          length (contents w') = length (contents w)) /\
       (Some j ∉ content_pk <$> contents w -> contents w' = contents w ++ [self'])).
Proof.
  intros Hpk. unfold Content_save. run. rewrite (invalidate_ok _ i) by exact Hpk.
  match goal with |- context [content_model_save ?x ?y] =>
    set (c := x); set (v := y);
    destruct (content_model_save_ok c v)
      as (c' & cs & Heq & Hcols & Hsame & Hrepl & Happ & Hnew) end.
  rewrite Heq. exists c', (mkWorld (pages v) cs (page_sites v) (django_cache v)
                             (cache_calls v) (ticks v)).
  split; [reflexivity|]. cbn [pages contents].
  pose proof (f_equal language Hcols) as Hl. pose proof (f_equal body Hcols) as Hb.
  pose proof (f_equal type Hcols) as Ht. pose proof (f_equal page Hcols) as Hp.
  pose proof (f_equal creation_date Hcols) as Hd. cbn in Hl, Hb, Ht, Hp, Hd.
  repeat (split; [first [reflexivity | assumption | congruence]|]).
  split; [rewrite Hp; exact Hpk|].
  change (contents v) with (contents w) in *.
  change (content_pk c) with (content_pk self) in *.
  split.
  - intros Hnone. split; [apply Happ; intros j Hj; congruence|].
    rewrite (Hnew Hnone). split; [eauto|]. apply next_content_pk_fresh.
  - intros j Hj. rewrite (Hsame j Hj). split; [exact Hj|]. split.
    + intros Hin. rewrite (Hrepl j Hj Hin). split; [reflexivity|].
      apply length_fmap.
    + intros Hout. rewrite <- (Hsame j Hj). apply Happ.
      intros j' Hj'. congruence.
Qed.

Lemma Content_save_row_witness :
  exists self' w',
    Content_save (Scenario.slug_of Scenario.A "news") Scenario.world = (Ok self', w') /\
    pages w' = pages Scenario.world /\
    language self' = "en" /\ body self' = "news" /\
    type self' = "slug" /\ creation_date self' = 10 /\
    pk (page self') = Some 2 /\
    (content_pk (Scenario.slug_of Scenario.A "news") = None ->
       contents w' = contents Scenario.world ++ [self'] /\
       is_Some (content_pk self') /\
       content_pk self' ∉ content_pk <$> contents Scenario.world) /\
    (forall j, content_pk (Scenario.slug_of Scenario.A "news") = Some j ->
       content_pk self' = Some j /\
       (Some j ∈ content_pk <$> contents Scenario.world ->
          contents w' = replace_content j self' <$> contents Scenario.world /\
          length (contents w') = length (contents Scenario.world)) /\
       (Some j ∉ content_pk <$> contents Scenario.world ->
          contents w' = contents Scenario.world ++ [self'])).
Proof.
  apply (Content_save_row (Scenario.slug_of Scenario.A "news") Scenario.world 2).
  reflexivity.
Defined.

(** Saving the stored slug of [A] again, with another body, leaves three
    rows, the second of them the new one. *)
Example scenario_resave_about :
  contents (snd (Content_save (Scenario.stored_as 2 (Scenario.slug_of Scenario.A "us"))
                   Scenario.world))
  = [Scenario.stored_as 1 (Scenario.slug_of Scenario.R "home");
     Scenario.stored_as 2 (Scenario.slug_of Scenario.A "us");
     Scenario.stored_as 3 (Scenario.slug_of Scenario.B "team")].
Proof. vm_compute. reflexivity. Qed.

(** ** The first root, remembered *)

(** X9: once [is_first_root] has answered, the instance gives the same
    answer again in any world, without a call on the cache. *)
Theorem is_first_root_memoized (self self' : Page) (w w' : World) (b : bool) :
  is_first_root self w = (Ok (b, self'), w') ->
  forall later, is_first_root self' later = (Ok (b, self'), later).
Proof.
  intros Hrun later. destruct (parent self) as [p|] eqn:Hp.
  { (* the parent row was loaded, and stays on the instance *)
    destruct (parent_loads self w) eqn:Hl;
      [|rewrite (is_first_root_dangling self w Hl) in Hrun; discriminate].
    unfold is_first_root in Hrun. run.
    rewrite (self_parent_loads self w p Hp Hl) in Hrun. cbn [truthy_obj] in Hrun.
    injection Hrun as <- <- _.
    set (s := if _parent_cache self then self else set__parent_cache true self).
    assert (Hs : parent s = Some p /\ _parent_cache s = true).
    { subst s. destruct (_parent_cache self) eqn:Hc; cbn; auto. }
    unfold is_first_root, self_parent. run. rewrite (proj1 Hs), (proj2 Hs). reflexivity. }
  unfold is_first_root in Hrun. run.
  rewrite (self_parent_none self w Hp) in Hrun. cbn [truthy_obj] in Hrun.
  destruct (_is_first_root self) as [b0|] eqn:Hmemo.
  { run. injection Hrun as <- <- _. unfold is_first_root. run.
    rewrite (self_parent_none self later Hp). cbn [truthy_obj]. rewrite Hmemo. reflexivity. }
  assert (Hself : parent self' = None /\ _is_first_root self' = Some b).
  { revert Hrun. run. unfold cache_get at 1. cbn [fst snd django_cache].
    destruct (django_cache w !! GERBI_FIRST_ROOT_ID).
    { intros [= <- <- _]. cbn. auto. }
    unfold objects_root, qs_index. cbn [pages Z.ltb Z.compare].
    change (Z.to_nat 0) with 0%nat.
    destruct (pages w) as [|t f]; cbn.
    { intros [= <- <- _]. cbn. auto. }
    destruct (pk (MPTT.row_of t)); cbn; intros [= <- <- _]; cbn; auto. }
  destruct Hself as [Hp' Hm']. unfold is_first_root. run.
  rewrite (self_parent_none self' later Hp'). cbn [truthy_obj]. rewrite Hm'. reflexivity.
Qed.

Lemma is_first_root_memoized_witness :
  is_first_root (set__is_first_root (Some true) Scenario.R) Scenario.flagged
  = (Ok (true, set__is_first_root (Some true) Scenario.R), Scenario.flagged).
Proof.
  apply (is_first_root_memoized (set__is_first_root (Some true) Scenario.R)
           (set__is_first_root (Some true) Scenario.R) Scenario.world Scenario.world true).
  reflexivity.
Defined.

(** X10: [invalidate] deletes the shared first-root key but leaves the
    answer remembered on the instance: [is_first_root] keeps returning
    it. *)
Theorem invalidate_keeps_first_root_answer (self : Page) (w : World) (i : Z) (b : bool) :
  pk self = Some i ->
  parent self = None ->
  _is_first_root self = Some b ->
  exists self' w',
    invalidate self w = (Ok self', w') /\
    django_cache w' !! GERBI_FIRST_ROOT_ID = None /\
    is_first_root self' w' = (Ok (b, self'), w').
Proof.
  intros Hpk Hp Hmemo. rewrite (invalidate_ok self i w Hpk).
  eexists _, _. split; [reflexivity|]. cbn [django_cache]. split.
  - rewrite lookup_delete_ne by (unfold url_key, GERBI_FIRST_ROOT_ID; cbn; discriminate).
    rewrite lookup_delete_ne by (unfold content_key, GERBI_FIRST_ROOT_ID; cbn; discriminate).
    apply lookup_delete_eq.
  - unfold is_first_root. run. rewrite self_parent_none by exact Hp.
    cbn [truthy_obj]. change (_is_first_root (forgotten self)) with (_is_first_root self).
    rewrite Hmemo. reflexivity.
Qed.

Lemma invalidate_keeps_first_root_answer_witness :
  exists self' w',
    invalidate (set__is_first_root (Some true) Scenario.R) Scenario.world = (Ok self', w') /\
    django_cache w' !! GERBI_FIRST_ROOT_ID = None /\
    is_first_root self' w' = (Ok (true, self'), w').
Proof.
  apply (invalidate_keeps_first_root_answer (set__is_first_root (Some true) Scenario.R)
           Scenario.world 1 true); reflexivity.
Defined.

(** X11: on a miss everywhere, [is_first_root] compares with the key of
    the first root of the table and leaves that key in the shared cache. *)
Theorem is_first_root_fresh (self : Page) (w : World) (t : tree) (f : forest) (i : Z) :
  parent self = None ->
  _is_first_root self = None ->
  django_cache w !! GERBI_FIRST_ROOT_ID = None ->
  pages w = t :: f ->
  pk (MPTT.row_of t) = Some i ->
  exists self' w',
    is_first_root self w = (Ok (bool_decide (pk self = Some i), self'), w') /\
    django_cache w' = <[GERBI_FIRST_ROOT_ID := VInt i]> (django_cache w) /\
    pages w' = pages w.
Proof.
  intros Hp Hmemo Hcache Hpages Hi. unfold is_first_root. run.
  rewrite (self_parent_none self w Hp). cbn [truthy_obj]. rewrite Hmemo.
  run. unfold cache_get at 1. cbn [fst snd django_cache].
  rewrite Hcache. unfold objects_root, qs_index. cbn [pages Z.ltb Z.compare].
  change (Z.to_nat 0) with 0%nat. rewrite Hpages. cbn. rewrite Hi. cbn.
  eexists _, _. split; [reflexivity|]. auto.
Qed.

Lemma is_first_root_fresh_witness :
  exists self' w',
    is_first_root Scenario.S (mkWorld Scenario.two_roots [] [] ∅ [] 0)
      = (Ok (bool_decide (Some 7 = Some 1), self'), w') /\
    django_cache w' = <[GERBI_FIRST_ROOT_ID := VInt 1]> ∅ /\
    pages w' = Scenario.two_roots.
Proof.
  apply (is_first_root_fresh Scenario.S (mkWorld Scenario.two_roots [] [] ∅ [] 0)
           (Node Scenario.R []) [Node Scenario.S []] 1); reflexivity.
Defined.

(** X12: with an empty Page table nothing is recorded in the cache, and a
    page that has neither parent nor key is taken for the first root. *)
Theorem is_first_root_empty_table (self : Page) (w : World) :
  parent self = None ->
  _is_first_root self = None ->
  django_cache w !! GERBI_FIRST_ROOT_ID = None ->
  pages w = [] ->
  exists self' w',
    is_first_root self w = (Ok (negb (truthy_obj (pk self)), self'), w') /\
    django_cache w' = django_cache w.
Proof.
  intros Hp Hmemo Hcache Hpages. unfold is_first_root. run.
  rewrite (self_parent_none self w Hp). cbn [truthy_obj]. rewrite Hmemo.
  run. unfold cache_get at 1. cbn [fst snd django_cache].
  rewrite Hcache. unfold objects_root, qs_index. cbn [pages Z.ltb Z.compare].
  change (Z.to_nat 0) with 0%nat. rewrite Hpages. cbn.
  destruct (pk self); eexists _, _; split; reflexivity.
Qed.

Lemma is_first_root_empty_table_witness :
  exists self' w',
    is_first_root (set_pk None Scenario.R) (mkWorld [] [] [] ∅ [] 0)
      = (Ok (true, self'), w') /\
    django_cache w' = ∅.
Proof.
  apply (is_first_root_empty_table (set_pk None Scenario.R) (mkWorld [] [] [] ∅ [] 0));
    reflexivity.
Defined.

(** ** The shared cache of complete slugs *)

(** X13: for a page without a key, [get_complete_slug] fails on the cache
    key unless the instance already remembers the language; no call on
    the cache is made. *)
Theorem get_complete_slug_unsaved (settings : Settings) (self : Page)
    (lang : option string) (hideroot : bool) (w : World) :
  pk self = None ->
  (forall d, _complete_slug self = Some d ->
             d !! language_or_default settings lang = None) ->
  get_complete_slug settings self lang hideroot w = (Raise TypeError, w).
Proof.
  intros Hpk Hmemo. unfold get_complete_slug.
  rewrite (memo_lookup_miss _ _ Hmemo), Hpk. reflexivity.
Qed.

Lemma get_complete_slug_unsaved_witness :
  get_complete_slug (Scenario.conf true) (set_pk None Scenario.A) None true Scenario.world
  = (Raise TypeError, Scenario.world).
Proof.
  apply (get_complete_slug_unsaved (Scenario.conf true) (set_pk None Scenario.A) None true
           Scenario.world); [reflexivity|].
  intros d Hd. discriminate Hd.
Defined.

Lemma complete_slug_miss_stored (settings : Settings) (s self' : Page) (l : string)
    (hideroot : bool) (key : string) (v w' : World) (url : string) :
  complete_slug_miss settings s l hideroot key v = (Ok (url, self'), w') ->
  exists d, django_cache w' !! key = Some (VSlug d) /\ d !! l = Some url.
Proof.
  unfold complete_slug_miss. run.
  step_ok. destruct a as [b s1]. step_ok. step_ok.
  unfold cache_set. cbn. intros [= <- _ <-]. cbn.
  eexists. split; [apply lookup_insert_eq | apply lookup_insert_eq].
Qed.

(** X14: one instance leaves the path in the shared cache, another takes
    it from there.  When an instance that did not remember the language
    has computed or fetched the complete slug, the shared cache holds a
    dictionary with that path; any instance of the page that does not
    remember the language then returns the path, whatever [hideroot] it
    is called with, after one read of the shared cache and without a
    write or a query; it remembers the whole dictionary, so that its next
    call returns the path again without touching the world. *)
Theorem get_complete_slug_shared (settings : Settings) (self self' : Page)
    (lang : option string) (hideroot : bool) (w w' : World) (i : Z) (url : string) :
  let l := language_or_default settings lang in
  pk self = Some i ->
  (forall d, _complete_slug self = Some d -> d !! l = None) ->
  get_complete_slug settings self lang hideroot w = (Ok (url, self'), w') ->
  exists d,
    django_cache w' !! url_key i = Some (VSlug d) /\ d !! l = Some url /\
    forall other h,
      pk other = Some i ->
      (forall m, _complete_slug other = Some m -> m !! l = None) ->
      let other' := set__complete_slug (Some d) other in
      get_complete_slug settings other lang h w'
      = (Ok (url, other'),
         mkWorld (pages w') (contents w') (page_sites w') (django_cache w')
                 (cache_calls w' ++ [CacheGet (url_key i)]) (ticks w')) /\
      forall h2 w2, get_complete_slug settings other' lang h2 w2 = (Ok (url, other'), w2).
Proof.
  intros l Hpk Hmemo Hrun.
  assert (Hstored : exists d, django_cache w' !! url_key i = Some (VSlug d) /\
                              d !! l = Some url).
  { revert Hrun. unfold get_complete_slug. fold l.
    rewrite (memo_lookup_miss _ _ Hmemo), Hpk. run. cbn [GERBI_URL_KEY fmt_d].
    fold (url_key i). unfold cache_get at 1. cbn [fst snd django_cache].
    destruct (django_cache w !! url_key i) as [[d|d|?|?]|] eqn:Hc; try discriminate.
    - destruct (d !! l) as [u|] eqn:Hd.
      + intros [= <- _ <-]. cbn. eauto.
      + apply complete_slug_miss_stored.
    - apply complete_slug_miss_stored. }
  destruct Hstored as (d & Hc & Hd). exists d. split; [exact Hc|]. split; [exact Hd|].
  intros other h Hother Hnone other'. split.
  - unfold get_complete_slug. fold l.
    rewrite (memo_lookup_miss _ _ Hnone), Hother. run. cbn [GERBI_URL_KEY fmt_d].
    fold (url_key i). unfold cache_get at 1. cbn [fst snd django_cache].
    rewrite Hc. cbv beta iota zeta. rewrite Hd. reflexivity.
  - intros h2 w2. unfold get_complete_slug. fold l.
    change (_complete_slug other') with (Some d).
    rewrite (truthy_dict_lookup d l url Hd). change (default ∅ (Some d)) with d.
    rewrite Hd. reflexivity.
Qed.

Lemma get_complete_slug_shared_witness :
  exists d,
    django_cache Scenario.cached_read !! url_key 1 = Some (VSlug d) /\
    d !! language_or_default (Scenario.conf true) None = Some "" /\
    forall other h,
      pk other = Some 1 ->
      (forall m, _complete_slug other = Some m ->
                 m !! language_or_default (Scenario.conf true) None = None) ->
      let other' := set__complete_slug (Some d) other in
      get_complete_slug (Scenario.conf true) other None h Scenario.cached_read
      = (Ok ("", other'),
         mkWorld (pages Scenario.cached_read) (contents Scenario.cached_read)
                 (page_sites Scenario.cached_read) (django_cache Scenario.cached_read)
                 (cache_calls Scenario.cached_read ++ [CacheGet (url_key 1)])
                 (ticks Scenario.cached_read)) /\
      forall h2 w2,
        get_complete_slug (Scenario.conf true) other' None h2 w2 = (Ok ("", other'), w2).
Proof.
  apply (get_complete_slug_shared (Scenario.conf true) Scenario.R Scenario.visited None true
           Scenario.cached Scenario.cached_read 1 "").
  - reflexivity.
  - intros d Hd. discriminate Hd.
  - vm_compute. reflexivity.
Defined.

(** X15: invalidation does not cascade.  Saving a revision of one page
    (a new slug of an ancestor, say) leaves the cached complete slug of
    every other page in place, and that old path is what the other page
    returns next. *)
Theorem complete_slug_survives_other_save (settings : Settings) (self : Page)
    (revision : Content) (lang : option string) (hideroot : bool) (w : World)
    (i j : Z) (d : slug_dict) (url : string) :
  pk (page revision) = Some i ->
  pk self = Some j ->
  j <> i ->
  (forall m, _complete_slug self = Some m ->
             m !! language_or_default settings lang = None) ->
  django_cache w !! url_key j = Some (VSlug d) ->
  d !! language_or_default settings lang = Some url ->
  exists revision' w',
    Content_save revision w = (Ok revision', w') /\
    res_map fst (fst (get_complete_slug settings self lang hideroot w')) = Ok url.
Proof.
  intros Hrev Hself Hne Hmemo Hc Hd.
  destruct (Content_save_ok revision i w Hrev) as (r' & w' & Heq & _ & Hcache & _).
  exists r', w'. split; [exact Heq|].
  unfold get_complete_slug. rewrite (memo_lookup_miss _ _ Hmemo), Hself. run.
  cbn [GERBI_URL_KEY fmt_d]. fold (url_key j).
  unfold cache_get at 1. cbn [fst snd django_cache].
  assert (Hkept : django_cache w' !! url_key j = Some (VSlug d)).
  { rewrite Hcache, lookup_deletes, bool_decide_false; [exact Hc|].
    intros Hin. apply (page_keys_disjoint i j (url_key j) Hne).
    - unfold page_keys. apply list_elem_of_further, list_elem_of_here.
    - unfold page_keys. rewrite !elem_of_cons in Hin |- *.
      rewrite elem_of_nil in Hin. tauto. }
  rewrite Hkept. cbv beta iota zeta. rewrite Hd. reflexivity.
Qed.

Lemma complete_slug_survives_other_save_witness :
  exists revision' w',
    Content_save (Scenario.slug_of Scenario.A "company") Scenario.cached
      = (Ok revision', w') /\
    res_map fst (fst (get_complete_slug (Scenario.conf true) Scenario.R None false w'))
    = Ok "".
Proof.
  apply (complete_slug_survives_other_save (Scenario.conf true) Scenario.R
           (Scenario.slug_of Scenario.A "company") None false Scenario.cached
           2 1 {[ "en" := "" ]} "").
  - reflexivity.
  - reflexivity.
  - lia.
  - intros m Hm. discriminate Hm.
  - reflexivity.
  - reflexivity.
Defined.

Lemma complete_slug_miss_dangling (settings : Settings) (self : Page) (lang : string)
    (hideroot : bool) (key : string) (w : World) :
  hideroot && GERBI_HIDE_ROOT_SLUG settings = true ->
  parent_loads self w = false ->
  complete_slug_miss settings self lang hideroot key w = (Raise DoesNotExist, w).
Proof.
  intros Hh Hl. unfold complete_slug_miss. rewrite Hh. run.
  rewrite (is_first_root_dangling self w Hl). reflexivity.
Qed.

(** X16: after [invalidate] the complete slug is computed afresh from the
    slugs in the Content table, whatever the instance and the shared
    cache held before.  (Where root hiding applies, the parent of the
    page is looked at first: when its key names no row, the computation
    fails with [DoesNotExist].) *)
Theorem complete_slug_recomputed_after_invalidate (settings : Settings) (self : Page)
    (lang : option string) (hideroot : bool) (w : World) (i : Z) (slugs : list string) :
  let l := language_or_default settings lang in
  pk self = Some i ->
  Forall2 (fun a s => objects_get_content settings w a (Some l) "slug" true = Some s)
          (get_ancestors (pages w) self true) slugs ->
  let own := percent_s (objects_get_content settings w self (Some l) "slug" true) in
  let hiding := hideroot && GERBI_HIDE_ROOT_SLUG settings in
  exists self1 w1,
    invalidate self w = (Ok self1, w1) /\
    ((hiding = true -> parent_loads self w = true) ->
     exists self2 w2,
       get_complete_slug settings self1 lang hideroot w1
       = (Ok (String.concat "/"
                (rev slugs ++
                 [if hideroot && GERBI_HIDE_ROOT_SLUG settings && first_root_answer self1 w1
                  then "" else own]), self2), w2)) /\
    (hiding = true -> parent_loads self w = false ->
     fst (get_complete_slug settings self1 lang hideroot w1) = Raise DoesNotExist).
Proof.
  intros l Hpk Hslugs own hiding. rewrite (invalidate_ok self i w Hpk).
  set (w1 := mkWorld _ _ _ _ _ _). set (self1 := forgotten self).
  exists self1, w1. split; [reflexivity|].
  assert (Hmiss : get_complete_slug settings self1 lang hideroot w1
    = complete_slug_miss settings (set__complete_slug (Some ∅) self1) l hideroot (url_key i)
        (mkWorld (pages w1) (contents w1) (page_sites w1) (django_cache w1)
                 (cache_calls w1 ++ [CacheGet (url_key i)]) (ticks w1))).
  { unfold get_complete_slug. fold l.
    change (_complete_slug self1) with (@None slug_dict).
    change (pk self1) with (pk self). rewrite Hpk.
    cbn [truthy_dict]. run. cbn [GERBI_URL_KEY fmt_d]. fold (url_key i).
    unfold cache_get at 1. cbn [fst snd django_cache w1]. rewrite lookup_delete_eq.
    reflexivity. }
  rewrite Hmiss. set (w2 := mkWorld _ _ _ _ _ _).
  set (self2 := set__complete_slug (Some ∅) _). split.
  - intros Hloads.
    destruct (complete_slug_miss_ok settings self2 l hideroot (url_key i) w2 slugs)
      as (self' & w' & Heq & _).
    + exact Hloads.
    + eapply Forall2_impl; [exact Hslugs|]. intros a s <-.
      apply objects_get_content_contents. reflexivity.
    + exists self', w'. rewrite Heq. reflexivity.
  - intros Hh Hl.
    rewrite (complete_slug_miss_dangling settings self2 l hideroot (url_key i) w2 Hh Hl).
    reflexivity.
Qed.

Lemma complete_slug_recomputed_after_invalidate_witness :
  exists self1 w1,
    invalidate Scenario.visited Scenario.cached = (Ok self1, w1) /\
    ((true = true -> parent_loads Scenario.visited Scenario.cached = true) ->
     exists self2 w2,
       get_complete_slug (Scenario.conf true) self1 None true w1
       = (Ok (if first_root_answer self1 w1 then "" else "home", self2), w2)) /\
    (true = true -> parent_loads Scenario.visited Scenario.cached = false ->
     fst (get_complete_slug (Scenario.conf true) self1 None true w1)
     = Raise DoesNotExist).
Proof.
  apply (complete_slug_recomputed_after_invalidate (Scenario.conf true) Scenario.visited
           None true Scenario.cached 1 []).
  - reflexivity.
  - constructor.
Defined.

(** ** The content cache of a page *)

Lemma cache_language_contents (w1 w2 : World) (self : Page) :
  contents w1 = contents w2 -> cache_language w1 self = cache_language w2 self.
Proof.
  intros H. unfold cache_language, content_types, get_content_object.
  rewrite H. reflexivity.
Qed.

(** A round of the loop touches the requested language only. *)
Lemma cache_language_lookup (w : World) (self : Page) (ls : list string)
    (c : content_dict) (l : string) :
  l ∉ ls -> foldl (cache_language w self) c ls !! l = c !! l.
Proof.
  revert c. induction ls as [|l0 ls IH]; intros c Hl; [reflexivity|].
  cbn [foldl]. rewrite IH by set_solver.
  unfold cache_language. apply lookup_insert_ne. set_solver.
Qed.

Lemma cache_language_covers (w : World) (self : Page) (ls : list string)
    (c : content_dict) (l : string) :
  l ∈ ls -> is_Some (foldl (cache_language w self) c ls !! l).
Proof.
  revert c. induction ls as [|l0 ls IH]; intros c Hl; [set_solver|].
  cbn [foldl]. destruct (decide (l ∈ ls)) as [Hin|Hout]; [apply IH, Hin|].
  rewrite cache_language_lookup by exact Hout.
  assert (l = l0) as -> by set_solver.
  unfold cache_language. rewrite lookup_insert_eq. eauto.
Qed.

(** What [build_cache] does for a page with an identity, starting from
    the contents [c0]: those of the instance if it has any, else those of
    the shared cache, else none. *)
Lemma build_cache_ok (settings : Settings) (self : Page) (lang : option string)
    (w : World) (i : Z) (c0 : content_dict) :
  pk self = Some i -> i <> 0 ->
  (truthy_dict (cache self) = true /\ cache self = Some c0) \/
  (truthy_dict (cache self) = false /\
   (django_cache w !! content_key i = Some (VContent c0) \/
    django_cache w !! content_key i = None /\ c0 = ∅)) ->
  let languages := if truthy_str lang then [default "" lang]
                   else fst <$> GERBI_LANGUAGES settings in
  let needed := filter (fun l => bool_decide (c0 !! l = None)) languages in
  let c := foldl (cache_language w self) c0 needed in
  exists w',
    build_cache settings self lang w = (Ok (c, set_cache (Some c) self), w') /\
    pages w' = pages w /\ contents w' = contents w /\
    django_cache w' = (if (length needed =? 0)%nat then django_cache w
                       else <[content_key i := VContent c]> (django_cache w)) /\
    cache_calls w' =
      cache_calls w
      ++ (if truthy_dict (cache self) then [] else [CacheGet (content_key i)])
      ++ (if (length needed =? 0)%nat then [] else [CacheSet (content_key i) (VContent c)]).
Proof.
  intros Hpk Hi Hstart languages needed c.
  unfold build_cache. rewrite Hpk. cbn [truthy_int].
  rewrite (proj2 (Z.eqb_neq i 0) Hi). cbn [negb]. run.
  cbn [GERBI_PAGE_KEY fmt_d]. fold (content_key i).
  destruct Hstart as [[Ht Hc]|[Ht Hc]]; rewrite Ht.
  - rewrite Hc. change (default ∅ (Some c0)) with c0.
    fold languages. fold needed. fold c.
    destruct (length needed =? 0)%nat; cbn [negb]; unfold cache_set; cbn [fst snd];
      eexists; (split; [reflexivity|]); cbn; rewrite ?app_nil_r; destruct w; auto.
  - unfold cache_get at 1. cbn [fst snd django_cache].
    set (w1 := mkWorld _ _ _ _ _ _).
    assert (Hw : cache_language w1 self = cache_language w self)
      by (apply cache_language_contents; reflexivity).
    destruct Hc as [Hc|[Hc ->]]; rewrite Hc; cbv beta iota zeta;
      fold languages; rewrite Hw.
    + change (default ∅ (Some c0)) with c0. fold needed. fold c.
      destruct (length needed =? 0)%nat; cbn [negb]; unfold cache_set; cbn [fst snd];
        eexists; (split; [reflexivity|]); cbn; rewrite <- ?app_assoc; auto.
    + change (default ∅ None) with (∅ : content_dict). fold needed. fold c.
      destruct (length needed =? 0)%nat; cbn [negb]; unfold cache_set; cbn [fst snd];
        eexists; (split; [reflexivity|]); cbn; rewrite <- ?app_assoc; auto.
Qed.

(** X17: a language that the instance already holds is never rebuilt.
    Whatever the Content table and the shared cache have become since,
    [build_cache] returns the entry the instance had for it. *)
Theorem build_cache_instance_entry_kept (settings : Settings) (self : Page)
    (lang : option string) (w : World) (i : Z) (c0 : content_dict) (l : string)
    (d : gmap string (string * datetime)) :
  pk self = Some i -> i <> 0 ->
  cache self = Some c0 ->
  c0 !! l = Some d ->
  exists c self' w',
    build_cache settings self lang w = (Ok (c, self'), w') /\ c !! l = Some d.
Proof.
  intros Hpk Hi Hc Hl.
  assert (Ht : truthy_dict (cache self) = true).
  { rewrite Hc. cbn. apply negb_true_iff, bool_decide_eq_false.
    intros Hdom. apply (not_elem_of_empty (C := gset string) l).
    rewrite <- Hdom. apply elem_of_dom. eauto. }
  destruct (build_cache_ok settings self lang w i c0 Hpk Hi (or_introl (conj Ht Hc)))
    as (w' & Heq & _).
  eexists _, _, w'. split; [exact Heq|].
  rewrite cache_language_lookup; [exact Hl|].
  intros Hin. apply list_elem_of_filter in Hin as [Hnone _].
  apply Is_true_true, bool_decide_eq_true in Hnone. congruence.
Qed.

Lemma build_cache_instance_entry_kept_witness :
  exists c self' w',
    build_cache (Scenario.conf true)
      (set_cache (Some {[ "en" := {[ "slug" := ("old", 5) ]} ]}) Scenario.R)
      None Scenario.world = (Ok (c, self'), w') /\
    c !! "en" = Some {[ "slug" := ("old", 5) ]}.
Proof.
  apply (build_cache_instance_entry_kept (Scenario.conf true)
           (set_cache (Some {[ "en" := {[ "slug" := ("old", 5) ]} ]}) Scenario.R)
           None Scenario.world 1 {[ "en" := {[ "slug" := ("old", 5) ]} ]}).
  - reflexivity.
  - lia.
  - reflexivity.
  - reflexivity.
Defined.

(** X18: when the instance holds the requested language, [build_cache]
    answers from the instance alone: the world, with its record of cache
    calls, is unchanged. *)
Theorem build_cache_warm_is_silent (settings : Settings) (self : Page)
    (w : World) (i : Z) (c0 : content_dict) (l : string)
    (d : gmap string (string * datetime)) :
  pk self = Some i -> i <> 0 ->
  l <> "" ->
  cache self = Some c0 ->
  c0 !! l = Some d ->
  build_cache settings self (Some l) w = (Ok (c0, self), w).
Proof.
  intros Hpk Hi Hl Hc Hd.
  unfold build_cache. rewrite Hpk. cbn [truthy_int].
  rewrite (proj2 (Z.eqb_neq i 0) Hi). cbn [negb]. run.
  cbn [GERBI_PAGE_KEY fmt_d].
  assert (Ht : truthy_dict (cache self) = true).
  { rewrite Hc. cbn. apply negb_true_iff, bool_decide_eq_false.
    intros Hdom. apply (not_elem_of_empty (C := gset string) l).
    rewrite <- Hdom. apply elem_of_dom. eauto. }
  rewrite Ht, Hc. change (default ∅ (Some c0)) with c0.
  assert (Hs : truthy_str (Some l) = true) by (destruct l; [exfalso; apply Hl; reflexivity | reflexivity]).
  rewrite Hs. cbn [default filter]. unfold filter; cbn [list_filter].
  rewrite decide_False.
  2:{ intros H. apply Is_true_true, bool_decide_eq_true in H.
      unfold id in H. congruence. }
  cbn. destruct self; cbn in *. subst. reflexivity.
Qed.

Lemma build_cache_warm_is_silent_witness :
  build_cache (Scenario.conf true)
    (set_cache (Some {[ "en" := {[ "slug" := ("old", 5) ]} ]}) Scenario.R)
    (Some "en") Scenario.world
  = (Ok ({[ "en" := {[ "slug" := ("old", 5) ]} ]},
         set_cache (Some {[ "en" := {[ "slug" := ("old", 5) ]} ]}) Scenario.R),
     Scenario.world).
Proof.
  apply (build_cache_warm_is_silent (Scenario.conf true)
           (set_cache (Some {[ "en" := {[ "slug" := ("old", 5) ]} ]}) Scenario.R)
           Scenario.world 1 {[ "en" := {[ "slug" := ("old", 5) ]} ]} "en"
           {[ "slug" := ("old", 5) ]}).
  - reflexivity.
  - lia.
  - discriminate.
  - reflexivity.
  - reflexivity.
Defined.

(** *** What a build returns *)

(** X19: for a page with an identity whose cache key holds contents (or
    nothing), [build_cache] returns, remembers the result on the
    instance, and the result has an entry for every language asked for:
    the given one, or all configured ones when none is given. *)
Theorem build_cache_covers_request (settings : Settings) (self : Page)
    (lang : option string) (w : World) (i : Z) :
  pk self = Some i -> i <> 0 ->
  (forall v, django_cache w !! content_key i = Some v -> exists d, v = VContent d) ->
  exists c w',
    build_cache settings self lang w = (Ok (c, set_cache (Some c) self), w') /\
    forall l, l ∈ (if truthy_str lang then [default "" lang]
                   else fst <$> GERBI_LANGUAGES settings) ->
              is_Some (c !! l).
Proof.
  intros Hpk Hi Hv.
  assert (Hstart : exists c0,
    (truthy_dict (cache self) = true /\ cache self = Some c0) \/
    (truthy_dict (cache self) = false /\
     (django_cache w !! content_key i = Some (VContent c0) \/
      django_cache w !! content_key i = None /\ c0 = ∅))).
  { destruct (truthy_dict (cache self)) eqn:Ht.
    - destruct (cache self) as [c0|] eqn:Hc; [|discriminate Ht].
      exists c0. left. auto.
    - destruct (django_cache w !! content_key i) as [v|] eqn:Hk.
      + destruct (Hv v eq_refl) as [d ->]. exists d. right. auto.
      + exists ∅. right. auto. }
  destruct Hstart as [c0 Hstart].
  destruct (build_cache_ok settings self lang w i c0 Hpk Hi Hstart) as (w' & Heq & _).
  eexists _, w'. split; [exact Heq|].
  intros l Hl.
  set (languages := if truthy_str lang then _ else _) in *.
  destruct (c0 !! l) as [d|] eqn:Hd.
  - rewrite cache_language_lookup; [rewrite Hd; eauto|].
    intros Hin. apply list_elem_of_filter in Hin as [Hnone _].
    apply Is_true_true, bool_decide_eq_true in Hnone. congruence.
  - apply cache_language_covers. apply list_elem_of_filter. split; [|exact Hl].
    apply Is_true_true, bool_decide_eq_true. exact Hd.
Qed.

Lemma build_cache_covers_request_witness :
  exists c w',
    build_cache (Scenario.conf true) Scenario.B None Scenario.world
    = (Ok (c, set_cache (Some c) Scenario.B), w') /\
    forall l, l ∈ ["en"; "fr"] -> is_Some (c !! l).
Proof.
  apply (build_cache_covers_request (Scenario.conf true) Scenario.B None
           Scenario.world 3).
  - reflexivity.
  - lia.
  - intros v Hv. vm_compute in Hv. discriminate Hv.
Defined.

(** *** Building the contents of a language *)

(** The inner loop writes the listed content types only. *)
Lemma cache_types_lookup (w : World) (self : Page) (lang : string) (ts : list string)
    (d : gmap string (string * datetime)) (t : string) :
  t ∉ ts ->
  foldl (fun d ctype =>
           match get_content_object w self lang ctype with
           | Some content => <[ctype := (body content, creation_date content)]> d
           | None => d
           end) d ts !! t = d !! t.
Proof.
  revert d. induction ts as [|t0 ts IH]; intros d Ht; [reflexivity|].
  cbn [foldl]. rewrite IH by set_solver.
  destruct (get_content_object w self lang t0); [|reflexivity].
  apply lookup_insert_ne. set_solver.
Qed.

Lemma content_filter_true (self : Page) (lang : string) (x : Content) :
  content_filter self lang x = true ->
  pk self = pk (page x) /\ language x = lang /\
  forall fd, freeze_date self = Some fd -> creation_date x <= fd.
Proof.
  unfold content_filter. intros H.
  apply andb_true_iff in H as [H Hfd]. apply andb_true_iff in H as [Hpk Hl].
  split; [|split].
  - destruct (pk self), (pk (page x)); try discriminate Hpk.
    apply Z.eqb_eq in Hpk. congruence.
  - apply String.eqb_eq in Hl. exact Hl.
  - intros fd Hf. rewrite Hf in Hfd. apply Z.leb_le. exact Hfd.
Qed.

(** X20: the contents built for a frozen page leave out every content type
    whose revisions, in the language built, were all written after the
    freeze date. *)
Theorem build_cache_frozen_page (settings : Settings) (self : Page) (w : World)
    (i : Z) (l t : string) (fd : datetime) :
  pk self = Some i -> i <> 0 ->
  l <> "" ->
  truthy_dict (cache self) = false ->
  django_cache w !! content_key i = None ->
  freeze_date self = Some fd ->
  (forall x, x ∈ contents w -> pk (page x) = Some i -> language x = l -> type x = t ->
             fd < creation_date x) ->
  exists c d self' w',
    build_cache settings self (Some l) w = (Ok (c, self'), w') /\
    c !! l = Some d /\ d !! t = None.
Proof.
  intros Hpk Hi Hl Ht Hc Hfd Hlate.
  destruct (build_cache_ok settings self (Some l) w i ∅ Hpk Hi
              (or_intror (conj Ht (or_intror (conj Hc eq_refl)))))
    as (w' & Heq & _).
  assert (Hs : truthy_str (Some l) = true)
    by (destruct l; [exfalso; apply Hl; reflexivity | reflexivity]).
  rewrite Hs in Heq. cbn [default] in Heq. unfold id in Heq.
  unfold filter in Heq. cbn [list_filter] in Heq.
  rewrite decide_True in Heq
    by (apply Is_true_true, bool_decide_eq_true, lookup_empty).
  cbn [foldl] in Heq. unfold cache_language in Heq.
  eexists _, _, _, w'. split; [exact Heq|].
  split; [apply lookup_insert_eq|].
  rewrite cache_types_lookup; [apply lookup_empty|].
  unfold content_types. intros Hin.
  apply elem_of_remove_dups, list_elem_of_fmap in Hin as (x & Htype & Hx).
  apply list_elem_of_filter in Hx as [Hf Hx].
  apply Is_true_true, content_filter_true in Hf as (Hp & Hlang & Hdate).
  specialize (Hdate fd Hfd).
  assert (fd < creation_date x); [|lia].
  apply Hlate; [exact Hx | congruence | exact Hlang | congruence].
Qed.

Lemma build_cache_frozen_page_witness :
  exists c d self' w',
    build_cache (Scenario.conf true) Scenario.frozen (Some "en") Scenario.revised
    = (Ok (c, self'), w') /\
    c !! "en" = Some d /\ d !! "title" = None.
Proof.
  apply (build_cache_frozen_page (Scenario.conf true) Scenario.frozen Scenario.revised
           1 "en" "title" 20).
  - reflexivity.
  - lia.
  - discriminate.
  - reflexivity.
  - reflexivity.
  - reflexivity.
  - intros x Hx _ _ Ht. unfold Scenario.revised, Scenario.world in Hx. cbn in Hx.
    rewrite !elem_of_cons in Hx. rewrite elem_of_nil in Hx.
    destruct Hx as [->|[->|[->|[->|[]]]]]; cbn in Ht |- *;
      try discriminate Ht; lia.
Defined.

(** X21: what one instance of a page builds, another instance reads back:
    after a build that had to query, a new instance of the same page gets
    the same contents with one read of the shared cache, and writes
    nothing. *)
Theorem build_cache_read_back (settings : Settings) (self other : Page) (w : World)
    (i : Z) (l : string) :
  pk self = Some i -> i <> 0 ->
  l <> "" ->
  truthy_dict (cache self) = false ->
  django_cache w !! content_key i = None ->
  pk other = Some i ->
  truthy_dict (cache other) = false ->
  exists c self' w1 w2,
    build_cache settings self (Some l) w = (Ok (c, self'), w1) /\
    build_cache settings other (Some l) w1 = (Ok (c, set_cache (Some c) other), w2) /\
    django_cache w2 = django_cache w1 /\
    cache_calls w2 = cache_calls w1 ++ [CacheGet (content_key i)].
Proof.
  intros Hpk Hi Hl Ht Hc Hpk' Ht'.
  destruct (build_cache_ok settings self (Some l) w i ∅ Hpk Hi
              (or_intror (conj Ht (or_intror (conj Hc eq_refl)))))
    as (w1 & Heq & _ & _ & Hcache & _).
  assert (Hs : truthy_str (Some l) = true)
    by (destruct l; [exfalso; apply Hl; reflexivity | reflexivity]).
  rewrite Hs in Heq, Hcache. cbn [default] in Heq, Hcache. unfold id in Heq, Hcache.
  unfold filter in Heq, Hcache. cbn [list_filter] in Heq, Hcache.
  rewrite decide_True in Heq
    by (apply Is_true_true, bool_decide_eq_true, lookup_empty).
  rewrite decide_True in Hcache
    by (apply Is_true_true, bool_decide_eq_true, lookup_empty).
  cbn [foldl length Nat.eqb] in Heq, Hcache.
  set (c := cache_language w self ∅ l) in *.
  assert (Hk : django_cache w1 !! content_key i = Some (VContent c))
    by (rewrite Hcache; apply lookup_insert_eq).
  destruct (build_cache_ok settings other (Some l) w1 i c Hpk' Hi
              (or_intror (conj Ht' (or_introl Hk))))
    as (w2 & Heq2 & _ & _ & Hcache2 & Hcalls2).
  rewrite Hs in Heq2, Hcache2, Hcalls2.
  cbn [default] in Heq2, Hcache2, Hcalls2. unfold id in Heq2, Hcache2, Hcalls2.
  assert (Hn2 : filter (fun l0 : string => bool_decide (c !! l0 = None)) [l] = []).
  { unfold filter; cbn [list_filter]. rewrite decide_False; [reflexivity|].
    intros H. apply Is_true_true, bool_decide_eq_true in H.
    unfold c, cache_language in H. rewrite lookup_insert_eq in H. discriminate H. }
  rewrite Hn2 in Heq2, Hcache2, Hcalls2. cbn in Heq2, Hcache2, Hcalls2.
  rewrite Ht', app_nil_r in Hcalls2.
  exists c, (set_cache (Some c) self), w1, w2. auto.
Qed.

Lemma build_cache_read_back_witness :
  exists c self' w1 w2,
    build_cache (Scenario.conf true) Scenario.R (Some "en") Scenario.world
    = (Ok (c, self'), w1) /\
    build_cache (Scenario.conf true) Scenario.frozen (Some "en") w1
    = (Ok (c, set_cache (Some c) Scenario.frozen), w2) /\
    django_cache w2 = django_cache w1 /\
    cache_calls w2 = cache_calls w1 ++ [CacheGet (content_key 1)].
Proof.
  apply (build_cache_read_back (Scenario.conf true) Scenario.R Scenario.frozen
           Scenario.world 1 "en").
  - reflexivity.
  - lia.
  - discriminate.
  - reflexivity.
  - reflexivity.
  - reflexivity.
  - reflexivity.
Defined.

(** ** The languages of a page *)

(** X22: for a page without a key that remembers no language,
    [get_languages] fails with the [ValueError] of [build_cache], and
    no call on the cache is made. *)
Theorem get_languages_unsaved (settings : Settings) (self : Page) (w : World) :
  pk self = None ->
  truthy_list (_languages self) = false ->
  get_languages settings self w = (Raise (ValueError "Page have no id"), w).
Proof.
  intros Hpk Hl. unfold get_languages. rewrite Hl.
  unfold build_cache. cbn [pk set__languages]. rewrite Hpk. reflexivity.
Qed.

Lemma get_languages_unsaved_witness :
  get_languages (Scenario.conf true)
    (mkPage None None None None None (Some DRAFT) None None None None None None false)
    Scenario.world
  = (Raise (ValueError "Page have no id"), Scenario.world).
Proof.
  apply (get_languages_unsaved (Scenario.conf true)
           (mkPage None None None None None (Some DRAFT) None None None None None None false)
           Scenario.world).
  - reflexivity.
  - reflexivity.
Defined.

(** X23: for a saved page that remembers no language, [get_languages]
    returns configured languages only, in the configured order, each
    once if the configuration lists it once; the list is remembered on
    the instance, and when it is not empty a later call returns it
    again without touching the world, whatever the world has become. *)
Theorem get_languages_configured (settings : Settings) (self : Page) (w : World)
    (i : Z) :
  pk self = Some i -> i <> 0 ->
  (forall v, django_cache w !! content_key i = Some v -> exists d, v = VContent d) ->
  truthy_list (_languages self) = false ->
  exists langs self' w',
    get_languages settings self w = (Ok (langs, self'), w') /\
    langs `sublist_of` (fst <$> GERBI_LANGUAGES settings) /\
    _languages self' = Some langs /\
    (langs <> [] ->
     forall w2, get_languages settings self' w2 = (Ok (langs, self'), w2)).
Proof.
  intros Hpk Hi Hv Hl.
  set (self0 := set__languages (Some []) self).
  assert (Hstart : exists c0,
    (truthy_dict (cache self0) = true /\ cache self0 = Some c0) \/
    (truthy_dict (cache self0) = false /\
     (django_cache w !! content_key i = Some (VContent c0) \/
      django_cache w !! content_key i = None /\ c0 = ∅))).
  { destruct (truthy_dict (cache self0)) eqn:Ht.
    - destruct (cache self0) as [c0|] eqn:Hc; [|discriminate Ht].
      exists c0. left. auto.
    - destruct (django_cache w !! content_key i) as [v|] eqn:Hk.
      + destruct (Hv v eq_refl) as [d ->]. exists d. right. auto.
      + exists ∅. right. auto. }
  destruct Hstart as [c0 Hstart].
  destruct (build_cache_ok settings self0 None w i c0 Hpk Hi Hstart) as (w' & Heq & _).
  unfold get_languages. rewrite Hl. fold self0. run. rewrite Heq.
  eexists _, _, w'. split; [reflexivity|].
  split; [apply sublist_filter|]. split; [reflexivity|].
  intros Hne w2.
  match goal with |- context [set__languages (Some ?ls) ?p] =>
    set (langs := ls) in *; set (self1 := p) in * end.
  change (_languages (set__languages (Some langs) self1)) with (Some langs).
  destruct langs as [|l0 langs0] eqn:Hlangs; [congruence|]. reflexivity.
Qed.

Lemma get_languages_configured_witness :
  exists langs self' w',
    get_languages (Scenario.conf true) Scenario.R Scenario.world
    = (Ok (langs, self'), w') /\
    langs `sublist_of` ["en"; "fr"] /\
    _languages self' = Some langs /\
    (langs <> [] ->
     forall w2, get_languages (Scenario.conf true) self' w2 = (Ok (langs, self'), w2)).
Proof.
  apply (get_languages_configured (Scenario.conf true) Scenario.R Scenario.world 1).
  - reflexivity.
  - lia.
  - intros v Hv. vm_compute in Hv. discriminate Hv.
  - reflexivity.
Defined.

(** ** The representation of a page *)

Lemma append_empty_r (s : string) : s +:+ "" = s.
Proof.
  induction s as [|a s IH]; [reflexivity|].
  change (String a s +:+ "") with (String a (s +:+ "")). rewrite IH. reflexivity.
Qed.

(** X24: what [__unicode__] returns, for a page whose key, if it has one,
    is a 64-bit database integer: the slug of the page (default language,
    with fallback) when the page has a key and a slug that is not empty;
    "Page " followed by the key when it has a key and no slug, or an
    empty one; "Page without id" when it has no key, or the key [0].  The
    text is never empty, and the world is left as it was.  (Keys are not
    bounded here; the lookup of the slug by a key outside the range of
    the key column is not covered.) *)
Theorem unicode_text (settings : Settings) (self : Page) (w : World) :
  (forall i, pk self = Some i -> - 2 ^ 63 <= i < 2 ^ 63) ->
  let s := objects_get_content settings w self None "slug" true in
  exists u,
    __unicode__ settings self w = (Ok u, w) /\ u <> "" /\
    (truthy_int (pk self) = false -> u = "Page without id") /\
    (truthy_int (pk self) = true -> forall x, s = Some x -> x <> "" -> u = x) /\
    (truthy_int (pk self) = true -> truthy_str s = false ->
     forall i, pk self = Some i -> u = "Page " +:+ str_of_int i).
Proof.
  intros _ s. unfold __unicode__.
  destruct (truthy_int (pk self)) eqn:Hid.
  - unfold slug, get_content. run. fold s.
    destruct (pk self) as [i|] eqn:Hpk; [|discriminate Hid].
    destruct s as [[|a x]|] eqn:Hs; cbn [truthy_str fmt_d lift].
    + eexists. split; [reflexivity|]. split; [discriminate|].
      split; [discriminate|]. split; [intros _ x [= <-] Hx; congruence|].
      intros _ _ j [= <-]. cbn. f_equal. apply append_empty_r.
    + eexists. split; [reflexivity|]. split; [discriminate|].
      split; [discriminate|]. split; [intros _ y [= <-] _; reflexivity|].
      intros _ Hf. discriminate Hf.
    + eexists. split; [reflexivity|]. split; [discriminate|].
      split; [discriminate|]. split; [intros _ x Hx; discriminate Hx|].
      intros _ _ j [= <-]. cbn. f_equal. apply append_empty_r.
  - eexists. split; [reflexivity|]. split; [discriminate|].
    split; [reflexivity|]. split; intros Hf; discriminate Hf.
Qed.

Lemma unicode_text_witness :
  exists u,
    __unicode__ (Scenario.conf true) Scenario.B Scenario.world = (Ok u, Scenario.world) /\
    u <> "" /\
    (true = false -> u = "Page without id") /\
    (true = true -> forall x, Some "team" = Some x -> x <> "" -> u = x) /\
    (true = true -> true = false ->
     forall i, Some 3 = Some i -> u = "Page " +:+ str_of_int i).
Proof.
  apply (unicode_text (Scenario.conf true) Scenario.B Scenario.world).
  intros i [= <-]. lia.
Defined.

(** ** More of the tree: traversal, parents, templates and move targets *)

(** Below the roots [get_prev_in_book] always finds a page. *)
Lemma get_prev_in_book_defined (f : forest) (init : path) (k : nat) (t : tree) :
  MPTT.wf_forest f = true -> init <> [] ->
  MPTT.node_at f (init ++ [k]) = Some t ->
  exists r, get_prev_in_book f (MPTT.row_of t) = Ok (Some r).
Proof.
  intros Hwf Hne Ht. destruct k as [|k].
  - assert (Ha : exists a, MPTT.node_at f init = Some a).
    { rewrite node_at_snoc in Ht by exact Hne.
      destruct (MPTT.node_at f init) as [a|]; [eauto|discriminate]. }
    destruct Ha as [a Ha]. exists (MPTT.row_of a).
    exact (get_prev_in_book_first_child f init t a Hwf Hne Ht Ha).
  - assert (Ha : exists a, MPTT.node_at f (init ++ [k]) = Some a).
    { rewrite <- level_at_sibling with (k := Datatypes.S k).
      rewrite <- level_at_sibling with (k := Datatypes.S k) (j := Datatypes.S k) in Ht.
      apply lookup_lt_Some in Ht.
      destruct (lookup_lt_is_Some_2 (MPTT.level_at f (init ++ [Datatypes.S k])) k) as [a Ha];
        [lia | eauto]. }
    destruct Ha as [a Ha]. destruct (preorder_last a) as [x Hx]. exists x.
    exact (get_prev_in_book_sibling f init k t a x Hwf Hne Ht Ha Hx).
Qed.

(** Where [get_next_in_book] leads is a row of the table. *)
Lemma get_next_in_book_lands (f : forest) (p : path) (t : tree) (q : Page) :
  MPTT.wf_forest f = true ->
  MPTT.node_at f p = Some t ->
  get_next_in_book f (MPTT.row_of t) = Ok (Some q) ->
  exists p' t', MPTT.node_at f p' = Some t' /\ q = MPTT.row_of t'.
Proof.
  intros Hwf Ht Hnext.
  pose proof (position_row f _ t Hwf Ht) as Hpos.
  destruct (position_snoc f _ p Hpos) as (init & k & ->).
  assert (Hp : init ++ [k] <> []) by (destruct init; discriminate).
  rewrite get_next_in_book_characterised in Hnext.
  assert (Hspec : next_in_book f (MPTT.row_of t) = Some q).
  { destruct (get_children f (MPTT.row_of t)), (get_next_sibling f (MPTT.row_of t)),
      (get_ancestors f (MPTT.row_of t) true); congruence. }
  clear Hnext. unfold next_in_book in Hspec.
  rewrite (get_children_at f _ _ t Hpos Ht) in Hspec.
  destruct (MPTT.kids_of t) as [|c cs] eqn:Hkids; cbn [fmap list_fmap] in Hspec.
  - destruct (get_next_sibling f (MPTT.row_of t)) as [s|] eqn:Hs.
    + injection Hspec as ->.
      rewrite (get_next_sibling_at f _ init k Hpos) in Hs.
      destruct (MPTT.node_at f (init ++ [Datatypes.S k])) as [sn|] eqn:Hsn; [|discriminate].
      injection Hs as <-. eauto.
    + destruct (climb_same_tree f q Hwf _ t Ht Hspec) as (p' & t' & Hp' & -> & _).
      eauto.
  - injection Hspec as <-.
    exists ((init ++ [k]) ++ [0%nat]), c. split; [|reflexivity].
    rewrite node_at_snoc, Ht by exact Hp. cbn. rewrite Hkids. reflexivity.
Qed.

(** X25: [get_prev_in_book] undoes [get_next_in_book].  In a consistent
    table, when [get_next_in_book] leads from a page to a page that is
    not a root, [get_prev_in_book] leads from there back to the page. *)
Theorem get_prev_in_book_undoes_next (f : forest) (p : path) (t : tree) (q : Page) :
  MPTT.wf_forest f = true ->
  MPTT.node_at f p = Some t ->
  get_next_in_book f (MPTT.row_of t) = Ok (Some q) ->
  MPTT.is_root_node q = false ->
  get_prev_in_book f q = Ok (Some (MPTT.row_of t)).
Proof.
  intros Hwf Ht Hnext Hq.
  destruct (get_next_in_book_lands f p t q Hwf Ht Hnext) as (p' & t' & Ht' & ->).
  pose proof (position_row f _ t' Hwf Ht') as Hpos.
  destruct (position_snoc f _ p' Hpos) as (init & k & ->).
  destruct init as [|k0 init0].
  { cbn [app] in Ht'. apply node_at_cons_inv in Ht' as (c & Hk & [= <-]).
    unfold MPTT.is_root_node in Hq.
    rewrite (wf_forest_root_parent f k c Hwf Hk) in Hq. discriminate Hq. }
  destruct (get_prev_in_book_defined f (k0 :: init0) k t' Hwf ltac:(discriminate) Ht')
    as [r Hr].
  rewrite Hr. f_equal. f_equal.
  exact (get_prev_in_book_next f p t (MPTT.row_of t') r Hwf Ht Hnext Hr).
Qed.

Lemma get_prev_in_book_undoes_next_witness :
  get_prev_in_book Scenario.site Scenario.B = Ok (Some Scenario.A).
Proof.
  apply (get_prev_in_book_undoes_next Scenario.site [0%nat; 0%nat]
           (Node Scenario.A [Node Scenario.B []]) Scenario.B).
  - reflexivity.
  - reflexivity.
  - reflexivity.
  - reflexivity.
Defined.

Lemma get_next_in_book_same_tree_witness :
  get_root Scenario.site Scenario.B = get_root Scenario.site Scenario.A.
Proof.
  apply (get_next_in_book_same_tree Scenario.site [0%nat; 0%nat]
           (Node Scenario.A [Node Scenario.B []]) Scenario.B).
  - reflexivity.
  - reflexivity.
  - cbn. lia.
  - reflexivity.
Defined.

Lemma get_prev_in_book_same_tree_witness :
  get_root Scenario.site Scenario.A = get_root Scenario.site Scenario.B.
Proof.
  apply (get_prev_in_book_same_tree Scenario.site [0%nat; 0%nat; 0%nat]
           (Node Scenario.B []) Scenario.A).
  - reflexivity.
  - reflexivity.
  - reflexivity.
Defined.

(** X28: [get_parent] agrees with [get_ancestors]: for a row of a
    consistent table it returns the first of the ascending ancestors,
    and nothing for a root. *)
Theorem get_parent_first_ancestor (f : forest) (p : path) (t : tree) :
  MPTT.wf_forest f = true ->
  MPTT.node_at f p = Some t ->
  get_parent f (MPTT.row_of t) = Ok (head (get_ancestors f (MPTT.row_of t) true)).
Proof.
  intros Hwf Ht.
  pose proof (position_row f _ t Hwf Ht) as Hpos.
  destruct (position_snoc f _ p Hpos) as (init & k & ->).
  destruct init as [|k0 init0].
  - rewrite (get_ancestors_root f _ k Hpos).
    cbn [app] in Ht. apply node_at_cons_inv in Ht as (c & Hk & [= <-]).
    unfold get_parent. rewrite (wf_forest_root_parent f k c Hwf Hk). reflexivity.
  - set (init := k0 :: init0) in *.
    assert (Hne : init <> []) by discriminate. clearbody init.
    destruct (wf_child_parent f init k t Hwf Hne Ht) as (a & i & Ha & Hi & Hpar).
    rewrite (get_ancestors_snoc f _ init k a Hwf Hpos Ha). cbn [head].
    unfold get_parent, objects_get. rewrite Hpar.
    rewrite (locate_complete f i init a (wf_forest_keys f Hwf) Ha Hi). cbn. rewrite Ha.
    reflexivity.
Qed.

Lemma get_parent_first_ancestor_witness :
  get_parent Scenario.site Scenario.B
  = Ok (head (get_ancestors Scenario.site Scenario.B true)).
Proof.
  apply (get_parent_first_ancestor Scenario.site [0%nat; 0%nat; 0%nat]
           (Node Scenario.B [])).
  - reflexivity.
  - reflexivity.
Defined.

(** X29: a page without a template of its own has the template of its
    parent, whatever that one resolves to. *)
Theorem get_template_inherited (settings : Settings) (f : forest) (init : path)
    (k : nat) (t a : tree) :
  MPTT.wf_forest f = true ->
  MPTT.node_at f (init ++ [k]) = Some t ->
  MPTT.node_at f init = Some a ->
  truthy_str (template (MPTT.row_of t)) = false ->
  get_template settings f (MPTT.row_of t) = get_template settings f (MPTT.row_of a).
Proof.
  intros Hwf Ht Ha Hnone.
  pose proof (position_row f _ t Hwf Ht) as Hpos.
  unfold get_template. rewrite Hnone.
  rewrite (get_ancestors_snoc f _ init k a Hwf Hpos Ha). cbn [first_template].
  destruct (truthy_str (template (MPTT.row_of a))) eqn:Hta; [|reflexivity].
  rewrite Hta. reflexivity.
Qed.

Lemma get_template_inherited_witness :
  get_template (Scenario.conf true) Scenario.themed Scenario.A
  = get_template (Scenario.conf true) Scenario.themed
      (Scenario.with_template "home.html" Scenario.R).
Proof.
  apply (get_template_inherited (Scenario.conf true) Scenario.themed [0%nat] 0%nat
           (Node Scenario.A [Node Scenario.B []])
           (Node (Scenario.with_template "home.html" Scenario.R)
                 [Node Scenario.A [Node Scenario.B []]])).
  - reflexivity.
  - reflexivity.
  - reflexivity.
  - reflexivity.
Defined.

(** The rows of a subtree are at the positions below its root. *)
Lemma preorder_node_at (f : forest) (p : path) (t : tree) (x : Page) :
  MPTT.node_at f p = Some t -> x ∈ MPTT.preorder t ->
  exists q t', MPTT.node_at f (p ++ q) = Some t' /\ x = MPTT.row_of t'.
Proof.
  intros Ht Hx. apply preorder_subtree in Hx as (q & t' & Hq & ->).
  exists q, t'. split; [|reflexivity]. exact (node_at_app f p q t t' Ht Hq).
Qed.

(** In a consistent table a key is at one position. *)
Lemma node_at_key_inj (f : forest) (p p' : path) (t t' : tree) :
  MPTT.wf_forest f = true ->
  MPTT.node_at f p = Some t -> MPTT.node_at f p' = Some t' ->
  pk (MPTT.row_of t) = pk (MPTT.row_of t') -> p = p'.
Proof.
  intros Hwf Ht Ht' Hpk.
  pose proof (position_row f p t Hwf Ht) as Hp.
  pose proof (position_row f p' t' Hwf Ht') as Hp'.
  unfold MPTT.position in Hp, Hp'. rewrite Hpk in Hp. congruence.
Qed.

(** X30: [valid_targets] are the rows outside the subtree of the page.
    In a consistent table a row is a valid target for moving [self]
    exactly when its position is not [self]'s own or below it, so that
    moving [self] under a valid target cannot close a cycle. *)
Theorem valid_targets_outside_subtree (f : forest) (p p' : path) (t t' : tree) :
  MPTT.wf_forest f = true ->
  MPTT.node_at f p = Some t ->
  MPTT.node_at f p' = Some t' ->
  MPTT.row_of t' ∈ valid_targets f (MPTT.row_of t) <-> ~ p `prefix_of` p'.
Proof.
  intros Hwf Ht Ht'.
  pose proof (position_row f p t Hwf Ht) as Hpos.
  assert (Hp : p <> []) by (destruct p; [discriminate|congruence]).
  unfold valid_targets, objects_exclude.
  rewrite (get_descendants_at f _ p t Hpos Ht).
  rewrite list_elem_of_filter.
  assert (Hsub : pk (MPTT.row_of t') ∈ pk (MPTT.row_of t) :: (pk <$> MPTT.rows (MPTT.kids_of t))
                 <-> p `prefix_of` p').
  { split.
    - intros Hin.
      assert (Hx : exists x, x ∈ MPTT.preorder t /\ pk (MPTT.row_of t') = pk x).
      { destruct t as [r ks]. rewrite preorder_node. cbn [MPTT.row_of MPTT.kids_of] in Hin.
        apply elem_of_cons in Hin as [Heq|Hin].
        - exists r. split; [left|exact Heq].
        - apply list_elem_of_fmap in Hin as (x & Heq & Hx).
          exists x. split; [right; exact Hx | exact Heq]. }
      destruct Hx as (x & Hx & Heq).
      destruct (preorder_node_at f p t x Ht Hx) as (q & t'' & Hq & ->).
      exists q. symmetry.
      exact (node_at_key_inj f _ _ t'' t' Hwf Hq Ht' (eq_sym Heq)).
    - intros [q ->].
      destruct (node_at_prefix f p q t' Ht' Hp) as (a & Ha & Hq).
      assert (a = t) as -> by congruence.
      assert (Hx : MPTT.row_of t' ∈ MPTT.preorder t)
        by (apply preorder_subtree; eauto).
      destruct t as [r ks]. rewrite preorder_node in Hx.
      cbn [MPTT.row_of MPTT.kids_of].
      apply elem_of_cons in Hx as [->|Hx]; [left|right].
      apply list_elem_of_fmap. eauto. }
  split.
  - intros [Hneg _] Hpre. apply Hsub in Hpre.
    apply Is_true_true, negb_true_iff, bool_decide_eq_false in Hneg. contradiction.
  - intros Hpre. split.
    + apply Is_true_true, negb_true_iff, bool_decide_eq_false.
      intros Hin. apply Hpre, Hsub, Hin.
    + apply rows_node_at. eauto.
Qed.

Lemma valid_targets_outside_subtree_witness :
  Scenario.R ∈ valid_targets Scenario.site Scenario.A
  <-> ~ [0%nat; 0%nat] `prefix_of` [0%nat].
Proof.
  apply (valid_targets_outside_subtree Scenario.site [0%nat; 0%nat] [0%nat]
           (Node Scenario.A [Node Scenario.B []])
           (Node Scenario.R [Node Scenario.A [Node Scenario.B []]])).
  - reflexivity.
  - reflexivity.
  - reflexivity.
Defined.
